(** * scp-bot: the library store, the sync reconciler and the browsing session

    A shallow embedding of [queries.py], [scraper.py], [bot.py] and
    [utils/views/library_view.py], and the properties of their specification.

    Conventions.
    - A Python [str] is a [string]; its characters are Rocq's 8-bit [ascii].
    - [None] versus a value is [option]; an SQL NULL is [None] too.
    - A raised exception is an explicit failure value ([None], [Err]).
    - Network, clock and chat-gateway effects are explicit: outbound requests
      are answered by an oracle, sleeps and messages are recorded in a trace. *)

From Stdlib Require Import String Ascii List ZArith Lia Bool Arith.
From Stdlib Require Import Sorting.Sorted Sorting.Permutation.
Import ListNotations.
Open Scope string_scope.

(** ** Python string operations used by the code *)

Module PyStr.

(** [needle in hay] *)
Fixpoint str_in (needle hay : string) : bool :=
  String.prefix needle hay ||
  match hay with
  | EmptyString => false
  | String _ rest => str_in needle rest
  end.

(** [s.endswith(suffix)] *)
Fixpoint endswith (s suffix : string) : bool :=
  (s =? suffix) ||
  match s with
  | EmptyString => false
  | String _ rest => endswith rest suffix
  end.

(** Truth value of a string: the empty string is falsy. *)
Definition truthy (s : string) : bool := negb (s =? "").

(** Truth value of [None]-or-string. *)
Definition truthy_opt (o : option string) : bool :=
  match o with
  | Some s => truthy s
  | None => false
  end.

(** Characters removed by [str.strip()]: the white space among the code
    points below 256, that is TAB to CR, FS to US, the space, NEL (U+0085)
    and the no-break space (U+00A0). *)
Definition is_space (c : ascii) : bool :=
  let n := nat_of_ascii c in
  ((9 <=? n)%nat && (n <=? 13)%nat) || ((28 <=? n)%nat && (n <=? 32)%nat)
  || (n =? 133)%nat || (n =? 160)%nat.

Fixpoint lstrip (s : string) : string :=
  match s with
  | EmptyString => EmptyString
  | String c rest => if is_space c then lstrip rest else s
  end.

Fixpoint rstrip (s : string) : string :=
  match s with
  | EmptyString => EmptyString
  | String c rest =>
      match rstrip rest with
      | EmptyString => if is_space c then EmptyString else String c EmptyString
      | r => String c r
      end
  end.

(** [s.strip()] *)
Definition strip (s : string) : string := rstrip (lstrip s).

(** [s.split(sep)] for a one-character separator; the accumulator holds the
    current field. *)
Fixpoint split_acc (sep : ascii) (cur : string) (s : string) : list string :=
  match s with
  | EmptyString => [cur]
  | String c rest =>
      if (c =? sep)%char then cur :: split_acc sep EmptyString rest
      else split_acc sep (cur ++ String c EmptyString) rest
  end.

Definition split (sep : ascii) (s : string) : list string :=
  split_acc sep EmptyString s.

(** [s[:n]] *)
Definition take (n : nat) (s : string) : string := String.substring 0 n s.

(** Insertion into a list ordered by [le]; the new element goes before the
    first element it is [le] to, so equal elements keep their order. *)
Fixpoint insert_by {A : Type} (le : A -> A -> bool) (x : A) (l : list A) : list A :=
  match l with
  | [] => [x]
  | y :: rest => if le x y then x :: l else y :: insert_by le x rest
  end.

(** A stable sort: [sorted(l)] when [le] is the order of the keys. *)
Fixpoint sort_by {A : Type} (le : A -> A -> bool) (l : list A) : list A :=
  match l with
  | [] => []
  | x :: rest => insert_by le x (sort_by le rest)
  end.

(** [sorted(l)] on strings: code-point order. *)
Definition sorted (l : list string) : list string := sort_by String.leb l.

(** The elements of a [set] built from [l], in first-occurrence order
    (the order is irrelevant to the code, which sorts the set). *)
Fixpoint set_of (l : list string) : list string :=
  match l with
  | [] => []
  | x :: rest => x :: filter (fun y => negb (y =? x)) (set_of rest)
  end.

End PyStr.

(** ** config.py *)

Module Config.

Definition LIBRARY_BASE_URL : string := "https://sacredcommunityproject.org".
Definition RESULTS_PER_PAGE : Z := 5.
Definition SEARCH_RESULTS_LIMIT : Z := 20.

End Config.

(** ** The [library_content] table and the SQL the code runs on it *)

Module Sql.

(** [LIKE] folds the case of ASCII letters only. *)
Definition fold_case (c : ascii) : ascii :=
  let n := nat_of_ascii c in
  if (65 <=? n)%nat && (n <=? 90)%nat then ascii_of_nat (n + 32) else c.

(** [s LIKE pat] on text: [%] matches any run of characters, [_] any one
    character, every other character itself up to ASCII case (the code
    passes no ESCAPE clause, so a [%] or [_] typed by the user is a wild
    card). *)
Fixpoint like_match (pat : string) : string -> bool :=
  match pat with
  | EmptyString => fun s => match s with EmptyString => true | _ => false end
  | String p pat' =>
      if (p =? "%")%char then
        fix star (s : string) : bool :=
          like_match pat' s ||
          match s with
          | EmptyString => false
          | String _ s' => star s'
          end
      else
        fun s =>
          match s with
          | EmptyString => false
          | String c s' =>
              ((p =? "_")%char || (fold_case p =? fold_case c)%char)
              && like_match pat' s'
          end
  end.

(** The three comparisons of the WHERE clauses, as "evaluates to true": a
    NULL operand makes the comparison NULL, which selects no row. The WHERE
    clauses combine them with AND and OR only, for which "is true" is
    compositional. *)
Definition like (x : option string) (pat : string) : bool :=
  match x with
  | Some s => like_match pat s
  | None => false
  end.

Definition neq (x : option string) (lit : string) : bool :=
  match x with
  | Some s => negb (s =? lit)
  | None => false
  end.

Definition eq (x : option string) (v : string) : bool :=
  match x with
  | Some s => s =? v
  | None => false
  end.

(** The order of ORDER BY and MAX on a TEXT column: NULL below every text,
    texts in byte order. *)
Definition compare_val (x y : option string) : comparison :=
  match x, y with
  | None, None => Eq
  | None, Some _ => Lt
  | Some _, None => Gt
  | Some a, Some b => String.compare a b
  end.

End Sql.

Module Store.

(** A row of [library_content] (the [id] column is the position in the
    table). The TEXT columns other than [url] admit NULL; [scraped_at] is
    filled by its default, the time of the insertion. *)
Record Row := mkRow {
  url : string;
  title : option string;
  categories : option string;
  author : option string;
  published_date : option string;
  tags : option string;
  description : option string;
  last_modified : option string;
  scraped_at : string;
  scrape_success : bool
}.

(** The table, in rowid order. *)
Definition Table := list Row.

(** [url TEXT UNIQUE NOT NULL] *)
Definition unique_urls (db : Table) : Prop := NoDup (map url db).

(** [SELECT ... WHERE url = ?] followed by [fetchone()] *)
Definition find_url (u : string) (db : Table) : option Row :=
  find (fun r => url r =? u) db.

End Store.

(** ** queries.py

    A [SELECT] without [ORDER BY] yields the rows in table order, and rows
    that [ORDER BY] does not tell apart keep that order. *)

Module Queries.
Import PyStr Store.

(** One result of [search_content]. *)
Record Article := mkArticle {
  a_url : string;
  a_title : option string;
  a_categories : option string;
  a_author : option string;
  a_published_date : option string;
  a_tags : list string;
  a_description : string
}.

(** The result of [get_content_stats]. *)
Record Stats := mkStats {
  total_articles : nat;
  total_categories : nat;
  total_authors : nat;
  total_tags : nat;
  last_update : option string
}.

(** The four counts of a [Stats]. *)
Definition counts (s : Stats) : nat * nat * nat * nat :=
  (total_articles s, total_categories s, total_authors s, total_tags s).

(** [a] stands before [b] in [l]. *)
Definition precedes {A : Type} (l : list A) (a b : A) : Prop :=
  exists l1 l2 l3, l = (l1 ++ a :: l2 ++ b :: l3)%list.

(** The non-NULL values of a column. *)
Definition texts (col : Row -> option string) (rows : list Row) : list string :=
  flat_map (fun r => match col r with Some v => [v] | None => [] end) rows.

(** [tag_counts[tag] = tag_counts.get(tag, 0) + 1] on a dict, kept as the
    list of its items in insertion order. *)
Fixpoint bump (tag : string) (counts : list (string * nat)) : list (string * nat) :=
  match counts with
  | [] => [(tag, 1)]
  | (t, n) :: rest =>
      if t =? tag then (t, n + 1) :: rest else (t, n) :: bump tag rest
  end.

(** The keys of the dict, [t in keys], the loop body as a function of the
    dict, and [tag_counts.get(t, 0)]. *)
Definition keys (c : list (string * nat)) : list string := map fst c.
Definition mem (t : string) (ks : list string) : bool := existsb (String.eqb t) ks.
Definition bumpf (tc : list (string * nat)) (tag : string) := bump tag tc.
Definition count_of (t : string) (c : list (string * nat)) : nat :=
  match find (fun p => fst p =? t) c with
  | Some p => snd p
  | None => 0
  end.

(** [sorted(items, key=lambda x: x[1], reverse=True)]: by count, largest
    first, items of equal count in their original order. *)
Definition sorted_by_popularity (items : list (string * nat)) : list (string * nat) :=
  sort_by (fun x y => (snd y <=? snd x)%nat) items.

(** The order [sorted_by_popularity] puts the items in: larger counts
    first, and among equal counts the order the items came in. *)
Definition popular_first (items : list (string * nat)) (a b : string * nat) : Prop :=
  (snd b < snd a)%nat \/ (snd a = snd b /\ precedes items a b).

(** [ORDER BY published_date DESC, scraped_at DESC]: [r1] may precede [r2]. *)
Definition newest_first (r1 r2 : Row) : bool :=
  match Sql.compare_val (published_date r2) (published_date r1) with
  | Lt => true
  | Gt => false
  | Eq =>
      match String.compare (scraped_at r2) (scraped_at r1) with
      | Gt => false
      | _ => true
      end
  end.

(** [LIMIT ?]: a negative limit is no limit. *)
Definition sql_limit {A : Type} (limit : Z) (l : list A) : list A :=
  if (limit <? 0)%Z then l else firstn (Z.to_nat limit) l.

(** The double quote character. *)
Definition dquote : string := String (ascii_of_nat 34) EmptyString.

(** [MAX(col)] over texts: NULL on no row. *)
Definition sql_max (l : list string) : option string :=
  fold_left
    (fun acc v =>
       match Sql.compare_val acc (Some v) with
       | Lt => Some v
       | _ => acc
       end)
    l None.

Section WithJson.

(** [json.loads] on the text of the [tags] column: the list of strings it
    encodes, or [None] for [json.JSONDecodeError]. *)
Variable json_loads : string -> option (list string).

(** [LibraryDatabase.get_all_categories] *)
Definition get_all_categories (db : Table) : list string :=
  let rows :=
    filter (fun r => scrape_success r && Sql.neq (categories r) "Uncategorized") db in
  let fetched := sorted (set_of (texts categories rows)) in
  let all_categories :=
    flat_map
      (fun row0 => if truthy row0 then map strip (split "," row0) else [])
      fetched in
  sorted (set_of all_categories).

(** [LibraryDatabase.get_all_authors] *)
Definition get_all_authors (db : Table) : list string :=
  let rows :=
    filter (fun r => scrape_success r && Sql.neq (author r) "Unknown") db in
  sorted (set_of (texts author rows)).

(** The loop of [get_all_tags_with_counts] that fills [tag_counts]. *)
Definition count_row (tag_counts : list (string * nat)) (row0 : string)
  : list (string * nat) :=
  if truthy row0 then
    match json_loads row0 with
    | Some tags => fold_left (fun tc tag => bump tag tc) tags tag_counts
    | None => tag_counts
    end
  else tag_counts.

(** The tags that loop meets, in the order it meets them. *)
Definition row_tags (row0 : string) : list string :=
  if truthy row0 then
    match json_loads row0 with
    | Some tags => tags
    | None => []
    end
  else [].

Definition all_tags (db : Table) : list string :=
  flat_map row_tags
    (texts tags (filter (fun r => scrape_success r && Sql.neq (tags r) "[]") db)).

Definition count_tags (db : Table) : list (string * nat) :=
  let rows := filter (fun r => scrape_success r && Sql.neq (tags r) "[]") db in
  fold_left count_row (texts tags rows) [].

(** [LibraryDatabase.get_all_tags_with_counts] *)
Definition get_all_tags_with_counts (db : Table) : list string :=
  let tag_counts := count_tags db in
  let top_24_tags := map fst (firstn 24 (sorted_by_popularity tag_counts)) in
  sorted top_24_tags.

(** The WHERE clause that [search_content] builds. *)
Definition search_where (category author_ tag search_term : option string)
    (r : Row) : bool :=
  scrape_success r
  && (match category with
      | Some c => if truthy c then Sql.like (categories r) ("%" ++ c ++ "%") else true
      | None => true
      end)
  && (match author_ with
      | Some a => if truthy a then Sql.eq (author r) a else true
      | None => true
      end)
  && (match tag with
      | Some t =>
          if truthy t then Sql.like (tags r) ("%" ++ dquote ++ t ++ dquote ++ "%")
          else true
      | None => true
      end)
  && (match search_term with
      | Some q =>
          if truthy q then
            let search_param := "%" ++ q ++ "%" in
            Sql.like (title r) search_param
            || Sql.like (categories r) search_param
            || Sql.like (author r) search_param
            || Sql.like (tags r) search_param
            || Sql.like (description r) search_param
          else true
      | None => true
      end).

(** The dict [search_content] builds from a fetched row. *)
Definition article_of_row (r : Row) : Article :=
  let parsed_tags :=
    if truthy_opt (tags r) then
      match tags r with
      | Some t => match json_loads t with Some l => l | None => [] end
      | None => []
      end
    else [] in
  mkArticle (url r) (title r) (categories r) (author r) (published_date r)
            parsed_tags
            (match description r with
             | Some d => d
             | None => ""
             end).

(** [LibraryDatabase.search_content] *)
Definition search_content (db : Table)
    (category author_ tag search_term : option string) (limit : Z)
  : list Article :=
  let rows := filter (search_where category author_ tag search_term) db in
  let fetched := sql_limit limit (sort_by newest_first rows) in
  map article_of_row fetched.

(** [LibraryDatabase.get_content_stats] *)
Definition get_content_stats (db : Table) : Stats :=
  let total_articles := length (filter scrape_success db) in
  let categories := get_all_categories db in
  let authors := get_all_authors db in
  let tags := get_all_tags_with_counts db in
  let last_update := sql_max (map scraped_at db) in
  mkStats total_articles (length categories) (length authors) (length tags)
          last_update.

(** [LibraryDatabase.validate_database], on a database that can be opened. *)
Definition validate_database (db : Table) : bool :=
  (0 <? length (filter scrape_success db))%nat.

End WithJson.

End Queries.

(** ** scraper.py *)

Module Scraper.
Import PyStr.

(** [Scraper.is_article_url] *)
Definition is_article_url (url : string) : bool :=
  if negb (str_in "/digital-library" url) then false
  else if endswith url "/digital-library" || endswith url "/digital-library/" then false
  else if str_in "/digital-library/category/" url then false
  else if str_in "/digital-library/tag/" url then false
  else if str_in "?author=" url || str_in "&author=" url then false
  else if str_in "/digital-library?" url then false
  else if str_in "/digital-library/" url
          && negb (existsb (fun x => str_in x url) ["category/"; "tag/"; "?"])
       then true
  else false.

(** An entry of the sitemap: [{'url': ..., 'lastmod': ...}]. *)
Record UrlData := mkUrlData {
  u_url : string;
  u_lastmod : option string
}.

(** [Scraper.filter_article_urls] *)
Definition filter_article_urls (all_urls : list UrlData) : list UrlData :=
  filter (fun url_data => is_article_url (u_url url_data)) all_urls.

(** The loop of [check_for_updates]: one entry against the table, the two
    lists being appended to. *)
Definition check_entry (db : Store.Table)
    (acc : list UrlData * list UrlData) (url_data : UrlData)
  : list UrlData * list UrlData :=
  let (new_articles, updated_articles) := acc in
  match Store.find_url (u_url url_data) db with
  | None => ((new_articles ++ [url_data])%list, updated_articles)
  | Some result =>
      let stored_lastmod := Store.last_modified result in
      let sitemap_lastmod := u_lastmod url_data in
      match sitemap_lastmod with
      | Some m =>
          if truthy m
             && negb (match stored_lastmod with
                      | Some m' => m =? m'
                      | None => false
                      end)
          then (new_articles, (updated_articles ++ [url_data])%list)
          else acc
      | None => acc
      end
  end.

(** The two tests of that loop, each on its own: "new article we haven't
    seen before" and "lastmod is newer or different". *)
Definition is_new (db : Store.Table) (e : UrlData) : bool :=
  match Store.find_url (u_url e) db with
  | None => true
  | Some _ => false
  end.

Definition is_changed (db : Store.Table) (e : UrlData) : bool :=
  match Store.find_url (u_url e) db, u_lastmod e with
  | Some row, Some m =>
      truthy m && negb (match Store.last_modified row with
                        | Some m' => m =? m'
                        | None => false
                        end)
  | _, _ => false
  end.

(** [Scraper.check_for_updates], from the entries the sitemaps gave
    ([get_all_urls_from_sitemap()]) and the table. *)
Definition check_for_updates (all_urls : list UrlData) (db : Store.Table)
  : list UrlData :=
  let article_urls := filter_article_urls all_urls in
  match article_urls with
  | [] => []
  | _ =>
      let (new_articles, updated_articles) :=
        fold_left (check_entry db) article_urls ([], []) in
      (new_articles ++ updated_articles)%list
  end.

(** What [extract_metadata] and [extract_description] read off a parsed
    page: the results of their [find] and [find_all] calls. *)
Record Soup := mkSoup {
  entry_title : option string;
  category_links : option (list string);
  author_link : option (option string);
  published_on : option (option string * string);
  tag_links : option (list string);
  content_paragraphs : option (list string);
  blockquote : option string
}.

(** The dict [extract_metadata] returns. *)
Record Data := mkData {
  d_url : string;
  d_last_modified : option string;
  d_scrape_success : bool;
  d_title : string;
  d_categories : string;
  d_author : string;
  d_published_date : string;
  d_tags : string;
  d_description : string
}.

(** [s.lower()] *)
Fixpoint lower (s : string) : string :=
  match s with
  | EmptyString => EmptyString
  | String c rest => String (Sql.fold_case c) (lower rest)
  end.

(** [', '.join(l)] *)
Fixpoint join (sep : string) (l : list string) : string :=
  match l with
  | [] => ""
  | [x] => x
  | x :: rest => x ++ sep ++ join sep rest
  end.

(** [text[:300] + "..." if len(text) > 300 else text] *)
Definition excerpt (text : string) : string :=
  if (300 <? String.length text)%nat then take 300 text ++ "..." else text.

(** [Scraper.extract_description] *)
Definition extract_description (soup : Soup) : string :=
  let good (text : string) : bool :=
    (50 <? String.length text)%nat
    && negb (existsb (fun word => str_in word (lower text))
                     ["order"; "buy"; "purchase"; "copy today"]) in
  match
    match content_paragraphs soup with
    | Some paragraphs => find good paragraphs
    | None => None
    end
  with
  | Some text => excerpt text
  | None =>
      match blockquote soup with
      | Some text => excerpt text
      | None => ""
      end
  end.

Section WithEnvironment.

(** [json.dumps] on a list of strings. *)
Variable json_dumps : list string -> string.

(** The answer to the [k]-th outbound page request, made for [url]: the
    parsed page, or [None] when [session.get], [raise_for_status] or the
    parser raises. *)
Variable net : nat -> string -> option Soup.

(** CURRENT_TIMESTAMP after [k] recorded effects. *)
Variable clock : nat -> string.

(** [Scraper.extract_metadata]; its [find] calls do not raise, and its
    [except] branch is not entered. *)
Definition extract_metadata (archive_dates_map : string -> option string)
    (soup : Soup) (url_data : UrlData) : Data :=
  let title :=
    match entry_title soup with
    | Some t => strip t
    | None => "No title found"
    end in
  let categories :=
    match category_links soup with
    | Some links =>
        let categories := map strip links in
        match categories with
        | [] => "Uncategorized"
        | _ => join ", " categories
        end
    | None => "Uncategorized"
    end in
  let author :=
    match author_link soup with
    | Some (Some a) => strip a
    | _ => "Unknown"
    end in
  let page_date :=
    match published_on soup with
    | Some (datetime, text) =>
        if truthy_opt datetime then
          match datetime with
          | Some d => d
          | None => strip text
          end
        else strip text
    | None => "Unknown"
    end in
  let published_date :=
    match archive_dates_map (u_url url_data) with
    | Some d => d
    | None => page_date
    end in
  let tags :=
    match tag_links soup with
    | Some links => json_dumps (map strip links)
    | None => json_dumps []
    end in
  let description := extract_description soup in
  let scrape_success :=
    negb ((title =? "No title found") || negb (truthy title)) in
  mkData (u_url url_data) (u_lastmod url_data) scrape_success
         title categories author published_date tags description.

(** The effects of a run, in order. *)
Inductive Event :=
| EGet (url : string)
| ESleep (milliseconds : Z)
| EStore (url : string).

(** The scraper object and its world during a run. *)
Record State := mkState {
  db : Store.Table;
  archive_dates_map : string -> option string;
  stats_pages_scraped : nat;
  stats_errors : nat;
  requests : nat;
  trace : list Event
}.

Definition max_retries : nat := 3.
Definition request_delay : Z := 1500.

(** [self.session.get(url, timeout=30)] up to the parsed page. *)
Definition http_get (url : string) (st : State) : option Soup * State :=
  (net (requests st) url,
   mkState (db st) (archive_dates_map st) (stats_pages_scraped st)
           (stats_errors st) (S (requests st)) (trace st ++ [EGet url])%list).

(** [time.sleep(seconds)], in milliseconds. *)
Definition sleep (ms : Z) (st : State) : State :=
  mkState (db st) (archive_dates_map st) (stats_pages_scraped st)
          (stats_errors st) (requests st) (trace st ++ [ESleep ms])%list.

(** [INSERT OR REPLACE]: the row of the same [url], if any, goes, and the
    new row gets a fresh rowid, [scraped_at] its default. *)
Definition insert_or_replace (row : Store.Row) (t : Store.Table) : Store.Table :=
  (filter (fun r => negb (Store.url r =? Store.url row)) t ++ [row])%list.

Definition row_of_data (data : Data) (now : string) : Store.Row :=
  Store.mkRow (d_url data) (Some (d_title data)) (Some (d_categories data))
              (Some (d_author data)) (Some (d_published_date data))
              (Some (d_tags data)) (Some (d_description data))
              (d_last_modified data) now (d_scrape_success data).

(** [Scraper.store_data], on a database that takes the statement. *)
Definition store_data (data : Data) (st : State) : State :=
  let now := clock (List.length (trace st)) in
  mkState (insert_or_replace (row_of_data data now) (db st))
          (archive_dates_map st) (stats_pages_scraped st) (stats_errors st)
          (requests st) (trace st ++ [EStore (d_url data)])%list.

(** The body of [scrape_page]'s [for attempt in range(self.max_retries)]. *)
Fixpoint scrape_attempts (attempts : list nat) (url_data : UrlData)
    (st : State) : option Data * State :=
  match attempts with
  | [] => (None, st)
  | attempt :: rest =>
      let (response, st1) := http_get (u_url url_data) st in
      match response with
      | Some soup =>
          (Some (extract_metadata (archive_dates_map st1) soup url_data), st1)
      | None =>
          if (attempt <? max_retries - 1)%nat then
            scrape_attempts rest url_data (sleep 2000%Z st1)
          else
            (None,
             mkState (db st1) (archive_dates_map st1) (stats_pages_scraped st1)
                     (S (stats_errors st1)) (requests st1) (trace st1))
      end
  end.

(** [Scraper.scrape_page] *)
Definition scrape_page (url_data : UrlData) (st : State) : option Data * State :=
  scrape_attempts (seq 0 max_retries) url_data st.

(** The state [scrape_page] leaves when the three attempts failed. *)
Definition gave_up (url : string) (st : State) : State :=
  mkState (db st) (archive_dates_map st) (stats_pages_scraped st)
          (S (stats_errors st)) (requests st + 3)
          (trace st ++ [EGet url; ESleep 2000%Z; EGet url; ESleep 2000%Z; EGet url])%list.

(** One iteration of the scraping loop of [run_incremental_update] (and of
    [run_full_scrape]); [successful_scrapes] is the loop's local counter. *)
Definition scrape_one (url_data : UrlData) (acc : State * nat) : State * nat :=
  let (st, successful_scrapes) := acc in
  let (data, st1) := scrape_page url_data st in
  let (st2, successful_scrapes') :=
    match data with
    | Some data =>
        let st2 := store_data data st1 in
        let st3 :=
          mkState (db st2) (archive_dates_map st2) (S (stats_pages_scraped st2))
                  (stats_errors st2) (requests st2) (trace st2) in
        if d_scrape_success data && negb (d_title data =? "No title found")
        then (st3, S successful_scrapes)
        else (st3, successful_scrapes)
    | None => (st1, successful_scrapes)
    end in
  (sleep request_delay st2, successful_scrapes').

(** The scraping loop: [for i, url_data in enumerate(articles_to_update, 1)]. *)
Definition scrape_loop_from (articles : list UrlData) (acc : State * nat)
  : State * nat :=
  fold_left (fun acc url_data => scrape_one url_data acc) articles acc.

Definition scrape_loop (articles : list UrlData) (st : State) : State * nat :=
  scrape_loop_from articles (st, 0).

End WithEnvironment.

(** The content URLs of the spec, "a well-formed content URL with no query
    string": the base URL, the content path and one non-empty path segment
    of unreserved URL characters (letters, digits, [-], [.], [_], [~]). *)
Definition is_unreserved (c : ascii) : bool :=
  let n := nat_of_ascii c in
  ((48 <=? n)%nat && (n <=? 57)%nat) || ((65 <=? n)%nat && (n <=? 90)%nat)
  || ((97 <=? n)%nat && (n <=? 122)%nat)
  || (n =? 45)%nat || (n =? 46)%nat || (n =? 95)%nat || (n =? 126)%nat.

Fixpoint all_unreserved (s : string) : bool :=
  match s with
  | EmptyString => true
  | String c rest => is_unreserved c && all_unreserved rest
  end.

Definition well_formed_slug (slug : string) : bool :=
  negb (slug =? "") && all_unreserved slug.

Definition content_url (slug : string) : string :=
  Config.LIBRARY_BASE_URL ++ "/digital-library/" ++ slug.

End Scraper.

(** ** bot.py: one article of a results page *)

Module Formatting.
Import PyStr.

(** The pieces [format_article] puts into its f-string. *)
Record Card := mkCard {
  c_title : string;
  c_url : string;
  c_category : string;
  c_author : string;
  c_tags_text : string
}.

(** [format_article]; [None] is the [TypeError] or [AttributeError] that a
    NULL title, categories or author raises. *)
Definition format_article (article : Queries.Article) : option Card :=
  match Queries.a_title article, Queries.a_categories article,
        Queries.a_author article with
  | Some t, Some c, Some a =>
      let title :=
        if (100 <? String.length t)%nat then take 100 t ++ "..." else t in
      let categories := if negb (c =? "Uncategorized") then c else "General" in
      let category := hd "" (split "," categories) in
      let author := if negb (a =? "Unknown") then a else "Unknown" in
      let tags_text :=
        match Queries.a_tags article with
        | [] => "No tags"
        | tags => Scraper.join ", " tags
        end in
      Some (mkCard title (Queries.a_url article) (take 40 category)
                   (take 30 author) tags_text)
  | _, _, _ => None
  end.


End Formatting.

(** ** bot.py: the browsing session *)

Module Bot.
Import PyStr Queries.

(** [self.current_filters] *)
Record Filters := mkFilters {
  f_category : option string;
  f_author : option string;
  f_tag : option string;
  f_search_term : option string
}.

(** A dropdown among [self.children]. *)
Record Select := mkSelect {
  custom_id : string;
  placeholder : string
}.

(** The embeds the session renders, kept as the data they are built from. *)
Inductive Embed :=
| SearchResultsEmbed (found : nat) (active_filters : list string)
    (page_results : list Formatting.Card) (page_info : option (Z * Z))
| NoResultsFound
| SearchError
| WelcomeEmbed (stats : Stats)
| ResetError.

(** What a handler sends to the chat gateway; [Raised] marks an exception
    that leaves the handler, nothing more being sent. *)
Inductive Output :=
| Defer
| EditOriginalResponse (embed : Embed)
| SendMessage (text : string) (ephemeral : bool)
| SendModal
| Raised.

(** The state of a [LibraryView]. *)
Record LibraryView := mkView {
  current_filters : Filters;
  current_results : list Article;
  current_page : Z;
  children : list Select
}.

(** [l[a:b]] *)
Definition slice {A : Type} (l : list A) (a b : Z) : list A :=
  let len := Z.of_nat (List.length l) in
  let norm (i : Z) : Z :=
    if (i <? 0)%Z then Z.max 0 (len + i) else Z.min i len in
  firstn (Z.to_nat (norm b - norm a)) (skipn (Z.to_nat (norm a)) l).

(** [(len(self.current_results) + RESULTS_PER_PAGE - 1) // RESULTS_PER_PAGE] *)
Definition total_pages (results : list Article) : Z :=
  ((Z.of_nat (List.length results) + Config.RESULTS_PER_PAGE - 1)
   / Config.RESULTS_PER_PAGE)%Z.

(** The loops over [self.children] that set one dropdown's placeholder and
    [break]. *)
Fixpoint set_placeholder (cid text : string) (items : list Select) : list Select :=
  match items with
  | [] => []
  | item :: rest =>
      if custom_id item =? cid then mkSelect cid text :: rest
      else item :: set_placeholder cid text rest
  end.

(** [format_article] on the articles of a page, in order; [None] when it
    raises on one of them. *)
Fixpoint format_page (page_results : list Article)
  : option (list Formatting.Card) :=
  match page_results with
  | [] => Some []
  | article :: rest =>
      match Formatting.format_article article with
      | Some card =>
          match format_page rest with
          | Some cards => Some (card :: cards)
          | None => None
          end
      | None => None
      end
  end.

(** [f"{selected[:80]}{'...' if len(selected) > 80 else ''}"] *)
Definition shown (selected : string) : string :=
  take 80 selected ++ (if (80 <? String.length selected)%nat then "..." else "").

Section WithDatabase.

Variable json_loads : string -> option (list string).

(** The database file as a fresh connection finds it: the table, or [None]
    when sqlite raises. *)
Variable database : option Store.Table.

(** [search_library] *)
Definition search_library (category author tag search_term : option string)
    (limit : Z) : option (list Article) :=
  match database with
  | Some db => Some (search_content json_loads db category author tag search_term limit)
  | None => None
  end.

(** [get_library_stats] *)
Definition get_library_stats : option Stats :=
  match database with
  | Some db => Some (get_content_stats json_loads db)
  | None => None
  end.

(** [LibraryView.show_results]; [None] when [format_article] raises on an
    article of the page, before anything is sent. *)
Definition show_results (view : LibraryView) : option (list Output) :=
  match current_results view with
  | [] => Some [EditOriginalResponse NoResultsFound]
  | _ =>
      let start_idx := (current_page view * Config.RESULTS_PER_PAGE)%Z in
      let end_idx := (start_idx + Config.RESULTS_PER_PAGE)%Z in
      let page_results := slice (current_results view) start_idx end_idx in
      let filters := current_filters view in
      let active (o : option string) : list string :=
        match o with
        | Some v => if truthy v then [v] else []
        | None => []
        end in
      let active_filters :=
        (active (f_category filters) ++ active (f_author filters)
         ++ active (f_tag filters) ++ active (f_search_term filters))%list in
      let total := total_pages (current_results view) in
      let page_info :=
        if (1 <? total)%Z then Some ((current_page view + 1)%Z, total) else None in
      match format_page page_results with
      | Some cards =>
          Some [EditOriginalResponse
                  (SearchResultsEmbed (List.length (current_results view))
                                      active_filters cards page_info)]
      | None => None
      end
  end.

(** [LibraryView.update_results]; its [except] branch is entered when
    [search_library] raises, nothing being assigned, and when [show_results]
    raises, the results and the page being assigned already. *)
Definition update_results (view : LibraryView) : LibraryView * list Output :=
  let filters := current_filters view in
  match search_library (f_category filters) (f_author filters) (f_tag filters)
                       (f_search_term filters) Config.SEARCH_RESULTS_LIMIT with
  | Some results =>
      let view' := mkView filters results 0 (children view) in
      (view',
       Defer :: match show_results view' with
                | Some outputs => outputs
                | None => [EditOriginalResponse SearchError]
                end)
  | None => (view, [Defer; EditOriginalResponse SearchError])
  end.

(** [LibraryView.category_callback] *)
Definition category_callback (selected : string) (view : LibraryView)
  : LibraryView * list Output :=
  let f := current_filters view in
  let filters :=
    mkFilters (if selected =? "clear" then None else Some selected)
              (f_author f) (f_tag f) (f_search_term f) in
  let text :=
    if selected =? "clear" then "Choose a category..."
    else "Category: " ++ shown selected in
  update_results
    (mkView filters (current_results view) (current_page view)
            (set_placeholder "category_select" text (children view))).

(** [LibraryView.author_callback] *)
Definition author_callback (selected : string) (view : LibraryView)
  : LibraryView * list Output :=
  let f := current_filters view in
  let filters :=
    mkFilters (f_category f)
              (if selected =? "clear" then None else Some selected)
              (f_tag f) (f_search_term f) in
  let text :=
    if selected =? "clear" then "Choose an author..."
    else "Author: " ++ shown selected in
  update_results
    (mkView filters (current_results view) (current_page view)
            (set_placeholder "author_select" text (children view))).

(** [LibraryView.tag_callback] *)
Definition tag_callback (selected : string) (view : LibraryView)
  : LibraryView * list Output :=
  let f := current_filters view in
  let filters :=
    mkFilters (f_category f) (f_author f)
              (if selected =? "clear" then None else Some selected)
              (f_search_term f) in
  let text :=
    if selected =? "clear" then "Choose a tag..."
    else "Tag: " ++ shown selected in
  update_results
    (mkView filters (current_results view) (current_page view)
            (set_placeholder "tag_select" text (children view))).

(** [SearchModal.on_submit], [value] being the text typed. *)
Definition on_submit (value : string) (view : LibraryView)
  : LibraryView * list Output :=
  let f := current_filters view in
  let filters :=
    mkFilters (f_category f) (f_author f) (f_tag f)
              (if truthy value then Some value else None) in
  update_results
    (mkView filters (current_results view) (current_page view) (children view)).

(** [LibraryView.reset_button] *)
Definition reset_button (view : LibraryView) : LibraryView * list Output :=
  let reset_item (item : Select) : Select :=
    if custom_id item =? "category_select"
    then mkSelect (custom_id item) "Choose a category..."
    else if custom_id item =? "author_select"
    then mkSelect (custom_id item) "Choose an author..."
    else if custom_id item =? "tag_select"
    then mkSelect (custom_id item) "Choose a tag..."
    else item in
  let view' :=
    mkView (mkFilters None None None None) [] 0 (map reset_item (children view)) in
  match get_library_stats with
  | Some stats => (view', [Defer; EditOriginalResponse (WelcomeEmbed stats)])
  | None => (view', [Defer; EditOriginalResponse ResetError])
  end.

(** [LibraryView.previous_button] *)
Definition previous_button (view : LibraryView) : LibraryView * list Output :=
  if (0 <? current_page view)%Z then
    let view' :=
      mkView (current_filters view) (current_results view)
             (current_page view - 1)%Z (children view) in
    (view',
     Defer :: match show_results view' with
              | Some outputs => outputs
              | None => [Raised]
              end)
  else (view, [SendMessage "You're already on the first page!" true]).

(** [LibraryView.next_button] *)
Definition next_button (view : LibraryView) : LibraryView * list Output :=
  let total_pages := total_pages (current_results view) in
  if (current_page view <? total_pages - 1)%Z then
    let view' :=
      mkView (current_filters view) (current_results view)
             (current_page view + 1)%Z (children view) in
    (view',
     Defer :: match show_results view' with
              | Some outputs => outputs
              | None => [Raised]
              end)
  else (view, [SendMessage "You're already on the last page!" true]).

(** The events of a session, each bound to its handler. *)
Inductive UiEvent :=
| SelectCategory (value : string)
| SelectAuthor (value : string)
| SelectTag (value : string)
| SubmitSearch (text : string)
| PrevPage
| NextPage
| Reset.

Definition handle (ev : UiEvent) (view : LibraryView) : LibraryView * list Output :=
  match ev with
  | SelectCategory v => category_callback v view
  | SelectAuthor v => author_callback v view
  | SelectTag v => tag_callback v view
  | SubmitSearch t => on_submit t view
  | PrevPage => previous_button view
  | NextPage => next_button view
  | Reset => reset_button view
  end.

(** A run of events on one session: the final state (outputs dropped). *)
Definition run (events : list UiEvent) (view : LibraryView) : LibraryView :=
  fold_left (fun v ev => fst (handle ev v)) events view.

End WithDatabase.

End Bot.

(** ** bot.py: the admin commands and their lock

    The bot runs on one event loop: a handler runs without interruption from
    one [await] to the next, and handlers interleave at their [await]s only.
    A handler is therefore a sequence of atomic segments, and the process a
    transition system whose steps are those segments. *)

Module Admin.
Import Queries.

(** [/quick-update-library] and [/rebuild-library] *)
Inductive Op := Update | Rebuild.

(** [admin_operation_lock], an [asyncio.Lock]: its flag and the tasks
    suspended in [acquire()]. *)
Record Lock := mkLock {
  locked : bool;
  waiters : list nat
}.

(** How [subprocess.run] on the scraper ended, and the table it left. *)
Inductive RunResult :=
| Returned (returncode : Z) (stderr : string)
| TimeoutExpired
| OtherError.

Record ScraperRun := mkRun {
  result : RunResult;
  store_after : Store.Table
}.

(** The embeds of the two commands. *)
Inductive Embed :=
| PermissionDenied
| OperationInProgress
| Starting (op : Op)
| Complete (op : Op) (articles categories authors : nat)
| Failed (op : Op) (stderr : string)
| Timeout (op : Op)
| Error (op : Op).

(** Where a handler is. *)
Inductive Pc :=
| Waiting
| Announcing
| Reporting (embed : Embed)
| Done
| Rejected
| Denied.

(** The process: the lock, the table, the handlers started so far (a
    handler's identifier is its position) and what each sent. *)
Record System := mkSystem {
  lock : Lock;
  store : Store.Table;
  tasks : list (Op * Pc);
  sent : list (nat * Embed)
}.

Definition initial (db : Store.Table) : System :=
  mkSystem (mkLock false []) db [] [].

(** [lock.acquire()] by task [id]: taken at once when free, else the task
    joins the waiters. *)
Definition acquire (id : nat) (l : Lock) : Lock * bool :=
  match locked l, waiters l with
  | false, [] => (mkLock true [], true)
  | _, _ => (mkLock (locked l) (waiters l ++ [id])%list, false)
  end.

(** [lock.release()] *)
Definition release (l : Lock) : Lock := mkLock false (waiters l).

Fixpoint set_nth {A : Type} (n : nat) (x : A) (l : list A) : list A :=
  match l, n with
  | [], _ => []
  | _ :: rest, O => x :: rest
  | y :: rest, S n' => y :: set_nth n' x rest
  end.

Definition set_pc (id : nat) (pc : Pc) (ts : list (Op * Pc)) : list (Op * Pc) :=
  match nth_error ts id with
  | Some (op, _) => set_nth id (op, pc) ts
  | None => ts
  end.

(** What makes a handler advance: a command arrives; [send_message] of the
    starting notice returns (the handler then runs the scraper to its end,
    the loop being blocked meanwhile) or raises; [edit_original_response]
    returns or raises; a waiter of the lock is woken. *)
Inductive Label :=
| Invoke (op : Op) (is_admin : bool)
| Announced (id : nat) (run : ScraperRun)
| AnnounceFailed (id : nat)
| Reported (id : nat)
| Woken (id : nat).

Section WithJson.

Variable json_loads : string -> option (list string).

(** The embed built after [subprocess.run]. *)
Definition report (op : Op) (run : ScraperRun) : Embed :=
  match result run with
  | Returned returncode stderr =>
      if (returncode =? 0)%Z then
        let stats := get_content_stats json_loads (store_after run) in
        Complete op (total_articles stats) (total_categories stats)
                 (total_authors stats)
      else Failed op (PyStr.take 1000 stderr)
  | TimeoutExpired => Timeout op
  | OtherError => Error op
  end.

(** The first segment of [update_library_command] and of
    [refresh_library_command]: up to the first [await]. *)
Definition invoke (op : Op) (is_admin : bool) (s : System) : System :=
  let id := List.length (tasks s) in
  if negb is_admin then
    mkSystem (lock s) (store s) (tasks s ++ [(op, Denied)])%list
             (sent s ++ [(id, PermissionDenied)])%list
  else if locked (lock s) then
    mkSystem (lock s) (store s) (tasks s ++ [(op, Rejected)])%list
             (sent s ++ [(id, OperationInProgress)])%list
  else
    let (l, entered) := acquire id (lock s) in
    if entered then
      mkSystem l (store s) (tasks s ++ [(op, Announcing)])%list
               (sent s ++ [(id, Starting op)])%list
    else
      mkSystem l (store s) (tasks s ++ [(op, Waiting)])%list (sent s).

(** One step of the process. *)
Definition step (lbl : Label) (s : System) : System :=
  match lbl with
  | Invoke op is_admin => invoke op is_admin s
  | Announced id run =>
      match nth_error (tasks s) id with
      | Some (op, Announcing) =>
          mkSystem (lock s) (store_after run)
                   (set_pc id (Reporting (report op run)) (tasks s)) (sent s)
      | _ => s
      end
  | AnnounceFailed id =>
      match nth_error (tasks s) id with
      | Some (_, Announcing) =>
          mkSystem (release (lock s)) (store s) (set_pc id Done (tasks s)) (sent s)
      | _ => s
      end
  | Reported id =>
      match nth_error (tasks s) id with
      | Some (_, Reporting embed) =>
          mkSystem (release (lock s)) (store s) (set_pc id Done (tasks s))
                   (sent s ++ [(id, embed)])%list
      | _ => s
      end
  | Woken id =>
      match nth_error (tasks s) id with
      | Some (op, Waiting) =>
          if locked (lock s) then s
          else
            mkSystem (mkLock true (remove Nat.eq_dec id (waiters (lock s))))
                     (store s) (set_pc id Announcing (tasks s))
                     (sent s ++ [(id, Starting op)])%list
      | _ => s
      end
  end.

Definition run (labels : list Label) (s : System) : System :=
  fold_left (fun s lbl => step lbl s) labels s.

End WithJson.

(** A handler is in progress while it is inside the [async with] block. *)
Definition in_progress (t : Op * Pc) : bool :=
  match snd t with
  | Announcing | Reporting _ => true
  | _ => false
  end.

Definition is_waiting (t : Op * Pc) : bool :=
  match snd t with
  | Waiting => true
  | _ => false
  end.

(** What holds of every state the process reaches: nobody waits for the
    lock, and the lock is held by the one handler in progress, if any. *)
Definition lock_invariant (s : System) : Prop :=
  waiters (lock s) = [] /\
  (forall t, In t (tasks s) -> is_waiting t = false) /\
  List.length (filter in_progress (tasks s))
  = (if locked (lock s) then 1 else 0).

(** The label concerns a handler that already exists in a system of [n]
    handlers. *)
Definition concerns_below (n : nat) (lbl : Label) : bool :=
  match lbl with
  | Invoke _ _ => false
  | Announced id _ | AnnounceFailed id | Reported id | Woken id => (id <? n)%nat
  end.

(** What the first [n] handlers and their invokers see of the process. *)
Definition observed (n : nat) (s : System)
  : Lock * Store.Table * list (Op * Pc) * list (nat * Embed) :=
  (lock s, store s, firstn n (tasks s),
   filter (fun m => (fst m <? n)%nat) (sent s)).

End Admin.

(** ** utils/views/library_view.py: the persistent variant of the session *)

Module PersistentView.
Import PyStr.

Section WithCollaborators.

(** The type of a result of the RSS parser (a dict). *)
Variable Result : Type.

(** [rss_parser.search_content(query, category, author)]; [None] when it
    raises. The parser is not part of the view. *)
Variable rss_search : string -> option string -> option string -> option (list Result).

(** [search_engine.search(results, query)]; [None] when it raises. *)
Variable engine_search : list Result -> string -> option (list Result).

(** The state of the persistent [LibraryView]. *)
Record LibraryView := mkView {
  current_category : option string;
  current_author : option string;
  current_query : string;
  current_results : list Result;
  current_page : Z
}.

Definition results_per_page : Z := 5.

(** The embed of [create_results_embed], as the data it is built from, and
    the disabled flags [update_navigation_buttons] sets. *)
Inductive Body :=
| NoResultsFound
| ResultsPage (page_results : list Result) (page_number total_pages : Z)
    (total_results : nat).

Record Display := mkDisplay {
  filters_shown : list string;
  body : Body;
  prev_disabled : bool;
  next_disabled : bool
}.

Inductive Output :=
| EditMessage (display : Display).

(** [LibraryView.load_results] *)
Definition load_results (view : LibraryView) : LibraryView :=
  let loaded :=
    match rss_search (current_query view) (current_category view)
                     (current_author view) with
    | Some results =>
        if truthy (current_query view)
        then engine_search results (current_query view)
        else Some results
    | None => None
    end in
  match loaded with
  | Some results =>
      mkView (current_category view) (current_author view) (current_query view)
             results (current_page view)
  | None =>
      mkView (current_category view) (current_author view) (current_query view)
             [] (current_page view)
  end.

(** The search [load_results] makes for these values raises: the parser
    does, or the search engine does on a query that is not empty. *)
Definition search_raises (query : string) (category author : option string)
  : Prop :=
  match rss_search query category author with
  | None => True
  | Some results => truthy query = true /\ engine_search results query = None
  end.

(** [LibraryView.update_display] *)
Definition update_display (view : LibraryView) : list Output :=
  let len := Z.of_nat (List.length (current_results view)) in
  let max_pages := Z.max 0 ((len - 1) / results_per_page) in
  let shown (o : option string) : list string :=
    match o with
    | Some v => if truthy v then [v] else []
    | None => []
    end in
  let filters :=
    (shown (current_category view) ++ shown (current_author view)
     ++ (if truthy (current_query view) then [current_query view] else []))%list in
  let body :=
    match current_results view with
    | [] => NoResultsFound
    | _ =>
        let start_idx := (current_page view * results_per_page)%Z in
        let end_idx := (start_idx + results_per_page)%Z in
        ResultsPage (Bot.slice (current_results view) start_idx end_idx)
                    (current_page view + 1)
                    (Z.max 1 ((len - 1) / results_per_page + 1))
                    (List.length (current_results view))
    end in
  [EditMessage
     (mkDisplay filters body (current_page view =? 0)%Z
                (max_pages <=? current_page view)%Z)].

(** [LibraryView.update_filters] *)
Definition update_filters (category author : option string) (view : LibraryView)
  : LibraryView * list Output :=
  let view1 :=
    match category with
    | Some c =>
        mkView (Some c) (current_author view) (current_query view)
               (current_results view) (current_page view)
    | None => view
    end in
  let view2 :=
    match author with
    | Some a =>
        mkView (current_category view1) (Some a) (current_query view1)
               (current_results view1) (current_page view1)
    | None => view1
    end in
  let view3 :=
    load_results
      (mkView (current_category view2) (current_author view2)
              (current_query view2) (current_results view2) 0) in
  (view3, update_display view3).

(** [CategorySelect.callback], [value] being [self.values[0]]. *)
Definition category_select_callback (value : string) (view : LibraryView)
  : LibraryView * list Output :=
  let selected_category := if negb (value =? "all") then Some value else None in
  update_filters selected_category None view.

(** [AuthorSelect.callback] *)
Definition author_select_callback (value : string) (view : LibraryView)
  : LibraryView * list Output :=
  let selected_author := if negb (value =? "all") then Some value else None in
  update_filters None selected_author view.

(** [LibraryView.update_search] *)
Definition update_search (query : string) (view : LibraryView)
  : LibraryView * list Output :=
  let view' :=
    load_results
      (mkView (current_category view) (current_author view) query
              (current_results view) 0) in
  (view', update_display view').

(** [LibraryView.prev_page_callback] *)
Definition prev_page_callback (view : LibraryView) : LibraryView * list Output :=
  if (0 <? current_page view)%Z then
    let view' :=
      mkView (current_category view) (current_author view) (current_query view)
             (current_results view) (current_page view - 1) in
    (view', update_display view')
  else (view, []).

(** [LibraryView.next_page_callback] *)
Definition next_page_callback (view : LibraryView) : LibraryView * list Output :=
  let max_pages :=
    ((Z.of_nat (List.length (current_results view)) - 1) / results_per_page)%Z in
  if (current_page view <? max_pages)%Z then
    let view' :=
      mkView (current_category view) (current_author view) (current_query view)
             (current_results view) (current_page view + 1) in
    (view', update_display view')
  else (view, []).

End WithCollaborators.

End PersistentView.

(** ** JSON texts of lists of plain strings

    [json.dumps] and [json.loads] belong to Python's library; the code is
    embedded over any pair of them. To run the code on sample tables, this
    module gives the two functions on the fragment the samples use: lists of
    strings of printable ASCII characters without double quote or
    backslash, on which no escape sequence is written or read. *)

Module PlainJson.
Import PyStr.

Definition quote : ascii := ascii_of_nat 34.
Definition backslash : ascii := ascii_of_nat 92.

(** [json.dumps(l)]: ["[" + ", ".join('"' + s + '"') + "]"]. *)
Fixpoint items (l : list string) : string :=
  match l with
  | [] => ""
  | [x] => String quote (x ++ String quote "")
  | x :: rest => String quote (x ++ String quote (", " ++ items rest))
  end.

Definition dumps (l : list string) : string := "[" ++ items l ++ "]".

(** Where the reader is in the text. *)
Inductive Mode :=
| AtStart
| AfterOpen
| InString (read : string)
| AfterItem
| AfterComma
| AtEnd.

Definition is_ws (c : ascii) : bool :=
  let n := nat_of_ascii c in
  (n =? 32)%nat || (n =? 9)%nat || (n =? 10)%nat || (n =? 13)%nat.

(** [json.loads(text)] on that fragment; [None] is [JSONDecodeError]. *)
Fixpoint loads_from (m : Mode) (acc : list string) (text : string)
  : option (list string) :=
  match text with
  | EmptyString =>
      match m with
      | AtEnd => Some acc
      | _ => None
      end
  | String c rest =>
      match m with
      | AtStart =>
          if is_ws c then loads_from AtStart acc rest
          else if (c =? "[")%char then loads_from AfterOpen acc rest
          else None
      | AfterOpen =>
          if is_ws c then loads_from AfterOpen acc rest
          else if (c =? "]")%char then loads_from AtEnd acc rest
          else if (c =? quote)%char then loads_from (InString "") acc rest
          else None
      | InString read =>
          if (c =? quote)%char then loads_from AfterItem (acc ++ [read])%list rest
          else if (c =? backslash)%char then None
          else if (nat_of_ascii c <? 32)%nat then None
          else loads_from (InString (read ++ String c "")) acc rest
      | AfterItem =>
          if is_ws c then loads_from AfterItem acc rest
          else if (c =? ",")%char then loads_from AfterComma acc rest
          else if (c =? "]")%char then loads_from AtEnd acc rest
          else None
      | AfterComma =>
          if is_ws c then loads_from AfterComma acc rest
          else if (c =? quote)%char then loads_from (InString "") acc rest
          else None
      | AtEnd =>
          if is_ws c then loads_from AtEnd acc rest else None
      end
  end.

Definition loads (text : string) : option (list string) :=
  loads_from AtStart [] text.

End PlainJson.

(** ** Sample data *)

Module Samples.
Import Store Scraper.

Definition url_a : string := content_url "a-new-article".
Definition url_b : string := content_url "an-unchanged-article".
Definition url_c : string := content_url "a-changed-article".

Definition row_for (u : string) (lastmod : option string) (ok : bool) : Row :=
  mkRow u (Some "A title") (Some "Grief") (Some "An author")
        (Some "2025-07-19") (Some "[]") (Some "") lastmod
        "2025-08-01 10:00:00" ok.

(** A table holding B and C, both last modified on 2025-07-01. *)
Definition table_bc : Table :=
  [row_for url_b (Some "2025-07-01") true;
   row_for url_c (Some "2025-07-01") true].

(** A sitemap with A (new), B (unchanged) and C (changed). *)
Definition manifest_abc : list UrlData :=
  [mkUrlData url_a (Some "2025-08-01");
   mkUrlData url_b (Some "2025-07-01");
   mkUrlData url_c (Some "2025-08-02")].

(** A sitemap that lists C without a [lastmod]. *)
Definition manifest_c_undated : list UrlData := [mkUrlData url_c None].

(** A successful row with the given tags, and a failed one. *)
Definition tagged (u : string) (tag_list : list string) (when : string) : Row :=
  mkRow u (Some "A title") (Some "Grief, Healing") (Some "An author")
        (Some "2025-07-19") (Some (PlainJson.dumps tag_list)) (Some "")
        (Some "2025-07-01") when true.

Definition failed_row (u : string) (when : string) : Row :=
  mkRow u (Some "No title found") (Some "Lost category") (Some "Lost author")
        (Some "Unknown") (Some (PlainJson.dumps ["lost"])) (Some "")
        None when false.

(** Tag frequencies grief 5, healing 5, music 1. *)
Definition table_ghm : Table :=
  [tagged (content_url "t1") ["grief"; "healing"; "music"] "2025-08-01 10:00:01";
   tagged (content_url "t2") ["grief"; "healing"] "2025-08-01 10:00:02";
   tagged (content_url "t3") ["healing"; "grief"] "2025-08-01 10:00:03";
   tagged (content_url "t4") ["grief"; "healing"] "2025-08-01 10:00:04";
   tagged (content_url "t5") ["grief"; "healing"] "2025-08-01 10:00:05"].

(** Twenty-five tags, each used once: "z" first, then "a" to "x". *)
Definition table_25 : Table :=
  [tagged (content_url "t1")
     ["z"; "a"; "b"; "c"; "d"; "e"; "f"; "g"; "h"; "i"; "j"; "k"; "l"; "m";
      "n"; "o"; "p"; "q"; "r"; "s"; "t"; "u"; "v"; "w"; "x"]
     "2025-08-01 10:00:01"].

(** The table of the three tags, and a failed row in its middle. *)
Definition table_with_failure : Table :=
  [tagged (content_url "t1") ["grief"; "healing"; "music"] "2025-08-01 10:00:01";
   failed_row (content_url "broken") "2025-08-01 10:00:02";
   tagged (content_url "t2") ["grief"; "healing"] "2025-08-01 10:00:03"].

(** A network on which every request fails, a clock that stands still, and
    a run that starts on an empty table. *)
Definition dead_net : nat -> string -> option Soup := fun _ _ => None.
Definition still_clock : nat -> string := fun _ => "2025-08-01 10:00:00".
Definition fresh_state (t : Table) : State := mkState t (fun _ => None) 0 0 0 [].

(** Twelve search results and a session showing their first page. *)
Definition result_named (name : string) : Queries.Article :=
  Queries.mkArticle (content_url name) (Some name) (Some "Grief")
                    (Some "An author") (Some "2025-07-19") [] "".

Definition twelve_results : list Queries.Article :=
  map result_named
      ["r01"; "r02"; "r03"; "r04"; "r05"; "r06";
       "r07"; "r08"; "r09"; "r10"; "r11"; "r12"].

Definition dropdowns : list Bot.Select :=
  [Bot.mkSelect "category_select" "Choose a category...";
   Bot.mkSelect "author_select" "Choose an author...";
   Bot.mkSelect "tag_select" "Choose a tag..."].

Definition view_12 : Bot.LibraryView :=
  Bot.mkView (Bot.mkFilters None None None None) twelve_results 0 dropdowns.

(** The same session on its second page, filtered by author. *)
Definition view_page_2 : Bot.LibraryView :=
  Bot.mkView (Bot.mkFilters None (Some "An author") None None)
             twelve_results 1 dropdowns.

(** A persistent view filtered by category and by author, over a parser
    that finds nothing. *)
Definition quiet_parser : string -> option string -> option string -> option (list string) :=
  fun _ _ _ => Some [].
Definition plain_engine : list string -> string -> option (list string) :=
  fun results _ => Some results.
Definition persistent_filtered : PersistentView.LibraryView string :=
  PersistentView.mkView string (Some "Grief") (Some "An author") "" ["r01"] 2.

(** A page fetched without a title, as [extract_metadata] returns it, and a
    run whose clock shows the next day. *)
Definition failed_data : Data :=
  mkData (content_url "broken") None false "No title found" "Uncategorized"
         "Unknown" "Unknown" "[]" "".
Definition late_clock : nat -> string := fun _ => "2025-08-02 09:00:00".

(** A run of the scraper that ends well and leaves the table of the three
    tags. *)
Definition good_run : Admin.ScraperRun :=
  Admin.mkRun (Admin.Returned 0 "") table_ghm.

End Samples.

(** ** The table after a run of the scraping loop *)

Module AfterRun.
Import Scraper.

(** The [lastmod] the loop stores last for [u]: that of the last entry of
    the batch with this URL, if there is one. *)
Fixpoint lastmod_for (u : string) (articles : list UrlData) : option (option string) :=
  match articles with
  | [] => None
  | e :: rest =>
      match lastmod_for u rest with
      | Some m => Some m
      | None => if u_url e =? u then Some (u_lastmod e) else None
      end
  end.

(** No request fails. *)
Definition always_answers (net : nat -> string -> option Soup) : Prop :=
  forall k u, net k u <> None.

End AfterRun.

(** ** More sample data *)

Module MoreSamples.
Import Store Scraper.

(** A page with a title and nothing else, one without a title, and a
    network that serves the first for every URL. *)
Definition titled_page : Soup :=
  mkSoup (Some "  On grief  ") None None None None None None.
Definition untitled_page : Soup :=
  mkSoup None (Some ["Grief"]) (Some (Some "An author")) None None None None.
Definition serving_net : nat -> string -> option Soup := fun _ _ => Some titled_page.
Definition untitled_net : nat -> string -> option Soup := fun _ _ => Some untitled_page.

(** A network whose first two answers fail. *)
Definition flaky_net : nat -> string -> option Soup :=
  fun k _ => if (k <? 2)%nat then None else Some titled_page.

End MoreSamples.

(** ** The order of the search results *)

Module SearchOrder.

(** [a] may stand before [b] under [ORDER BY published_date DESC]: the
    date of [a] is no smaller than that of [b] in the order of the TEXT
    column (byte order, NULL below every text). *)
Definition dated_no_earlier (a b : Queries.Article) : Prop :=
  Sql.compare_val (Queries.a_published_date b) (Queries.a_published_date a) <> Gt.

(** The date begins with a digit, as the ISO dates do, and the dates of the
    archive that could not be parsed (["7/19/25"]). *)
Definition starts_with_digit (date : string) : bool :=
  match date with
  | String c _ =>
      let n := nat_of_ascii c in (48 <=? n)%nat && (n <=? 57)%nat
  | EmptyString => false
  end.

(** Three successful rows: one dated by the archive, one whose page shows
    no date, one whose archive date could not be parsed. *)
Definition dated (slug date when : string) : Store.Row :=
  Store.mkRow (Scraper.content_url slug) (Some "A title") (Some "Grief")
              (Some "An author") (Some date) (Some "[]") (Some "")
              (Some "2025-07-01") when true.

Definition table_of_dates : Store.Table :=
  [dated "iso" "2025-07-19" "2025-08-01 10:00:01";
   dated "undated" "Unknown" "2025-08-01 10:00:02";
   dated "unparsed" "7/19/25" "2025-08-01 10:00:03"].

End SearchOrder.

(** ** The session of bot.py over its events *)

Module SessionSpec.
Import Bot.

(** The state [LibraryView.__init__] sets, with the dropdowns it added. *)
Definition new_view (items : list Select) : LibraryView :=
  mkView (mkFilters None None None None) [] 0 items.

(** The page is one of the pages of the results (page 0 when there are
    none), and the results are no more than a search returns. *)
Definition well_paged (view : LibraryView) : Prop :=
  (0 <= current_page view)%Z /\
  (current_page view <= Z.max 0 (total_pages (current_results view) - 1))%Z /\
  (Z.of_nat (List.length (current_results view)) <= Config.SEARCH_RESULTS_LIMIT)%Z.

(** The four filters, what a session holds for each, and the events whose
    handler assigns it. *)
Inductive Field := Category | Author | Tag | SearchTerm.

Definition get (f : Field) (filters : Filters) : option string :=
  match f with
  | Category => f_category filters
  | Author => f_author filters
  | Tag => f_tag filters
  | SearchTerm => f_search_term filters
  end.

Definition assigns (f : Field) (ev : UiEvent) : bool :=
  match ev, f with
  | Reset, _ => true
  | SelectCategory _, Category => true
  | SelectAuthor _, Author => true
  | SelectTag _, Tag => true
  | SubmitSearch _, SearchTerm => true
  | _, _ => false
  end.

(** The page [p] of a result list, as [show_results] slices it. *)
Definition page_of (results : list Queries.Article) (p : nat) : list Queries.Article :=
  slice results (Z.of_nat p * Config.RESULTS_PER_PAGE)
        (Z.of_nat p * Config.RESULTS_PER_PAGE + Config.RESULTS_PER_PAGE).

End SessionSpec.

(** ** The pace of the requests *)

Module Pace.
Import Scraper.

(** Reading a trace with "a request was made and no sleep followed yet":
    [None] when a request follows a request without a sleep in between,
    else the flag at the end. *)
Fixpoint pace (pending : bool) (events : list Event) : option bool :=
  match events with
  | [] => Some pending
  | EGet _ :: rest => if pending then None else pace true rest
  | ESleep _ :: rest => pace false rest
  | EStore _ :: rest => pace pending rest
  end.

(** What one URL adds to the trace: its request, [k] further requests each
    after a sleep of two seconds, the store when a page came back, and the
    sleep of the request delay. *)
Fixpoint retries (url : string) (k : nat) : list Event :=
  match k with
  | O => []
  | S k' => ESleep 2000%Z :: EGet url :: retries url k'
  end.

Definition block (url : string) (shape : nat * bool) : list Event :=
  (EGet url :: retries url (fst shape)
   ++ (if snd shape then [EStore url] else [])
   ++ [ESleep request_delay])%list.

(** A page comes back at one of three attempts; none does after all three. *)
Definition possible (shape : nat * bool) : Prop :=
  fst shape < 3 /\ (snd shape = false -> fst shape = 2).

Fixpoint blocks (urls : list string) (shapes : list (nat * bool)) : list Event :=
  match urls, shapes with
  | url :: urls', shape :: shapes' => (block url shape ++ blocks urls' shapes')%list
  | _, _ => []
  end.

End Pace.

(** ** bot.py and queries.py: opening a session *)

Module Opening.
Import PyStr Queries Bot.

(** The dict of [get_dropdown_options]. *)
Record DropdownOptions := mkOptions {
  o_categories : list string;
  o_authors : list string;
  o_tags : list string
}.

(** A [discord.SelectOption] and a [discord.ui.Select] with its options. *)
Record SelectOption := mkOption {
  label : string;
  value : string
}.

Record Dropdown := mkDropdown {
  select : Select;
  options : list SelectOption
}.

(** The embeds of [library_command]. *)
Inductive CommandEmbed :=
| DatabaseError
| Welcome (stats : Stats).

(** The body shared by [add_category_dropdown], [add_author_dropdown] and
    [add_tag_dropdown], from the list [get_dropdown_options] gave:
    nothing is added for an empty list. *)
Definition build (all_label placeholder cid : string) (items : list string)
  : option Dropdown :=
  match items with
  | [] => None
  | _ =>
      Some (mkDropdown (mkSelect cid placeholder)
              (mkOption all_label "clear"
               :: map (fun x => mkOption (take 100 x) x) (firstn 24 items)))
  end.

Section WithDatabase.

Variable json_loads : string -> option (list string).
Variable database : option Store.Table.

(** [get_dropdown_options]; [None] when sqlite raises. *)
Definition get_dropdown_options : option DropdownOptions :=
  match database with
  | Some db =>
      Some (mkOptions (firstn 25 (get_all_categories db))
                      (firstn 25 (get_all_authors db))
                      (firstn 25 (get_all_tags_with_counts json_loads db)))
  | None => None
  end.

(** [LibraryView.add_category_dropdown]; an exception is printed and no
    dropdown is added. *)
Definition add_category_dropdown : option Dropdown :=
  match get_dropdown_options with
  | Some o => build "All Categories" "Choose a category..." "category_select"
                    (o_categories o)
  | None => None
  end.

(** [LibraryView.add_author_dropdown] *)
Definition add_author_dropdown : option Dropdown :=
  match get_dropdown_options with
  | Some o => build "All Authors" "Choose an author..." "author_select"
                    (o_authors o)
  | None => None
  end.

(** [LibraryView.add_tag_dropdown] *)
Definition add_tag_dropdown : option Dropdown :=
  match get_dropdown_options with
  | Some o => build "All Tags" "Choose a tag..." "tag_select" (o_tags o)
  | None => None
  end.

Definition added (d : option Dropdown) : list Dropdown :=
  match d with
  | Some d => [d]
  | None => []
  end.

(** The dropdowns [LibraryView.__init__] adds, in its order. *)
Definition dropdowns : list Dropdown :=
  (added add_category_dropdown ++ added add_author_dropdown
   ++ added add_tag_dropdown)%list.

(** [LibraryView.__init__] *)
Definition init_view : LibraryView :=
  mkView (mkFilters None None None None) [] 0 (map select dropdowns).

(** [library_command]: the view it attaches, if any, and the embed it
    sends. [validate_database] answers [False] when sqlite raises. *)
Definition library_command : option LibraryView * CommandEmbed :=
  match database with
  | Some db =>
      if validate_database db
      then (Some init_view, Welcome (get_content_stats json_loads db))
      else (None, DatabaseError)
  | None => (None, DatabaseError)
  end.

End WithDatabase.

End Opening.

(** ** scraper.py: the dates of the archive listing *)

Module Archive.
Import PyStr.

(** What [scrape_dates_from_archives] reads off an [article] element: the
    [href] of the link in its [h1.blog-title], when there is one, and the
    text of its [time.blog-date], when there is one. *)
Record Listed := mkListed {
  title_href : option string;
  date_text : option string
}.

(** A page of the archive: its articles, and the [href] of the link in its
    [div.older], when there is such a link ([None] inside when the link has
    no [href]). *)
Record Page := mkPage {
  listed : list Listed;
  older : option (option string)
}.

(** A dict from URL to date, as the list of its items in insertion order. *)
Definition Dates := list (string * string).

Fixpoint dict_set (k v : string) (d : Dates) : Dates :=
  match d with
  | [] => [(k, v)]
  | (k', v') :: rest =>
      if k' =? k then (k, v) :: rest else (k', v') :: dict_set k v rest
  end.

Fixpoint dict_get (d : Dates) (k : string) : option string :=
  match d with
  | [] => None
  | (k', v) :: rest => if k' =? k then Some v else dict_get rest k
  end.

(** The keys are distinct and all begin with the base URL. *)
Definition tidy (d : Dates) : Prop :=
  NoDup (map fst d) /\
  Forall (fun kv => String.prefix Config.LIBRARY_BASE_URL (fst kv) = true) d.

(** What the function returns and what it did. *)
Record Outcome := mkOutcome {
  dates : Dates;
  dates_extracted : nat;
  gets : nat;
  sleeps : nat
}.

(** An [href] inside an f-string. *)
Definition shown (href : option string) : string :=
  match href with
  | Some h => h
  | None => "None"
  end.

Section WithEnvironment.

(** [datetime.strptime(text, '%m/%d/%y').strftime('%Y-%m-%d')]; [None] is
    [ValueError]. *)
Variable reformat : string -> option string.

(** The answer to the [k]-th request of the function, made for [url]:
    the parsed page, or [None] when the request or the parser raises. *)
Variable archive_net : nat -> string -> option Page.

(** The body of [for article in articles]. *)
Definition note (acc : Dates * nat) (article : Listed) : Dates * nat :=
  let (dates, extracted) := acc in
  match title_href article with
  | Some href =>
      let url := Config.LIBRARY_BASE_URL ++ href in
      match date_text article with
      | Some text =>
          match reformat text with
          | Some formatted_date => (dict_set url formatted_date dates, S extracted)
          | None => (dict_set url text dates, extracted)
          end
      | None => acc
      end
  | None => acc
  end.

(** [while archive_url and page_count < 50], the fuel being what is left of
    the 50 pages. *)
Fixpoint archive_loop (fuel : nat) (archive_url : string) (o : Outcome) : Outcome :=
  match fuel with
  | O => o
  | S fuel' =>
      if truthy archive_url then
        match archive_net (gets o) archive_url with
        | None => mkOutcome (dates o) (dates_extracted o) (S (gets o)) (sleeps o)
        | Some page =>
            let (dates', extracted') :=
              fold_left note (listed page) (dates o, dates_extracted o) in
            match older page with
            | Some next_href =>
                archive_loop fuel' (Config.LIBRARY_BASE_URL ++ shown next_href)
                  (mkOutcome dates' extracted' (S (gets o)) (S (sleeps o)))
            | None => mkOutcome dates' extracted' (S (gets o)) (sleeps o)
            end
        end
      else o
  end.

(** [Scraper.scrape_dates_from_archives] *)
Definition scrape_dates_from_archives : Outcome :=
  archive_loop 50 (Config.LIBRARY_BASE_URL ++ "/digital-library")
               (mkOutcome [] 0 0 0).

End WithEnvironment.

End Archive.

(** ** scraper.py: the sitemaps *)

Module Sitemap.

(** A [url] element: its [loc] and [lastmod] children, when present, each
    with its text ([None] for an empty element). *)
Record UrlElem := mkUrlElem {
  loc : option (option string);
  lastmod : option (option string)
}.

(** A parsed sitemap document: whether the root tag contains
    [sitemapindex], the [loc] children of its [sitemap] elements, and its
    [url] elements. *)
Record Doc := mkDoc {
  is_index : bool;
  sitemap_locs : list (option (option string));
  url_elems : list UrlElem
}.

(** The dict [parse_individual_sitemap] builds for a [url] element. *)
Record Entry := mkEntry {
  e_url : option string;
  e_lastmod : option string
}.

Definition entry_of (e : UrlElem) : list Entry :=
  match loc e with
  | Some text =>
      [mkEntry text (match lastmod e with Some m => m | None => None end)]
  | None => []
  end.

Definition sitemap_urls : list string :=
  [Config.LIBRARY_BASE_URL ++ "/sitemap.xml";
   Config.LIBRARY_BASE_URL ++ "/sitemap.index.xml"].

Section WithNetwork.

(** The answer to the [k]-th request, made for [url]: the parsed document,
    or [None] when [session.get], [raise_for_status] or the XML parser
    raises. *)
Variable sitemap_net : nat -> string -> option Doc.

(** [Scraper.parse_individual_sitemap], after [k] requests; a URL that is
    [None] makes [session.get] raise before any request. *)
Definition parse_individual_sitemap (k : nat) (sitemap_url : option string)
  : list Entry * nat :=
  match sitemap_url with
  | None => ([], k)
  | Some u =>
      match sitemap_net k u with
      | None => ([], S k)
      | Some doc => (flat_map entry_of (url_elems doc), S k)
      end
  end.

(** The body of the loop over the [sitemap] elements of an index. *)
Definition follow (st : list Entry * nat) (l : option (option string))
  : list Entry * nat :=
  match l with
  | Some text =>
      let (sub_urls, k') := parse_individual_sitemap (snd st) text in
      ((fst st ++ sub_urls)%list, k')
  | None => st
  end.

(** The body of the loop over [self.sitemap_urls]. *)
Definition visit (st : list Entry * nat) (sitemap_url : string)
  : list Entry * nat :=
  match sitemap_net (snd st) sitemap_url with
  | None => (fst st, S (snd st))
  | Some doc =>
      if is_index doc then
        fold_left follow (sitemap_locs doc) (fst st, S (snd st))
      else
        let (urls, k') :=
          parse_individual_sitemap (S (snd st)) (Some sitemap_url) in
        ((fst st ++ urls)%list, k')
  end.

(** [Scraper.get_all_urls_from_sitemap]: the URLs and the number of
    requests made. *)
Definition get_all_urls_from_sitemap : list Entry * nat :=
  fold_left visit sitemap_urls ([], 0).

(** An entry comes from a [url] element of a document answered to one of
    the first [n] requests. *)
Definition served (n : nat) (entry : Entry) : Prop :=
  exists k u doc e,
    k < n /\ sitemap_net k u = Some doc /\ In e (url_elems doc) /\
    loc e = Some (e_url entry) /\
    e_lastmod entry = match lastmod e with Some m => m | None => None end.

(** What the loops keep: every entry gathered so far was served. *)
Definition all_served (st : list Entry * nat) : Prop :=
  forall entry, In entry (fst st) -> served (snd st) entry.

End WithNetwork.

End Sitemap.

(** ** Further sample data *)

Module ArchiveSamples.
Import Archive.

(** The dates the sample archive shows. *)
Definition reformat (text : string) : option string :=
  if text =? "7/19/25" then Some "2025-07-19"
  else if text =? "7/02/25" then Some "2025-07-02"
  else None.

Definition first_page : Page :=
  mkPage [mkListed (Some "/digital-library/alpha") (Some "7/19/25");
          mkListed None (Some "7/19/25");
          mkListed (Some "/digital-library/beta") (Some "last week")]
         (Some (Some "/digital-library?offset=2")).

Definition second_page : Page :=
  mkPage [mkListed (Some "/digital-library/alpha") (Some "7/02/25");
          mkListed (Some "/digital-library/gamma") None]
         None.

Definition two_pages (k : nat) (url : string) : option Page :=
  if url =? Config.LIBRARY_BASE_URL ++ "/digital-library" then Some first_page
  else if url =? Config.LIBRARY_BASE_URL ++ "/digital-library?offset=2"
       then Some second_page
       else None.

(** An archive whose every page links to an older one. *)
Definition endless (k : nat) (url : string) : option Page :=
  Some (mkPage [] (Some (Some "/digital-library"))).

Definition plain_sitemap : Sitemap.Doc :=
  Sitemap.mkDoc false []
    [Sitemap.mkUrlElem (Some (Some Samples.url_a)) (Some (Some "2025-07-01"));
     Sitemap.mkUrlElem None (Some (Some "2025-07-02"));
     Sitemap.mkUrlElem (Some None) None].

(** Only the first sitemap URL answers, with a regular sitemap. *)
Definition one_sitemap (k : nat) (url : string) : option Sitemap.Doc :=
  if url =? Config.LIBRARY_BASE_URL ++ "/sitemap.xml" then Some plain_sitemap
  else None.

End ArchiveSamples.

(** ** A row the scraper did not write *)

Module RenderSamples.

(** A successful row without an author, as another writer of the table
    could leave it. *)
Definition orphan_row : Store.Row :=
  Store.mkRow (Scraper.content_url "orphan") (Some "A title") (Some "Grief")
              None (Some "2025-07-19") (Some "[]") (Some "") None
              "2025-08-01 10:00:01" true.

End RenderSamples.

(** * Properties *)

Local Open Scope list_scope.

(** ** The operations on small inputs *)

Example str_in_example :
  PyStr.str_in "tag/" "/digital-library/tag/music" = true /\
  PyStr.str_in "tag/" "/digital-library/heritage" = false.
Proof. split; reflexivity. Qed.

Example endswith_example :
  PyStr.endswith "a/digital-library" "/digital-library" = true /\
  PyStr.endswith "a/digital-library/x" "/digital-library" = false.
Proof. split; reflexivity. Qed.

Example split_strip_example :
  map PyStr.strip (PyStr.split "," "Grief, Healing ,Music")
  = ["Grief"; "Healing"; "Music"]%string.
Proof. reflexivity. Qed.

Example sorted_example :
  PyStr.sorted ["music"; "Grief"; "healing"; "grief"]%string
  = ["Grief"; "grief"; "healing"; "music"]%string.
Proof. reflexivity. Qed.

Example like_example :
  Sql.like_match "%RIE%" "Grief" = true /\
  Sql.like_match "gr_ef" "Grief" = true /\
  Sql.like_match "%grief" "Grief and loss" = false.
Proof. repeat split; reflexivity. Qed.

Example plain_json_example :
  PlainJson.loads (PlainJson.dumps ["grief"; "healing"]%string)
  = Some ["grief"; "healing"]%string /\
  PlainJson.loads (PlainJson.dumps []) = Some [] /\
  PlainJson.loads "not json" = None.
Proof. repeat split; reflexivity. Qed.

Example search_example :
  map Queries.a_url
      (Queries.search_content PlainJson.loads Samples.table_with_failure
         None None (Some "music"%string) None 20)
  = [Scraper.content_url "t1"].
Proof. reflexivity. Qed.

(** ** Facts about the string operations *)

Section StringFacts.
Import PyStr.

Lemma prefix_has_char (c : ascii) (n s : string) :
  String.prefix n s = true ->
  str_in (String c "") n = true -> str_in (String c "") s = true.
Proof.
  revert s; induction n as [|a n IH]; intros s Hp Hc.
  - discriminate Hc.
  - destruct s as [|b s]; [discriminate Hp|].
    simpl in Hp. destruct (ascii_dec a b) as [->|]; [|discriminate Hp].
    simpl in Hc. simpl.
    destruct (ascii_dec c b); [destruct n, s; reflexivity|].
    simpl in Hc |- *. eauto.
Qed.

Lemma str_in_has_char (c : ascii) (n s : string) :
  str_in n s = true ->
  str_in (String c "") n = true -> str_in (String c "") s = true.
Proof.
  induction s as [|b s IH]; intros Hn Hc.
  - simpl in Hn. rewrite orb_false_r in Hn. eapply prefix_has_char; eauto.
  - change (str_in n (String b s)) with
      (String.prefix n (String b s) || str_in n s) in Hn.
    apply orb_true_iff in Hn as [Hn|Hn].
    + eapply prefix_has_char; eauto.
    + change (str_in (String c "") (String b s)) with
        (String.prefix (String c "") (String b s) || str_in (String c "") s).
      rewrite (IH Hn Hc). apply orb_true_r.
Qed.

Lemma str_in_lacks_char (c : ascii) (n s : string) :
  str_in (String c "") s = false ->
  str_in (String c "") n = true -> str_in n s = false.
Proof.
  intros Hs Hn. destruct (str_in n s) eqn:E; [|reflexivity].
  rewrite (str_in_has_char c n s E Hn) in Hs. discriminate.
Qed.

Lemma str_in_refl (s : string) : str_in s s = true.
Proof.
  assert (P : forall t, String.prefix t t = true).
  { induction t as [|a t IH]; simpl; [reflexivity|].
    destruct (ascii_dec a a); [exact IH|congruence]. }
  destruct s; simpl; [reflexivity|].
  specialize (P (String a s)). simpl in P. rewrite P. reflexivity.
Qed.

Lemma endswith_has_char (c : ascii) (s suf : string) :
  endswith s suf = true ->
  str_in (String c "") suf = true -> str_in (String c "") s = true.
Proof.
  induction s as [|b s IH]; intros He Hc.
  - destruct suf; [exact Hc|discriminate He].
  - change (endswith (String b s) suf) with
      ((String b s =? suf) || endswith s suf) in He.
    apply orb_true_iff in He as [He|He].
    + apply String.eqb_eq in He. subst suf. exact Hc.
    + change (str_in (String c "") (String b s)) with
        (String.prefix (String c "") (String b s) || str_in (String c "") s).
      rewrite (IH He Hc). apply orb_true_r.
Qed.

Lemma endswith_lacks_char (c : ascii) (s suf : string) :
  str_in (String c "") s = false ->
  str_in (String c "") suf = true -> endswith s suf = false.
Proof.
  intros Hs Hn. destruct (endswith s suf) eqn:E; [|reflexivity].
  rewrite (endswith_has_char c s suf E Hn) in Hs. discriminate.
Qed.

End StringFacts.

(** ** The URL classifier *)

Section Classifier.
Import PyStr Scraper.

Lemma unreserved_lacks (c : ascii) (s : string) :
  is_unreserved c = false -> all_unreserved s = true ->
  str_in (String c "") s = false.
Proof.
  intros Hc. induction s as [|b s IH]; intros Hs; [reflexivity|].
  simpl in Hs. apply andb_true_iff in Hs as [Hb Hs].
  simpl. destruct (ascii_dec c b) as [->|_]; [congruence|].
  simpl. auto.
Qed.

Lemma prefix_lacks_char (c : ascii) (n s : string) :
  str_in (String c "") s = false ->
  str_in (String c "") n = true -> String.prefix n s = false.
Proof.
  intros Hs Hn. destruct (String.prefix n s) eqn:E; [|reflexivity].
  rewrite (prefix_has_char c n s E Hn) in Hs. discriminate.
Qed.

Lemma prefix_empty (s : string) : String.prefix "" s = true.
Proof. destruct s; reflexivity. Qed.

Lemma content_url_checks (slug : string) :
  slug <> "" -> slug <> "digital-library" ->
  str_in "/" slug = false -> str_in "?" slug = false ->
  str_in "&author=" slug = false ->
  is_article_url (content_url slug) = true.
Proof.
  intros Hne Hdl Hsl Hq Ha.
  assert (Q1 : (slug =? "") = false) by (apply String.eqb_neq; exact Hne).
  assert (Q2 : (slug =? "digital-library") = false)
    by (apply String.eqb_neq; exact Hdl).
  assert (Q3 : (slug =? "digital-library/") = false).
  { apply String.eqb_neq. intros ->. discriminate Hsl. }
  unfold is_article_url, content_url, Config.LIBRARY_BASE_URL.
  cbn.
  rewrite Q1, Q2, Q3, Ha, Hq, prefix_empty.
  repeat match goal with
  | |- context [endswith slug ?n] =>
      rewrite (endswith_lacks_char "/" slug n Hsl eq_refl)
  | |- context [String.prefix ?n slug] =>
      first [ rewrite (prefix_lacks_char "/" n slug Hsl eq_refl)
            | rewrite (prefix_lacks_char "?" n slug Hq eq_refl) ]
  | |- context [str_in ?n slug] =>
      first [ rewrite (str_in_lacks_char "/" n slug Hsl eq_refl)
            | rewrite (str_in_lacks_char "?" n slug Hq eq_refl) ]
  end.
  reflexivity.
Qed.

Lemma listing_root_rejected (url : string) :
  endswith url "/digital-library" = true \/
  endswith url "/digital-library/" = true ->
  is_article_url url = false.
Proof.
  intros H. unfold is_article_url.
  destruct (str_in "/digital-library" url); [simpl|reflexivity].
  destruct H as [-> | ->]; [reflexivity|]. rewrite orb_true_r. reflexivity.
Qed.

Lemma category_index_rejected (url : string) :
  str_in "/digital-library/category/" url = true -> is_article_url url = false.
Proof.
  intros H. unfold is_article_url. rewrite H.
  destruct (str_in "/digital-library" url); [simpl|reflexivity].
  destruct (endswith url "/digital-library" || endswith url "/digital-library/");
    reflexivity.
Qed.

Lemma tag_index_rejected (url : string) :
  str_in "/digital-library/tag/" url = true -> is_article_url url = false.
Proof.
  intros H. unfold is_article_url. rewrite H.
  destruct (str_in "/digital-library" url); [simpl|reflexivity].
  destruct (endswith url "/digital-library" || endswith url "/digital-library/");
    [reflexivity|].
  destruct (str_in "/digital-library/category/" url); reflexivity.
Qed.

Lemma author_query_rejected (url : string) :
  str_in "?author=" url = true \/ str_in "&author=" url = true \/
  str_in "/digital-library?" url = true ->
  is_article_url url = false.
Proof.
  intros H. unfold is_article_url.
  destruct (str_in "/digital-library" url); [simpl|reflexivity].
  destruct (endswith url "/digital-library" || endswith url "/digital-library/");
    [reflexivity|].
  destruct (str_in "/digital-library/category/" url); [reflexivity|].
  destruct (str_in "/digital-library/tag/" url); [reflexivity|].
  destruct H as [-> | [-> | ->]]; [reflexivity| |].
  - rewrite orb_true_r. reflexivity.
  - destruct (str_in "?author=" url || str_in "&author=" url); reflexivity.
Qed.

(** The rules of [is_article_url] one by one: it is false for every URL that
    ends in the listing root (with or without the trailing slash), for every
    URL containing the category-index or the tag-index path, and for every
    URL carrying an [author=] parameter or a query string on the listing
    root; on the content URL of a one-segment slug (non-empty, without [/],
    [?] and ["&author="]) it is true unless the slug is ["digital-library"]. *)
Lemma is_article_url_classification :
  (forall url,
     endswith url "/digital-library" = true \/
     endswith url "/digital-library/" = true ->
     is_article_url url = false) /\
  (forall url,
     str_in "/digital-library/category/" url = true ->
     is_article_url url = false) /\
  (forall url,
     str_in "/digital-library/tag/" url = true -> is_article_url url = false) /\
  (forall url,
     str_in "?author=" url = true \/ str_in "&author=" url = true \/
     str_in "/digital-library?" url = true ->
     is_article_url url = false) /\
  (forall slug,
     slug <> "" -> str_in "/" slug = false -> str_in "?" slug = false ->
     str_in "&author=" slug = false ->
     is_article_url (content_url slug) = negb (slug =? "digital-library")).
Proof.
  split; [exact listing_root_rejected|].
  split; [exact category_index_rejected|].
  split; [exact tag_index_rejected|].
  split; [exact author_query_rejected|].
  intros slug Hne Hsl Hq Ha.
  destruct (slug =? "digital-library") eqn:E; cbn [negb].
  - apply String.eqb_eq in E. subst slug. reflexivity.
  - apply String.eqb_neq in E. apply content_url_checks; assumption.
Qed.

(** A slug of unreserved characters is such a segment. *)
Lemma well_formed_slug_is_one_segment (slug : string) :
  well_formed_slug slug = true ->
  slug <> "" /\ str_in "/" slug = false /\ str_in "?" slug = false /\
  str_in "&author=" slug = false.
Proof.
  unfold well_formed_slug. intros Hwf.
  apply andb_true_iff in Hwf as [Hne Hall].
  apply negb_true_iff, String.eqb_neq in Hne.
  split; [exact Hne|].
  split; [apply unreserved_lacks; [reflexivity|exact Hall]|].
  split; [apply unreserved_lacks; [reflexivity|exact Hall]|].
  apply (str_in_lacks_char "&"); [|reflexivity].
  apply unreserved_lacks; [reflexivity|exact Hall].
Qed.

(** C4: the content URL of the slug ["digital-library"] is well formed (the
    base URL, the content path and one segment of unreserved characters),
    has no query string and is not the listing root, yet [is_article_url]
    rejects it: the check that excludes the main library page is
    [url.endswith('/digital-library')], which this URL passes as well. It is
    the only slug of one segment (non-empty, without [/], [?] and
    ["&author="]) whose content URL the classifier rejects; every exclusion
    rule of the claim holds. *)
Theorem is_article_url_rejects_a_content_url :
  let url := content_url "digital-library" in
  url = "https://sacredcommunityproject.org/digital-library/digital-library" /\
  well_formed_slug "digital-library" = true /\
  str_in "?" url = false /\
  url <> (Config.LIBRARY_BASE_URL ++ "/digital-library")%string /\
  url <> (Config.LIBRARY_BASE_URL ++ "/digital-library/")%string /\
  endswith url "/digital-library" = true /\
  is_article_url url = false /\
  (forall slug,
     slug <> "" -> str_in "/" slug = false -> str_in "?" slug = false ->
     str_in "&author=" slug = false ->
     (is_article_url (content_url slug) = false <-> slug = "digital-library")) /\
  (forall url',
     endswith url' "/digital-library" = true \/
     endswith url' "/digital-library/" = true \/
     str_in "/digital-library/category/" url' = true \/
     str_in "/digital-library/tag/" url' = true \/
     str_in "?author=" url' = true \/ str_in "&author=" url' = true \/
     str_in "/digital-library?" url' = true ->
     is_article_url url' = false).
Proof.
  cbv zeta.
  split; [reflexivity|]. split; [reflexivity|]. split; [reflexivity|].
  split; [discriminate|]. split; [discriminate|].
  split; [reflexivity|]. split; [reflexivity|]. split.
  - intros slug Hne Hsl Hq Ha.
    destruct is_article_url_classification as (_ & _ & _ & _ & H5).
    rewrite (H5 slug Hne Hsl Hq Ha).
    destruct (slug =? "digital-library") eqn:E; cbn [negb].
    + apply String.eqb_eq in E. tauto.
    + apply String.eqb_neq in E. split; [discriminate|tauto].
  - intros url' H.
    destruct H as [H|[H|[H|[H|H]]]].
    + apply listing_root_rejected. now left.
    + apply listing_root_rejected. now right.
    + now apply category_index_rejected.
    + now apply tag_index_rejected.
    + now apply author_query_rejected.
Qed.

End Classifier.

(** ** Reconciliation: [check_for_updates] *)

Section Reconcile.
Import PyStr Scraper.

Lemma check_entries_filter (db : Store.Table) (l new upd : list UrlData) :
  fold_left (check_entry db) l (new, upd)
  = ((new ++ filter (is_new db) l)%list, (upd ++ filter (is_changed db) l)%list).
Proof.
  revert new upd. induction l as [|e l IH]; intros new upd; simpl.
  - now rewrite !app_nil_r.
  - unfold is_new, is_changed.
    destruct (Store.find_url (u_url e) db) as [row|] eqn:F; simpl.
    + destruct (u_lastmod e) as [m|]; simpl.
      * destruct (truthy m && _) eqn:T; rewrite IH; unfold is_new, is_changed;
          rewrite <- ?app_assoc; reflexivity.
      * apply IH.
    + rewrite IH. rewrite <- app_assoc. reflexivity.
Qed.

Lemma check_for_updates_filter (all_urls : list UrlData) (db : Store.Table) :
  check_for_updates all_urls db
  = (filter (is_new db) (filter_article_urls all_urls)
     ++ filter (is_changed db) (filter_article_urls all_urls))%list.
Proof.
  unfold check_for_updates.
  destruct (filter_article_urls all_urls) as [|e l] eqn:E; [reflexivity|].
  rewrite check_entries_filter. reflexivity.
Qed.

Lemma is_changed_spec (db : Store.Table) (e : UrlData) :
  is_changed db e = true <->
  exists row m,
    Store.find_url (u_url e) db = Some row /\ u_lastmod e = Some m /\
    m <> "" /\ Store.last_modified row <> Some m.
Proof.
  unfold is_changed. split.
  - destruct (Store.find_url (u_url e) db) as [row|]; [|discriminate].
    destruct (u_lastmod e) as [m|]; [|discriminate].
    intros H. apply andb_true_iff in H as [Ht Hd].
    exists row, m. repeat split; auto.
    + apply negb_true_iff, String.eqb_neq in Ht. exact Ht.
    + apply negb_true_iff in Hd. intros Hs. rewrite Hs in Hd.
      rewrite String.eqb_refl in Hd. discriminate.
  - intros (row & m & -> & -> & Hm & Hd).
    apply andb_true_iff. split.
    + apply negb_true_iff, String.eqb_neq. exact Hm.
    + apply negb_true_iff. destruct (Store.last_modified row) as [m'|]; auto.
      apply String.eqb_neq. congruence.
Qed.

(** C2 (as the code has it): [check_for_updates] selects exactly the sitemap
    entries classified as articles that either have no row, or carry a
    non-empty [lastmod] that differs from the stored one; an entry whose
    [lastmod] matches, or is missing or empty, is skipped. For article URLs
    A (no row), B (stored [lastmod] equal) and C (a non-empty [lastmod]
    that differs from the stored one) the selection is exactly A and C. *)
Theorem check_for_updates_selection :
  (forall all_urls db e,
     In e (check_for_updates all_urls db) <->
     In e all_urls /\ is_article_url (u_url e) = true /\
     (Store.find_url (u_url e) db = None \/
      exists row m,
        Store.find_url (u_url e) db = Some row /\ u_lastmod e = Some m /\
        m <> "" /\ Store.last_modified row <> Some m)) /\
  (forall db a b c ma mb mc row_b row_c,
     is_article_url a = true -> is_article_url b = true ->
     is_article_url c = true ->
     Store.find_url a db = None ->
     Store.find_url b db = Some row_b -> Store.last_modified row_b = mb ->
     Store.find_url c db = Some row_c -> mc <> "" ->
     Store.last_modified row_c <> Some mc ->
     check_for_updates
       [mkUrlData a ma; mkUrlData b mb; mkUrlData c (Some mc)] db
     = [mkUrlData a ma; mkUrlData c (Some mc)]).
Proof.
  split.
  - intros all_urls db e. rewrite check_for_updates_filter.
    rewrite in_app_iff, !filter_In. unfold filter_article_urls.
    rewrite filter_In, is_changed_spec. unfold is_new.
    destruct (Store.find_url (u_url e) db) as [row|].
    + split.
      * intros [[_ H]|[[H1 H2] H3]]; [discriminate|]. auto.
      * intros (H1 & H2 & [H|H]); [discriminate|]. right. auto.
    + split.
      * intros [[[H1 H2] _]|[[H1 H2] _]]; auto.
      * intros (H1 & H2 & _). left. auto.
  - intros db a b c ma mb mc row_b row_c Ha Hb Hc Fa Fb Lb Fc Hmc Lc.
    rewrite check_for_updates_filter. unfold filter_article_urls.
    simpl. rewrite Ha, Hb, Hc. simpl.
    unfold is_new, is_changed; simpl. rewrite Fa, Fb, Fc. simpl.
    assert (Tc : truthy mc = true)
      by (apply negb_true_iff, String.eqb_neq; exact Hmc).
    rewrite Tc.
    assert (Dc : match Store.last_modified row_c with
                 | Some m' => mc =? m'
                 | None => false
                 end = false).
    { destruct (Store.last_modified row_c) as [m'|]; auto.
      apply String.eqb_neq. congruence. }
    rewrite Dc. simpl.
    assert (Db : match mb with
                 | Some m => truthy m && negb (match Store.last_modified row_b with
                                               | Some m' => m =? m'
                                               | None => false
                                               end)
                 | None => false
                 end = false).
    { destruct mb as [m|]; auto. rewrite Lb, String.eqb_refl.
      apply andb_false_r. }
    rewrite Db. reflexivity.
Qed.

(** C2, witness: the scenario on a table that holds B and C. *)
Lemma check_for_updates_selection_witness :
  check_for_updates Samples.manifest_abc Samples.table_bc
  = [mkUrlData Samples.url_a (Some "2025-08-01");
     mkUrlData Samples.url_c (Some "2025-08-02")].
Proof.
  apply (proj2 check_for_updates_selection Samples.table_bc
           Samples.url_a Samples.url_b Samples.url_c
           (Some "2025-08-01") (Some "2025-07-01") "2025-08-02"
           (Samples.row_for Samples.url_b (Some "2025-07-01") true)
           (Samples.row_for Samples.url_c (Some "2025-07-01") true));
    solve [reflexivity | discriminate].
Defined.

(** C2, counterexample: C is stored with a [lastmod], the sitemap lists it
    without one; the two differ, and C is not selected. *)
Lemma check_for_updates_skips_undated_entry :
  let e := mkUrlData Samples.url_c None in
  exists row,
    In e Samples.manifest_c_undated /\
    is_article_url (u_url e) = true /\
    Store.find_url (u_url e) Samples.table_bc = Some row /\
    Store.last_modified row <> u_lastmod e /\
    ~ In e (check_for_updates Samples.manifest_c_undated Samples.table_bc).
Proof.
  exists (Samples.row_for Samples.url_c (Some "2025-07-01") true).
  split; [left; reflexivity|].
  split; [reflexivity|].
  split; [reflexivity|].
  split; [discriminate|].
  vm_compute. tauto.
Qed.

End Reconcile.

(** ** Fetching with retries and the scraping loop *)

Section Fetching.
Import PyStr Scraper.

Variable json_dumps : list string -> string.
Variable net : nat -> string -> option Soup.
Variable clock : nat -> string.

Local Abbreviation scrape_page := (scrape_page json_dumps net).
Local Abbreviation scrape_one := (scrape_one json_dumps net clock).
Local Abbreviation scrape_loop_from := (scrape_loop_from json_dumps net clock).
Local Abbreviation scrape_loop := (scrape_loop json_dumps net clock).

Lemma scrape_page_cases (url_data : UrlData) (st : State) :
  let url := u_url url_data in
  let r := scrape_page url_data st in
  db (snd r) = db st /\
  archive_dates_map (snd r) = archive_dates_map st /\
  stats_pages_scraped (snd r) = stats_pages_scraped st /\
  ((fst r <> None /\ stats_errors (snd r) = stats_errors st /\
    ((requests (snd r) = requests st + 1 /\
      trace (snd r) = trace st ++ [EGet url]) \/
     (requests (snd r) = requests st + 2 /\
      trace (snd r) = trace st ++ [EGet url; ESleep 2000%Z; EGet url]) \/
     (requests (snd r) = requests st + 3 /\
      trace (snd r)
      = trace st ++ [EGet url; ESleep 2000%Z; EGet url; ESleep 2000%Z; EGet url])))
   \/
   (net (requests st) url = None /\ net (requests st + 1) url = None /\
    net (requests st + 2) url = None /\ r = (None, gave_up url st))).
Proof.
  unfold Scraper.scrape_page, gave_up. cbn -[Nat.add].
  replace (requests st + 1) with (S (requests st)) by lia.
  replace (requests st + 2) with (S (S (requests st))) by lia.
  replace (requests st + 3) with (S (S (S (requests st)))) by lia.
  destruct (net (requests st) (u_url url_data)) as [soup|] eqn:N0; cbn.
  { repeat split; auto. left. repeat split; try discriminate. left. auto. }
  destruct (net (S (requests st)) (u_url url_data)) as [soup|] eqn:N1; cbn.
  { repeat split; auto. left. repeat split; try discriminate.
    right; left. split; [reflexivity|]. rewrite <- !app_assoc. reflexivity. }
  destruct (net (S (S (requests st))) (u_url url_data)) as [soup|] eqn:N2; cbn.
  { repeat split; auto. left. repeat split; try discriminate.
    right; right. split; [reflexivity|]. rewrite <- !app_assoc. reflexivity. }
  repeat split; auto. right. repeat split; auto.
  rewrite <- !app_assoc. reflexivity.
Qed.

Lemma scrape_page_gives_up (url_data : UrlData) (st : State) :
  net (requests st) (u_url url_data) = None ->
  net (requests st + 1) (u_url url_data) = None ->
  net (requests st + 2) (u_url url_data) = None ->
  scrape_page url_data st = (None, gave_up (u_url url_data) st).
Proof.
  intros N0 N1 N2.
  destruct (scrape_page_cases url_data st) as (_ & _ & _ & [H|H]).
  - unfold Scraper.scrape_page in *. cbn -[Nat.add] in *.
    rewrite N0 in *. cbn -[Nat.add] in *.
    replace (S (requests st)) with (requests st + 1) in * by lia.
    rewrite N1 in *. cbn -[Nat.add] in *.
    replace (S (requests st + 1)) with (requests st + 2) in * by lia.
    rewrite N2 in *. cbn in H. destruct H as [H _]. congruence.
  - apply H.
Qed.

Lemma scrape_one_attempts (u : UrlData) (acc : State * nat) :
  exists suffix,
    trace (fst (scrape_one u acc)) = trace (fst acc) ++ EGet (u_url u) :: suffix.
Proof.
  destruct acc as [st n]. unfold Scraper.scrape_one.
  pose proof (scrape_page_cases u st) as H. cbn zeta in H.
  destruct (scrape_page u st) as [data st1]. cbn [fst snd] in H.
  destruct H as (_ & _ & _ & H).
  assert (T : exists suf, trace st1 = trace st ++ EGet (u_url u) :: suf).
  { destruct H as [(_ & _ & [[_ T]|[[_ T]|[_ T]]])|(_ & _ & _ & E)].
    - exists []. exact T.
    - eexists. exact T.
    - eexists. exact T.
    - inversion E. eexists. reflexivity. }
  destruct T as [suf T].
  destruct data as [data|].
  - destruct (d_scrape_success data && _); cbn; rewrite T;
      rewrite <- !app_assoc; cbn; eexists; reflexivity.
  - cbn. rewrite T. rewrite <- app_assoc. cbn. eexists; reflexivity.
Qed.

Lemma scrape_loop_from_grows (articles : list UrlData) (acc : State * nat) :
  exists suffix,
    trace (fst (scrape_loop_from articles acc)) = trace (fst acc) ++ suffix.
Proof.
  revert acc. induction articles as [|u rest IH]; intros acc.
  - exists []. cbn. now rewrite app_nil_r.
  - cbn. destruct (IH (scrape_one u acc)) as [s1 E1].
    destruct (scrape_one_attempts u acc) as [s0 E0].
    unfold Scraper.scrape_loop_from in E1. rewrite E1, E0.
    rewrite <- app_assoc. eexists; reflexivity.
Qed.

Lemma scrape_loop_from_attempts_all (articles : list UrlData) (acc : State * nat)
    (u : UrlData) :
  In u articles ->
  In (EGet (u_url u)) (trace (fst (scrape_loop_from articles acc))).
Proof.
  revert acc. induction articles as [|v rest IH]; intros acc Hin; [destruct Hin|].
  destruct Hin as [->|Hin].
  - cbn. destruct (scrape_loop_from_grows rest (scrape_one u acc)) as [s1 E1].
    destruct (scrape_one_attempts u acc) as [s0 E0].
    unfold Scraper.scrape_loop_from in E1. rewrite E1, E0.
    rewrite !in_app_iff. left; right; left. reflexivity.
  - cbn. apply (IH (scrape_one v acc) Hin).
Qed.

(** C3 (as the code has it): [scrape_page] makes at most three requests for
    a URL, with a sleep of two seconds between attempts; when the third
    fails too it returns no data and adds exactly one to the error counter,
    the table being left as it was; the loop then writes nothing for that
    URL, sleeps the request delay and goes on with the next URL; and every
    URL of the batch is requested, whatever happened to the ones before. *)
Theorem scrape_page_retries_and_loop_continues :
  (forall url_data st,
     requests st < requests (snd (scrape_page url_data st)) <= requests st + 3) /\
  (forall url_data st,
     net (requests st) (u_url url_data) = None ->
     net (requests st + 1) (u_url url_data) = None ->
     net (requests st + 2) (u_url url_data) = None ->
     let st' := snd (scrape_page url_data st) in
     fst (scrape_page url_data st) = None /\
     stats_errors st' = S (stats_errors st) /\
     db st' = db st /\
     trace st'
     = trace st ++ [EGet (u_url url_data); ESleep 2000%Z;
                    EGet (u_url url_data); ESleep 2000%Z;
                    EGet (u_url url_data)]) /\
  (forall url_data rest st successful,
     net (requests st) (u_url url_data) = None ->
     net (requests st + 1) (u_url url_data) = None ->
     net (requests st + 2) (u_url url_data) = None ->
     scrape_loop_from (url_data :: rest) (st, successful)
     = scrape_loop_from rest
         (sleep request_delay (gave_up (u_url url_data) st), successful)) /\
  (forall articles st u,
     In u articles ->
     In (EGet (u_url u)) (trace (fst (scrape_loop articles st)))).
Proof.
  split; [|split; [|split]].
  - intros url_data st.
    destruct (scrape_page_cases url_data st) as (_ & _ & _ & [H|H]).
    + destruct H as (_ & _ & [[R _]|[[R _]|[R _]]]); lia.
    + destruct H as (_ & _ & _ & E). rewrite E. cbn. lia.
  - intros url_data st N0 N1 N2.
    rewrite (scrape_page_gives_up url_data st N0 N1 N2). cbn. auto.
  - intros url_data rest st successful N0 N1 N2.
    unfold Scraper.scrape_loop_from. cbn [fold_left]. f_equal.
    unfold Scraper.scrape_one.
    rewrite (scrape_page_gives_up url_data st N0 N1 N2). reflexivity.
  - intros articles st u Hin. apply scrape_loop_from_attempts_all. exact Hin.
Qed.

End Fetching.

(** C3, witness: a batch of two URLs on a network where every request
    fails. *)
Lemma scrape_page_retries_witness :
  let st := Samples.fresh_state [] in
  let u := Scraper.mkUrlData Samples.url_a None in
  let v := Scraper.mkUrlData Samples.url_b None in
  Scraper.stats_errors
    (snd (Scraper.scrape_page (fun _ => "[]") Samples.dead_net u st)) = 1 /\
  In (Scraper.EGet Samples.url_b)
     (Scraper.trace
        (fst (Scraper.scrape_loop (fun _ => "[]") Samples.dead_net
                Samples.still_clock [u; v] st))).
Proof.
  intros st u v.
  destruct (scrape_page_retries_and_loop_continues
              (fun _ => "[]") Samples.dead_net Samples.still_clock)
    as (_ & H2 & _ & H4).
  split.
  - destruct (H2 u st eq_refl eq_refl eq_refl) as (_ & E & _). exact E.
  - apply (H4 [u; v] st v). right; left; reflexivity.
Defined.

(** C3, counterexample: after three failed attempts the table holds no row
    for the URL, failed or not, although the failure is counted. *)
Lemma failed_fetch_is_not_stored :
  let st := Samples.fresh_state [] in
  let u := Scraper.mkUrlData Samples.url_a None in
  let final :=
    fst (Scraper.scrape_loop (fun _ => "[]") Samples.dead_net
           Samples.still_clock [u] st) in
  Scraper.stats_errors final = 1 /\
  Store.find_url Samples.url_a (Scraper.db final) = None /\
  ~ (exists row, In row (Scraper.db final) /\
                 Store.url row = Samples.url_a /\
                 Store.scrape_success row = false).
Proof.
  cbn. repeat split. intros (row & [] & _).
Qed.

(** ** The browsing session of bot.py *)

Section Session.
Import Bot.

Variable json_loads : string -> option (list string).

Lemma total_pages_12 (results : list Queries.Article) :
  List.length results = 12 -> total_pages results = 3%Z.
Proof. intros H. unfold total_pages. rewrite H. reflexivity. Qed.

Lemma next_page_step (database : option Store.Table) (filters : Filters)
    (results : list Queries.Article) (page : Z) (items : list Select) :
  List.length results = 12 ->
  fst (handle json_loads database NextPage (mkView filters results page items))
  = mkView filters results (if (page <? 2)%Z then page + 1 else page)%Z items.
Proof.
  intros Hlen. unfold handle, next_button.
  cbn [current_results current_page current_filters children].
  rewrite (total_pages_12 results Hlen).
  change (3 - 1)%Z with 2%Z. destruct (page <? 2)%Z; reflexivity.
Qed.

Lemma prev_page_step (database : option Store.Table) (filters : Filters)
    (results : list Queries.Article) (page : Z) (items : list Select) :
  fst (handle json_loads database PrevPage (mkView filters results page items))
  = mkView filters results (if (0 <? page)%Z then page - 1 else page)%Z items.
Proof.
  unfold handle, previous_button.
  cbn [current_results current_page current_filters children].
  destruct (0 <? page)%Z; reflexivity.
Qed.

(** C6: [previous_button] on page 0 and [next_button] on the last page send
    a notice and leave the session as it is, the last page being page
    [total_pages - 1], or page 0 of a session without results; with 12
    results, paged by 5, three [next] and three [prev] end on page 0, in the
    very state the session started in, its page being the first five
    results. *)
Theorem paging_stops_at_the_boundaries :
  (forall view,
     (current_page view <= 0)%Z ->
     previous_button view
     = (view, [SendMessage "You're already on the first page!" true])) /\
  (forall view,
     (total_pages (current_results view) - 1 <= current_page view)%Z ->
     next_button view
     = (view, [SendMessage "You're already on the last page!" true])) /\
  (forall database view,
     List.length (current_results view) = 12 ->
     current_page view = 0%Z ->
     let final :=
       run json_loads database
           [NextPage; NextPage; NextPage; PrevPage; PrevPage; PrevPage] view in
     final = view /\
     slice (current_results final)
           (current_page final * Config.RESULTS_PER_PAGE)
           (current_page final * Config.RESULTS_PER_PAGE + Config.RESULTS_PER_PAGE)
     = firstn 5 (current_results view)).
Proof.
  split; [|split].
  - intros view H. unfold previous_button.
    apply Z.ltb_ge in H. rewrite H. reflexivity.
  - intros view H. unfold next_button. cbv zeta.
    apply Z.ltb_ge in H. rewrite H. reflexivity.
  - intros database [filters results page items] Hlen Hpage.
    cbn [current_results current_page] in Hlen, Hpage. subst page.
    assert (E : run json_loads database
                  [NextPage; NextPage; NextPage; PrevPage; PrevPage; PrevPage]
                  (mkView filters results 0 items)
                = mkView filters results 0 items).
    { unfold run. cbn [fold_left].
      rewrite !(next_page_step _ _ _ _ _ Hlen). cbn [Z.ltb Z.compare Z.add Pos.compare Pos.compare_cont Pos.add Pos.succ].
      rewrite !prev_page_step. reflexivity. }
    cbn zeta. rewrite E. split; [reflexivity|].
    cbn [current_results current_page]. unfold slice.
    rewrite Hlen. reflexivity.
Qed.

(** The selection handlers of bot.py on a database that answers: exactly
    the named filter is set or cleared, the page is 0. *)
Lemma bot_select_sets_one_filter (db : Store.Table) (view : LibraryView)
    (selected : string) :
  let value := if (selected =? "clear")%string then None else Some selected in
  let f := current_filters view in
  (let view' := fst (category_callback json_loads (Some db) selected view) in
   current_filters view'
   = mkFilters value (f_author f) (f_tag f) (f_search_term f)
   /\ current_page view' = 0%Z) /\
  (let view' := fst (author_callback json_loads (Some db) selected view) in
   current_filters view'
   = mkFilters (f_category f) value (f_tag f) (f_search_term f)
   /\ current_page view' = 0%Z) /\
  (let view' := fst (tag_callback json_loads (Some db) selected view) in
   current_filters view'
   = mkFilters (f_category f) (f_author f) value (f_search_term f)
   /\ current_page view' = 0%Z).
Proof. repeat split. Qed.

(** C5, on bot.py: when the search raises, every handler that searches
    leaves the session with the results and the page it had before the
    event, next to the filter just set, and renders the error notice. *)
Theorem search_error_keeps_stale_results :
  forall (view : LibraryView) (value : string),
    let stale (r : LibraryView * list Output) : Prop :=
      current_results (fst r) = current_results view /\
      current_page (fst r) = current_page view /\
      snd r = [Defer; EditOriginalResponse SearchError] in
    stale (category_callback json_loads None value view) /\
    stale (author_callback json_loads None value view) /\
    stale (tag_callback json_loads None value view) /\
    stale (on_submit json_loads None value view) /\
    current_results
      (fst (category_callback json_loads None "Grief" Samples.view_page_2))
    = Samples.twelve_results.
Proof. intros view value. repeat split. Qed.

End Session.

(** C6, witness: the session of twelve results, its last page, and a
    session just opened, without results. *)
Lemma paging_stops_at_the_boundaries_witness :
  fst (Bot.previous_button Samples.view_12) = Samples.view_12 /\
  (let last :=
     Bot.mkView (Bot.mkFilters None None None None) Samples.twelve_results 2
                Samples.dropdowns in
   Bot.next_button last
   = (last, [Bot.SendMessage "You're already on the last page!" true])) /\
  Bot.next_button (SessionSpec.new_view Samples.dropdowns)
  = (SessionSpec.new_view Samples.dropdowns,
     [Bot.SendMessage "You're already on the last page!" true]) /\
  Bot.previous_button (SessionSpec.new_view Samples.dropdowns)
  = (SessionSpec.new_view Samples.dropdowns,
     [Bot.SendMessage "You're already on the first page!" true]) /\
  Bot.run PlainJson.loads None
      [Bot.NextPage; Bot.NextPage; Bot.NextPage;
       Bot.PrevPage; Bot.PrevPage; Bot.PrevPage]
      Samples.view_12
  = Samples.view_12.
Proof.
  destruct (paging_stops_at_the_boundaries PlainJson.loads) as (H1 & H2 & H3).
  split; [|split; [|split; [|split]]].
  - rewrite (H1 Samples.view_12); [reflexivity|cbn; lia].
  - apply H2. vm_compute. discriminate.
  - apply H2. vm_compute. discriminate.
  - apply H1. cbn. lia.
  - apply (H3 None Samples.view_12 eq_refl eq_refl).
Defined.


(** ** The persistent view of utils/views/library_view.py *)

Section Persistent.
Import PersistentView.

Variable Result : Type.
Variable rss_search : string -> option string -> option string -> option (list Result).
Variable engine_search : list Result -> string -> option (list Result).

(** The persistent view clears the results when the search raises, and
    then renders the ordinary empty page. *)
Lemma persistent_load_error_clears_results (view : LibraryView Result) :
  rss_search (current_query _ view) (current_category _ view)
             (current_author _ view) = None ->
  current_results _ (load_results _ rss_search engine_search view) = [].
Proof. intros H. unfold load_results. rewrite H. reflexivity. Qed.

(** C7, on the persistent view: a clear request ("all") reaches
    [update_filters] as [None], which it reads as "not given": the filter
    keeps its value. *)
Theorem persistent_clear_keeps_the_filter :
  forall view : LibraryView Result,
    current_category _
      (fst (category_select_callback _ rss_search engine_search "all" view))
    = current_category _ view /\
    current_author _
      (fst (author_select_callback _ rss_search engine_search "all" view))
    = current_author _ view.
Proof.
  intros view. unfold category_select_callback, author_select_callback,
    update_filters, load_results. cbn.
  split.
  - destruct (rss_search _ _ _); [|reflexivity].
    destruct (PyStr.truthy _); [|reflexivity].
    destruct (engine_search _ _); reflexivity.
  - destruct (rss_search _ _ _); [|reflexivity].
    destruct (PyStr.truthy _); [|reflexivity].
    destruct (engine_search _ _); reflexivity.
Qed.

End Persistent.

(** C7, at a concrete view: the category stays "Grief" after "All
    Categories" is chosen. *)
Lemma persistent_clear_example :
  PersistentView.current_category _
    (fst (PersistentView.category_select_callback _ Samples.quiet_parser
            Samples.plain_engine "all" Samples.persistent_filtered))
  = Some "Grief".
Proof. reflexivity. Qed.

(** ** Sorting *)

Section SortFacts.
Import PyStr.

Context {A : Type} (le : A -> A -> bool).

Lemma insert_by_perm (x : A) (l : list A) :
  Permutation (insert_by le x l) (x :: l).
Proof.
  induction l as [|y l IH]; cbn; [reflexivity|].
  destruct (le x y); [reflexivity|].
  rewrite IH. apply perm_swap.
Qed.

Lemma sort_by_perm (l : list A) : Permutation (sort_by le l) l.
Proof.
  induction l as [|x l IH]; cbn; [reflexivity|].
  rewrite insert_by_perm. now rewrite IH.
Qed.

Lemma sort_by_In (x : A) (l : list A) : In x (sort_by le l) <-> In x l.
Proof.
  split; apply Permutation_in; [|symmetry]; apply sort_by_perm.
Qed.

Lemma sort_by_length (l : list A) : List.length (sort_by le l) = List.length l.
Proof. apply Permutation_length, sort_by_perm. Qed.

(** Insertion keeps a list sorted for a relation [R] that [le] respects
    around the new element. *)
Lemma insert_by_sorted (R : A -> A -> Prop) (x : A) (l : list A) :
  (forall y, In y l -> le x y = true -> R x y) ->
  (forall y z, In y l -> In z l -> R x y -> R y z -> R x z) ->
  (forall y, In y l -> le x y = false -> R y x) ->
  StronglySorted R l -> StronglySorted R (insert_by le x l).
Proof.
  intros Hhead Htrans Hpass Hs.
  induction Hs as [|y l Hs IH Hy]; cbn.
  - constructor; constructor.
  - destruct (le x y) eqn:E.
    + assert (Rxy : R x y) by (apply Hhead; [left; reflexivity|exact E]).
      constructor; [constructor; assumption|].
      constructor; [exact Rxy|].
      rewrite Forall_forall in Hy |- *. intros z Hz.
      apply (Htrans y z); [left; reflexivity|right; exact Hz|exact Rxy|auto].
    + constructor.
      * apply IH.
        -- intros z Hz. apply Hhead. right; exact Hz.
        -- intros z w Hz Hw. apply Htrans; right; assumption.
        -- intros z Hz. apply Hpass. right; exact Hz.
      * rewrite Forall_forall in Hy |- *. intros z Hz.
        apply (Permutation_in _ (insert_by_perm x l)) in Hz.
        destruct Hz as [<-|Hz]; [|auto].
        apply Hpass; [left; reflexivity|exact E].
Qed.

Lemma StronglySorted_weaken (R R' : A -> A -> Prop) (l : list A) :
  (forall a b, In a l -> In b l -> R a b -> R' a b) ->
  StronglySorted R l -> StronglySorted R' l.
Proof.
  intros Himp Hs. induction Hs as [|y l Hs IH Hy]; constructor.
  - apply IH. intros a b Ha Hb. apply Himp; right; assumption.
  - rewrite Forall_forall in Hy |- *. intros z Hz.
    apply Himp; [left; reflexivity|right; exact Hz|auto].
Qed.

Lemma StronglySorted_across (R : A -> A -> Prop) (l1 l2 : list A) (a b : A) :
  StronglySorted R (l1 ++ l2) -> In a l1 -> In b l2 -> R a b.
Proof.
  induction l1 as [|y l1 IH]; intros Hs Ha Hb; [destruct Ha|].
  cbn in Hs. apply StronglySorted_inv in Hs as [Hs Hy].
  destruct Ha as [->|Ha]; [|auto].
  rewrite Forall_forall in Hy. apply Hy, in_or_app. right; exact Hb.
Qed.

End SortFacts.

(** ** The order of strings *)

Section StringOrder.

Lemma ascii_compare_trans (a b c : ascii) :
  Ascii.compare a b <> Gt -> Ascii.compare b c <> Gt ->
  Ascii.compare a c <> Gt /\
  (Ascii.compare a c = Eq -> Ascii.compare a b = Eq /\ Ascii.compare b c = Eq).
Proof.
  unfold Ascii.compare. intros H1 H2.
  destruct (N.compare_spec (N_of_ascii a) (N_of_ascii b));
    destruct (N.compare_spec (N_of_ascii b) (N_of_ascii c));
    destruct (N.compare_spec (N_of_ascii a) (N_of_ascii c));
    try (exfalso; congruence); try (exfalso; lia);
    (split; [congruence|intros E; try discriminate E; split; reflexivity]).
Qed.

Lemma string_leb_trans (s1 s2 s3 : string) :
  String.leb s1 s2 = true -> String.leb s2 s3 = true -> String.leb s1 s3 = true.
Proof.
  unfold String.leb.
  assert (T : forall a b c, String.compare a b <> Gt ->
                            String.compare b c <> Gt ->
                            String.compare a c <> Gt).
  { induction a as [|x a IH]; intros [|y b] [|z c]; cbn; try congruence.
    intros H1 H2.
    assert (Axy : Ascii.compare x y <> Gt)
      by (intros E; rewrite E in H1; congruence).
    assert (Ayz : Ascii.compare y z <> Gt)
      by (intros E; rewrite E in H2; congruence).
    destruct (ascii_compare_trans x y z Axy Ayz) as [Hn He].
    destruct (Ascii.compare x z) eqn:Exz; [|congruence|congruence].
    destruct (He eq_refl) as [E1 E2]. rewrite E1 in H1. rewrite E2 in H2.
    eapply IH; eauto. }
  intros H1 H2.
  specialize (T s1 s2 s3).
  destruct (String.compare s1 s2); try discriminate;
    destruct (String.compare s2 s3); try discriminate;
    destruct (String.compare s1 s3); try reflexivity;
    exfalso; apply T; congruence.
Qed.

Lemma string_leb_false (s1 s2 : string) :
  String.leb s1 s2 = false -> String.leb s2 s1 = true.
Proof.
  intros H. destruct (String.leb_total s1 s2) as [E|E]; congruence.
Qed.

(** [sorted] gives a list in ascending order. *)
Lemma sorted_is_sorted (l : list string) :
  StronglySorted (fun a b => String.leb a b = true) (PyStr.sorted l).
Proof.
  unfold PyStr.sorted. induction l as [|x l IH]; cbn; [constructor|].
  apply insert_by_sorted; [| | |exact IH].
  - auto.
  - intros y z _ _. apply string_leb_trans.
  - intros y _. apply string_leb_false.
Qed.

End StringOrder.

(** ** Failed rows and the queries *)

Section FailedRows.
Import PyStr Store Queries.

Variable json_loads : string -> option (list string).

Lemma filter_without (p : Row -> bool) (db1 db2 : Table) (r : Row) :
  p r = false -> filter p (db1 ++ r :: db2) = filter p (db1 ++ db2).
Proof.
  intros H. rewrite !filter_app. cbn. rewrite H. reflexivity.
Qed.

Lemma sql_limit_In {A : Type} (limit : Z) (l : list A) (x : A) :
  In x (sql_limit limit l) -> In x l.
Proof.
  unfold sql_limit. destruct (limit <? 0)%Z; [auto|].
  intros H. rewrite <- (firstn_skipn (Z.to_nat limit) l).
  apply in_or_app. left; exact H.
Qed.

(** Every result of [search_content] is built from a row that satisfies the
    WHERE clause. *)
Lemma search_content_rows (db : Table) (c a t q : option string) (limit : Z)
    (art : Article) :
  In art (search_content json_loads db c a t q limit) ->
  exists row,
    In row db /\ scrape_success row = true /\
    art = article_of_row json_loads row.
Proof.
  unfold search_content. rewrite in_map_iff.
  intros (row & <- & Hin). apply sql_limit_In in Hin.
  apply sort_by_In in Hin. apply filter_In in Hin as [Hin Hw].
  exists row. repeat split; auto.
  unfold search_where in Hw. rewrite !andb_true_iff in Hw. tauto.
Qed.

Lemma failed_row_dropped (db1 db2 : Table) (r : Row) :
  scrape_success r = false ->
  (forall c a t q limit,
     search_content json_loads (db1 ++ r :: db2) c a t q limit
     = search_content json_loads (db1 ++ db2) c a t q limit) /\
  get_all_categories (db1 ++ r :: db2) = get_all_categories (db1 ++ db2) /\
  get_all_authors (db1 ++ r :: db2) = get_all_authors (db1 ++ db2) /\
  get_all_tags_with_counts json_loads (db1 ++ r :: db2)
  = get_all_tags_with_counts json_loads (db1 ++ db2) /\
  counts (get_content_stats json_loads (db1 ++ r :: db2))
  = counts (get_content_stats json_loads (db1 ++ db2)).
Proof.
  intros Hr.
  assert (C : get_all_categories (db1 ++ r :: db2) = get_all_categories (db1 ++ db2)).
  { unfold get_all_categories.
    rewrite filter_without; [reflexivity|]. rewrite Hr. reflexivity. }
  assert (Au : get_all_authors (db1 ++ r :: db2) = get_all_authors (db1 ++ db2)).
  { unfold get_all_authors.
    rewrite filter_without; [reflexivity|]. rewrite Hr. reflexivity. }
  assert (T : get_all_tags_with_counts json_loads (db1 ++ r :: db2)
              = get_all_tags_with_counts json_loads (db1 ++ db2)).
  { unfold get_all_tags_with_counts, count_tags.
    rewrite filter_without; [reflexivity|]. rewrite Hr. reflexivity. }
  split; [|auto].
  - intros. unfold search_content.
    rewrite filter_without; [reflexivity|].
    unfold search_where. rewrite Hr. reflexivity.
  - repeat split; auto.
    unfold counts, get_content_stats. cbn [total_articles total_categories
      total_authors total_tags]. rewrite C, Au, T.
    rewrite filter_without by exact Hr. reflexivity.
Qed.

(** C1: a row with [scrape_success] false, wherever it stands in the table,
    changes no result of [search_content], no list of categories, authors
    or tags, and none of the four counts of [get_content_stats]; and, the
    URLs of the table being unique, no search result carries its URL. *)
Theorem failed_rows_are_invisible :
  forall (db1 db2 : Table) (r : Row),
    scrape_success r = false ->
    let with_r := db1 ++ r :: db2 in
    let without := db1 ++ db2 in
    (forall c a t q limit,
       search_content json_loads with_r c a t q limit
       = search_content json_loads without c a t q limit) /\
    get_all_categories with_r = get_all_categories without /\
    get_all_authors with_r = get_all_authors without /\
    get_all_tags_with_counts json_loads with_r
    = get_all_tags_with_counts json_loads without /\
    (let s := get_content_stats json_loads with_r in
     let s' := get_content_stats json_loads without in
     total_articles s = total_articles s' /\
     total_categories s = total_categories s' /\
     total_authors s = total_authors s' /\
     total_tags s = total_tags s') /\
    (unique_urls with_r ->
     forall c a t q limit art,
       In art (search_content json_loads with_r c a t q limit) ->
       a_url art <> url r).
Proof.
  intros db1 db2 r Hr with_r without.
  destruct (failed_row_dropped db1 db2 r Hr) as (S & C & Au & T & N).
  split; [exact S|]. split; [exact C|]. split; [exact Au|]. split; [exact T|].
  split.
  - unfold counts in N. cbn zeta. inversion N. auto.
  - intros U c a t q limit art Hart. unfold with_r in Hart. rewrite S in Hart.
    apply search_content_rows in Hart as (row & Hin & _ & ->).
    cbn [article_of_row a_url]. intros E.
    unfold unique_urls, with_r in U. rewrite map_app in U. cbn in U.
    apply NoDup_remove_2 in U. apply U. rewrite <- map_app, <- E.
    apply in_map. exact Hin.
Qed.

End FailedRows.

(** C1, witness: the failed row in the middle of the sample table. *)
Lemma failed_rows_are_invisible_witness :
  Queries.get_all_tags_with_counts PlainJson.loads Samples.table_with_failure
  = ["grief"; "healing"; "music"] /\
  Queries.get_all_categories Samples.table_with_failure = ["Grief"; "Healing"] /\
  forall art,
    In art (Queries.search_content PlainJson.loads Samples.table_with_failure
              None None None None 20) ->
    Queries.a_url art <> Scraper.content_url "broken".
Proof.
  destruct (failed_rows_are_invisible PlainJson.loads
              [Samples.tagged (Scraper.content_url "t1")
                 ["grief"; "healing"; "music"] "2025-08-01 10:00:01"]
              [Samples.tagged (Scraper.content_url "t2")
                 ["grief"; "healing"] "2025-08-01 10:00:03"]
              (Samples.failed_row (Scraper.content_url "broken")
                 "2025-08-01 10:00:02")
              eq_refl)
    as (_ & C & _ & T & _ & U).
  split; [|split].
  - etransitivity; [exact T|]. vm_compute. reflexivity.
  - etransitivity; [exact C|]. vm_compute. reflexivity.
  - intros art Hart. apply (U ltac:(unfold Store.unique_urls; cbn;
      repeat constructor; cbn; intuition discriminate)
      None None None None 20%Z art Hart).
Defined.

(** ** The last update of the statistics *)

Section LastUpdate.
Import PyStr Store Queries.

Variable json_loads : string -> option (list string).

Lemma string_compare_refl (a : string) : String.compare a a = Eq.
Proof.
  pose proof (String.compare_antisym a a) as H.
  destruct (String.compare a a); cbn in H; congruence.
Qed.

Lemma string_leb_refl (a : string) : String.leb a a = true.
Proof. unfold String.leb. now rewrite string_compare_refl. Qed.

(** One step of the fold of [sql_max]: the larger of the two. *)
Lemma sql_max_step (acc : option string) (v : string) :
  exists m,
    match Sql.compare_val acc (Some v) with
    | Lt => Some v
    | _ => acc
    end = Some m /\
    String.leb v m = true /\
    (forall a, acc = Some a -> String.leb a m = true) /\
    (m = v \/ acc = Some m).
Proof.
  destruct acc as [a|]; cbn.
  - destruct (String.compare a v) eqn:E.
    + exists a. repeat split; auto.
      * unfold String.leb. rewrite String.compare_antisym, E. reflexivity.
      * intros a' [= <-]. apply string_leb_refl.
    + exists v. repeat split; auto.
      * apply string_leb_refl.
      * intros a' [= <-]. unfold String.leb. now rewrite E.
    + exists a. repeat split; auto.
      * unfold String.leb. rewrite String.compare_antisym, E. reflexivity.
      * intros a' [= <-]. apply string_leb_refl.
  - exists v. repeat split; auto.
    + apply string_leb_refl.
    + discriminate.
Qed.

Lemma sql_max_fold (l : list string) (acc : option string) :
  let res :=
    fold_left
      (fun acc v =>
         match Sql.compare_val acc (Some v) with
         | Lt => Some v
         | _ => acc
         end) l acc in
  (forall x, In x l -> exists m, res = Some m /\ String.leb x m = true) /\
  (forall a, acc = Some a -> exists m, res = Some m /\ String.leb a m = true) /\
  (res = acc \/ exists m, res = Some m /\ In m l).
Proof.
  revert acc. induction l as [|v l IH]; intros acc; cbn.
  - split; [intros x []|]. split; [|left; reflexivity].
    intros a ->. exists a. split; [reflexivity|apply string_leb_refl].
  - destruct (sql_max_step acc v) as (a' & E & Hv & Hacc & Hsrc).
    rewrite E. destruct (IH (Some a')) as (IA & IB & IC).
    destruct (IB a' eq_refl) as (m & Em & Hm).
    split; [|split].
    + intros x [<-|Hx]; [|auto].
      exists m. split; [exact Em|]. eapply string_leb_trans; eauto.
    + intros a Ha. exists m. split; [exact Em|].
      eapply string_leb_trans; [apply (Hacc a Ha)|exact Hm].
    + destruct IC as [IC|(m' & Em' & Hin)].
      * destruct Hsrc as [->|Hsrc].
        -- right. exists v. split; [exact IC|left; reflexivity].
        -- left. rewrite IC. symmetry. exact Hsrc.
      * right. exists m'. split; [exact Em'|right; exact Hin].
Qed.

(** [MAX] is an upper bound of the column, taken from the column. *)
Lemma sql_max_spec (l : list string) :
  (forall x, In x l -> exists m, sql_max l = Some m /\ String.leb x m = true) /\
  (forall m, sql_max l = Some m -> In m l).
Proof.
  destruct (sql_max_fold l None) as (A & _ & C). split; [exact A|].
  intros m Hm. unfold sql_max in Hm.
  destruct C as [C|(m' & Em' & Hin)]; [congruence|].
  unfold sql_max in *. congruence.
Qed.

(** [MAX] after a value no smaller than the others is appended. *)
Lemma sql_max_latest (l : list string) (now : string) :
  (forall x, In x l -> String.leb x now = true) ->
  sql_max (l ++ [now]) = Some now.
Proof.
  intros Hle. unfold sql_max. rewrite fold_left_app. cbn.
  fold (sql_max l).
  destruct (sql_max l) as [m|] eqn:E; cbn; [|reflexivity].
  apply (proj2 (sql_max_spec l)) in E. apply Hle in E.
  unfold String.leb in E.
  destruct (String.compare m now) eqn:Ec; try discriminate; [|reflexivity].
  apply String.compare_eq_iff in Ec. now subst.
Qed.

(** C10: [get_content_stats] takes [last_update] over every row, failed
    ones included: it bounds the [scraped_at] of each row. So storing a
    failed page, at a time no earlier than the rows already there, makes
    that time the [last_update], while the four counts are those of the
    table without the row of that URL; they are the counts from before when
    the URL is new. *)
Theorem last_update_counts_failed_rows :
  forall (clock : nat -> string) (st : Scraper.State) (data : Scraper.Data),
    Scraper.d_scrape_success data = false ->
    (forall r, In r (Scraper.db st) ->
               String.leb (scraped_at r)
                          (clock (List.length (Scraper.trace st))) = true) ->
    let now := clock (List.length (Scraper.trace st)) in
    let before := get_content_stats json_loads (Scraper.db st) in
    let after :=
      get_content_stats json_loads (Scraper.db (Scraper.store_data clock data st)) in
    (forall r, In r (Scraper.db st) ->
       exists m, last_update before = Some m /\
                 String.leb (scraped_at r) m = true) /\
    last_update after = Some now /\
    counts after
    = counts (get_content_stats json_loads
                (filter (fun r => negb (url r =? Scraper.d_url data))
                        (Scraper.db st))) /\
    (find_url (Scraper.d_url data) (Scraper.db st) = None ->
     counts after = counts before).
Proof.
  intros clock st data Hfail Hclock now before after.
  set (others := filter (fun r => negb (url r =? Scraper.d_url data))
                        (Scraper.db st)).
  assert (Hafter : Scraper.db (Scraper.store_data clock data st)
                   = others ++ [Scraper.row_of_data data now]) by reflexivity.
  assert (Hcounts : counts after = counts (get_content_stats json_loads others)).
  { unfold after. rewrite Hafter.
    destruct (failed_row_dropped json_loads others []
                (Scraper.row_of_data data now) Hfail) as (_ & _ & _ & _ & N).
    rewrite N, app_nil_r. reflexivity. }
  split; [|split; [|split]].
  - intros r Hr. unfold before, get_content_stats. cbn [last_update].
    apply (proj1 (sql_max_spec _)). apply in_map. exact Hr.
  - unfold after. rewrite Hafter. unfold get_content_stats. cbn [last_update].
    rewrite map_app. cbn. apply sql_max_latest.
    intros x Hx. apply in_map_iff in Hx as (r & <- & Hr).
    apply filter_In in Hr as [Hr _]. apply Hclock. exact Hr.
  - exact Hcounts.
  - intros Hnew. rewrite Hcounts. unfold before. f_equal. f_equal.
    unfold others. clear - Hnew. unfold find_url in Hnew.
    induction (Scraper.db st) as [|r l IH]; [reflexivity|].
    cbn in Hnew |- *. destruct (url r =? Scraper.d_url data); [discriminate|].
    cbn. f_equal. apply IH. exact Hnew.
Qed.

End LastUpdate.

(** C10, witness: a failed page stored the day after the three sample rows
    were written. *)
Lemma last_update_counts_failed_rows_witness :
  let st := Samples.fresh_state Samples.table_ghm in
  let after :=
    Queries.get_content_stats PlainJson.loads
      (Scraper.db (Scraper.store_data Samples.late_clock Samples.failed_data st)) in
  Queries.last_update after = Some "2025-08-02 09:00:00" /\
  Queries.counts after
  = Queries.counts (Queries.get_content_stats PlainJson.loads Samples.table_ghm).
Proof.
  intros st after.
  destruct (last_update_counts_failed_rows PlainJson.loads Samples.late_clock
              st Samples.failed_data eq_refl) as (_ & L & _ & N).
  - intros r Hr. cbn in Hr.
    repeat (destruct Hr as [<-|Hr]; [reflexivity|]). destruct Hr.
  - split; [exact L|]. apply N. reflexivity.
Defined.

(** ** The tag counts and the most popular tags *)

Section TagCounts.
Import PyStr Store Queries.

Lemma mem_In (t : string) (ks : list string) : mem t ks = true <-> In t ks.
Proof.
  unfold mem. rewrite existsb_exists. split.
  - intros (x & Hx & E). apply String.eqb_eq in E. now subst.
  - intros H. exists t. split; [exact H|apply String.eqb_refl].
Qed.

Lemma keys_bump (x : string) (c : list (string * nat)) :
  keys (bump x c) = if mem x (keys c) then keys c else keys c ++ [x].
Proof.
  induction c as [|[t n] c IH]; cbn; [reflexivity|].
  rewrite (String.eqb_sym x t). destruct (t =? x); cbn; [reflexivity|].
  fold (keys (bump x c)). fold (keys c). fold (mem x (keys c)). rewrite IH.
  destruct (mem x (keys c)); reflexivity.
Qed.

Lemma count_of_bump (t x : string) (c : list (string * nat)) :
  count_of t (bump x c) = count_of t c + (if x =? t then 1 else 0).
Proof.
  unfold count_of. induction c as [|[k n] c IH]; cbn.
  - destruct (x =? t); reflexivity.
  - destruct (k =? x) eqn:E; cbn.
    + apply String.eqb_eq in E. subst k.
      destruct (x =? t); cbn; lia.
    + destruct (k =? t) eqn:E'; cbn.
      * apply String.eqb_eq in E'. subst k.
        rewrite String.eqb_sym in E. rewrite E. lia.
      * exact IH.
Qed.

Lemma count_of_In (t : string) (n : nat) (c : list (string * nat)) :
  NoDup (keys c) -> In (t, n) c -> count_of t c = n.
Proof.
  unfold count_of. induction c as [|[k m] c IH]; intros Hnd Hin; [destruct Hin|].
  cbn in Hnd. apply NoDup_cons_iff in Hnd as [Hk Hnd]. cbn.
  destruct Hin as [[= -> ->]|Hin].
  - rewrite String.eqb_refl. reflexivity.
  - destruct (k =? t) eqn:E; [|auto].
    apply String.eqb_eq in E. subst k. exfalso. apply Hk.
    apply (in_map fst) in Hin. exact Hin.
Qed.

Lemma filter_all {A : Type} (p : A -> bool) (l : list A) :
  (forall x, In x l -> p x = true) -> filter p l = l.
Proof.
  induction l as [|y l IH]; intros H; cbn; [reflexivity|].
  rewrite (H y (or_introl eq_refl)). f_equal. apply IH.
  intros x Hx. apply H. right; exact Hx.
Qed.

Lemma filter_absorb {A : Type} (p q : A -> bool) (l : list A) :
  (forall x, p x = true -> q x = true) ->
  filter p (filter q l) = filter p l.
Proof.
  intros H. induction l as [|y l IH]; cbn; [reflexivity|].
  destruct (q y) eqn:Q; cbn.
  - destruct (p y); [f_equal|]; exact IH.
  - destruct (p y) eqn:P; [|exact IH].
    apply H in P. congruence.
Qed.

Lemma filter_not_in_snoc (ks : list string) (x : string) (l : list string) :
  filter (fun y => negb (mem y (ks ++ [x]))) l
  = filter (fun y => negb (mem y ks)) (filter (fun y => negb (y =? x)) l).
Proof.
  induction l as [|y l IH]; cbn; [reflexivity|].
  unfold mem at 1. rewrite existsb_app. cbn. rewrite orb_false_r.
  fold (mem y ks).
  destruct (y =? x); cbn.
  - rewrite orb_true_r. cbn. exact IH.
  - rewrite orb_false_r. destruct (mem y ks); cbn; [|f_equal]; exact IH.
Qed.

(** The keys of the dict are the tags in the order of their first
    occurrence. *)
Lemma keys_fold (l : list string) (c : list (string * nat)) :
  keys (fold_left bumpf l c)
  = keys c ++ filter (fun t => negb (mem t (keys c))) (set_of l).
Proof.
  revert c. induction l as [|x l IH]; intros c; cbn.
  - now rewrite app_nil_r.
  - rewrite IH. unfold bumpf at 1 2. rewrite keys_bump.
    destruct (mem x (keys c)) eqn:M; cbn.
    + f_equal. symmetry. apply filter_absorb.
      intros y Hy. apply negb_true_iff in Hy. apply negb_true_iff.
      apply String.eqb_neq. intros ->. congruence.
    + rewrite <- app_assoc. cbn. f_equal. f_equal.
      apply filter_not_in_snoc.
Qed.

Lemma count_of_fold (t : string) (l : list string) (c : list (string * nat)) :
  count_of t (fold_left bumpf l c) = count_of t c + count_occ string_dec l t.
Proof.
  revert c. induction l as [|x l IH]; intros c; cbn; [lia|].
  rewrite IH. unfold bumpf at 1. rewrite count_of_bump.
  destruct (string_dec x t) as [->|N].
  - rewrite String.eqb_refl. lia.
  - apply String.eqb_neq in N. rewrite N. lia.
Qed.

Lemma set_of_In (t : string) (l : list string) : In t (set_of l) <-> In t l.
Proof.
  induction l as [|x l IH]; cbn; [tauto|].
  rewrite filter_In, IH, negb_true_iff, String.eqb_neq.
  destruct (string_dec x t) as [->|N]; [tauto|].
  split; [tauto|]. intros [H|H]; [tauto|]. right. split; congruence.
Qed.

Lemma set_of_NoDup (l : list string) : NoDup (set_of l).
Proof.
  induction l as [|x l IH]; cbn; constructor.
  - rewrite filter_In, String.eqb_refl. cbn. intros [_ H]. discriminate.
  - apply NoDup_filter. exact IH.
Qed.

Variable json_loads : string -> option (list string).

(** The loop over the rows is the loop over their tags. *)
Lemma count_tags_fold (db : Table) :
  count_tags json_loads db = fold_left bumpf (all_tags json_loads db) [].
Proof.
  unfold count_tags, all_tags.
  generalize (texts tags
                (filter (fun r => scrape_success r && Sql.neq (tags r) "[]") db)).
  intros l. generalize (@nil (string * nat)).
  induction l as [|t l IH]; intros acc; cbn; [reflexivity|].
  rewrite fold_left_app, IH. f_equal.
  unfold count_row, row_tags.
  destruct (truthy t); [|reflexivity].
  destruct (json_loads t); reflexivity.
Qed.

Lemma count_tags_keys (db : Table) :
  keys (count_tags json_loads db) = set_of (all_tags json_loads db).
Proof.
  rewrite count_tags_fold, keys_fold. cbn. apply filter_all. reflexivity.
Qed.

Lemma count_tags_values (db : Table) (t : string) (n : nat) :
  In (t, n) (count_tags json_loads db) ->
  n = count_occ string_dec (all_tags json_loads db) t.
Proof.
  intros Hin.
  assert (Hnd : NoDup (keys (count_tags json_loads db)))
    by (rewrite count_tags_keys; apply set_of_NoDup).
  rewrite <- (count_of_In t n _ Hnd Hin).
  rewrite count_tags_fold, count_of_fold. reflexivity.
Qed.

End TagCounts.

Section TopTags.
Import PyStr Store Queries.

Lemma precedes_head {A : Type} (x b : A) (l : list A) :
  In b l -> precedes (x :: l) x b.
Proof.
  intros H. apply in_split in H as (l2 & l3 & ->). exists [], l2, l3. reflexivity.
Qed.

Lemma precedes_tail {A : Type} (x a b : A) (l : list A) :
  precedes l a b -> precedes (x :: l) a b.
Proof.
  intros (l1 & l2 & l3 & ->). exists (x :: l1), l2, l3. reflexivity.
Qed.

Lemma precedes_map {A B : Type} (f : A -> B) (a b : A) (l : list A) :
  precedes l a b -> precedes (map f l) (f a) (f b).
Proof.
  intros (l1 & l2 & l3 & ->).
  exists (map f l1), (map f l2), (map f l3).
  rewrite map_app. cbn. rewrite map_app. reflexivity.
Qed.

Lemma sorted_by_popularity_sorted (items : list (string * nat)) :
  StronglySorted (popular_first items) (sorted_by_popularity items).
Proof.
  unfold sorted_by_popularity.
  induction items as [|x items IH]; cbn; [constructor|].
  apply insert_by_sorted.
  - intros y Hy Hle. apply Nat.leb_le in Hle. apply sort_by_In in Hy.
    unfold popular_first.
    destruct (Nat.eq_dec (snd x) (snd y)) as [E|N]; [|left; lia].
    right. split; [exact E|]. apply precedes_head. exact Hy.
  - intros y z _ Hz Hxy Hyz. apply sort_by_In in Hz.
    unfold popular_first in *.
    assert (snd z <= snd y) by (destruct Hyz as [?|[? _]]; lia).
    assert (snd y <= snd x) by (destruct Hxy as [?|[? _]]; lia).
    destruct (Nat.eq_dec (snd x) (snd z)) as [E|N]; [|left; lia].
    right. split; [exact E|]. apply precedes_head. exact Hz.
  - intros y _ Hle. apply Nat.leb_gt in Hle. left. exact Hle.
  - eapply StronglySorted_weaken; [|exact IH].
    intros a b _ _ [H|[H1 H2]]; [left; exact H|].
    right. split; [exact H1|]. apply precedes_tail. exact H2.
Qed.

Lemma NoDup_firstn {A : Type} (n : nat) (l : list A) :
  NoDup l -> NoDup (firstn n l).
Proof.
  intros H. rewrite <- (firstn_skipn n l) in H.
  apply NoDup_app_remove_r in H. exact H.
Qed.

Variable json_loads : string -> option (list string).

(** The 24 most frequent tags, ties going to the tag met first. *)
Lemma top_24_tags_spec :
  forall db : Table,
    let tags := all_tags json_loads db in
    let freq := count_occ string_dec tags in
    let res := get_all_tags_with_counts json_loads db in
    StronglySorted (fun a b => String.leb a b = true) res /\
    NoDup res /\
    List.length res = Nat.min 24 (List.length (set_of tags)) /\
    (forall t, In t res -> In t tags) /\
    (forall t u,
       In t res -> In u tags -> ~ In u res ->
       freq u < freq t \/ (freq u = freq t /\ precedes (set_of tags) t u)).
Proof.
  intros db tags freq res.
  set (counts := count_tags json_loads db).
  set (ranked := sorted_by_popularity counts).
  assert (Hres : res = sorted (map fst (firstn 24 ranked))) by reflexivity.
  assert (Hkeys : map fst counts = set_of tags) by apply count_tags_keys.
  assert (Hperm : Permutation ranked counts) by apply sort_by_perm.
  assert (Hin : forall t, In t res <-> In t (map fst (firstn 24 ranked))).
  { intros t. rewrite Hres. unfold sorted. apply sort_by_In. }
  split; [rewrite Hres; apply sorted_is_sorted|].
  split; [|split; [|split]].
  - rewrite Hres. unfold sorted.
    apply (Permutation_NoDup (Permutation_sym (sort_by_perm _ _))).
    rewrite <- firstn_map. apply NoDup_firstn.
    apply (Permutation_NoDup (Permutation_map fst (Permutation_sym Hperm))).
    rewrite Hkeys. apply set_of_NoDup.
  - rewrite Hres. unfold sorted.
    rewrite sort_by_length, length_map, length_firstn.
    unfold ranked, sorted_by_popularity. rewrite sort_by_length.
    rewrite <- Hkeys, length_map. reflexivity.
  - intros t Ht. apply Hin in Ht. apply in_map_iff in Ht as ([t' n] & <- & Ht).
    apply set_of_In. fold tags. rewrite <- Hkeys.
    apply (in_map fst _ (t', n)).
    apply (Permutation_in _ Hperm).
    rewrite <- (firstn_skipn 24 ranked). apply in_or_app. left; exact Ht.
  - intros t u Ht Hu Hnot.
    apply Hin in Ht. apply in_map_iff in Ht as ([t' nt] & Et & Ht).
    cbn in Et. subst t'.
    apply set_of_In in Hu. fold tags in Hu. rewrite <- Hkeys in Hu.
    apply in_map_iff in Hu as ([u' nu] & Eu & Hu). cbn in Eu. subst u'.
    assert (Hu' : In (u, nu) (skipn 24 ranked)).
    { apply (Permutation_in _ (Permutation_sym Hperm)) in Hu.
      rewrite <- (firstn_skipn 24 ranked) in Hu.
      apply in_app_or in Hu as [Hu|Hu]; [|exact Hu].
      exfalso. apply Hnot. apply Hin. apply (in_map fst _ (u, nu)). exact Hu. }
    assert (Hs : StronglySorted (popular_first counts)
                   (firstn 24 ranked ++ skipn 24 ranked)).
    { rewrite firstn_skipn. apply sorted_by_popularity_sorted. }
    pose proof (StronglySorted_across _ _ _ _ _ Hs Ht Hu') as R.
    assert (Ent : nt = freq t).
    { apply count_tags_values.
      apply (Permutation_in _ Hperm).
      rewrite <- (firstn_skipn 24 ranked). apply in_or_app. left; exact Ht. }
    assert (Enu : nu = freq u) by (apply count_tags_values; exact Hu).
    unfold popular_first in R. cbn [snd] in R. rewrite Ent, Enu in R.
    destruct R as [R|[R1 R2]]; [left; exact R|].
    right. split; [symmetry; exact R1|].
    rewrite <- Hkeys. apply (precedes_map fst) in R2. exact R2.
Qed.

End TopTags.

(** C8 (as the code has it): [get_all_tags_with_counts] takes no bound: it
    returns the 24 most frequent tags, all of them when there are fewer, in
    alphabetical order and without repetition; a tag that is returned is at
    least as frequent as one that is not, and at equal frequency it
    occurred first in the table. On frequencies grief 5, healing 5 and
    music 1 it returns the three tags. *)
Theorem top_24_tags_by_popularity :
  (forall (json_loads : string -> option (list string)) (db : Store.Table),
     let tags := Queries.all_tags json_loads db in
     let freq := count_occ string_dec tags in
     let res := Queries.get_all_tags_with_counts json_loads db in
     StronglySorted (fun a b => String.leb a b = true) res /\
     NoDup res /\
     List.length res = Nat.min 24 (List.length (PyStr.set_of tags)) /\
     (forall t, In t res -> In t tags) /\
     (forall t u,
        In t res -> In u tags -> ~ In u res ->
        freq u < freq t \/
        (freq u = freq t /\ Queries.precedes (PyStr.set_of tags) t u))) /\
  Queries.count_tags PlainJson.loads Samples.table_ghm
  = [("grief", 5); ("healing", 5); ("music", 1)] /\
  Queries.get_all_tags_with_counts PlainJson.loads Samples.table_ghm
  = ["grief"; "healing"; "music"].
Proof.
  split; [exact top_24_tags_spec|]. split; reflexivity.
Qed.

(** C8, witness: the table of the twenty-five tags; "a" is returned, "x" is
    not, and "a" was met before "x". *)
Lemma top_24_tags_by_popularity_witness :
  let tags := Queries.all_tags PlainJson.loads Samples.table_25 in
  let res := Queries.get_all_tags_with_counts PlainJson.loads Samples.table_25 in
  List.length res = 24 /\
  (count_occ string_dec tags "x" < count_occ string_dec tags "a" \/
   (count_occ string_dec tags "x" = count_occ string_dec tags "a" /\
    Queries.precedes (PyStr.set_of tags) "a" "x")).
Proof.
  destruct (proj1 top_24_tags_by_popularity PlainJson.loads Samples.table_25)
    as (_ & _ & L & _ & T).
  split; [exact L|].
  apply T.
  - vm_compute. tauto.
  - vm_compute. tauto.
  - vm_compute. intuition discriminate.
Defined.

(** C8, counterexample: twenty-five tags, each used once, "z" met first.
    "x" and "z" tie at the cut; "x" comes first in the alphabet, and it is
    "z" that is returned. *)
Lemma top_tags_tie_not_alphabetical :
  let tags := Queries.all_tags PlainJson.loads Samples.table_25 in
  let res := Queries.get_all_tags_with_counts PlainJson.loads Samples.table_25 in
  count_occ string_dec tags "x" = count_occ string_dec tags "z" /\
  String.ltb "x" "z" = true /\
  In "z" res /\ ~ In "x" res.
Proof.
  cbn zeta. split; [reflexivity|]. split; [reflexivity|].
  split.
  - vm_compute. tauto.
  - vm_compute. intuition discriminate.
Qed.

(** ** The admin lock *)

Section AdminLock.
Import Admin.

Variable json_loads : string -> option (list string).

Local Abbreviation step := (Admin.step json_loads).
Local Abbreviation run := (Admin.run json_loads).

Lemma set_nth_In {A : Type} (n : nat) (x y : A) (l : list A) :
  In y (set_nth n x l) -> y = x \/ In y l.
Proof.
  revert n. induction l as [|z l IH]; intros [|n]; cbn; try tauto.
  - intros [H|H]; auto.
  - intros [H|H]; auto. destruct (IH n H); auto.
Qed.

Lemma set_nth_count {A : Type} (p : A -> bool) (n : nat) (x old : A) (l : list A) :
  nth_error l n = Some old ->
  List.length (filter p (set_nth n x l)) + (if p old then 1 else 0)
  = List.length (filter p l) + (if p x then 1 else 0).
Proof.
  revert n. induction l as [|z l IH]; intros [|n] H; cbn in *; try discriminate.
  - injection H as ->. destruct (p old), (p x); cbn; lia.
  - specialize (IH n H). destruct (p z); cbn; lia.
Qed.

Lemma set_nth_firstn {A : Type} (k n : nat) (x : A) (l : list A) :
  n < k -> firstn k (set_nth n x l) = set_nth n x (firstn k l).
Proof.
  revert k n. induction l as [|z l IH]; intros [|k] [|n] H; cbn;
    try reflexivity; try lia.
  f_equal. apply IH. lia.
Qed.

Lemma nth_error_firstn_below {A : Type} (k n : nat) (l : list A) :
  n < k -> nth_error (firstn k l) n = nth_error l n.
Proof.
  revert k n. induction l as [|z l IH]; intros [|k] [|n] H; cbn;
    try reflexivity; try lia.
  apply IH. lia.
Qed.

Lemma set_pc_spec (id : nat) (pc : Pc) (op : Op) (old : Pc) (ts : list (Op * Pc)) :
  nth_error ts id = Some (op, old) -> set_pc id pc ts = set_nth id (op, pc) ts.
Proof. intros H. unfold set_pc. rewrite H. reflexivity. Qed.

Lemma invariant_initial (db : Store.Table) : lock_invariant (initial db).
Proof. repeat split. intros t []. Qed.

Lemma invariant_step (lbl : Label) (s : System) :
  lock_invariant s -> lock_invariant (step lbl s).
Proof.
  intros (Hw & Hnw & Hc).
  assert (Happ : forall t x, is_waiting x = false ->
                 In t (tasks s ++ [x]) -> is_waiting t = false).
  { intros t x Hx Ht. apply in_app_or in Ht as [Ht|[<-|[]]]; auto. }
  assert (Hset : forall id x t, is_waiting x = false ->
                 In t (set_nth id x (tasks s)) -> is_waiting t = false).
  { intros id x t Hx Ht. apply set_nth_In in Ht as [->|Ht]; auto. }
  destruct lbl as [op adm|id r|id|id|id]; cbn.
  - unfold invoke. destruct adm; cbn [negb].
    + destruct (locked (lock s)) eqn:L.
      * unfold lock_invariant. cbn [lock tasks]. rewrite L.
        split; [exact Hw|]. split; [intros t; apply Happ; reflexivity|].
        rewrite filter_app, length_app. cbn. lia.
      * unfold acquire. rewrite L, Hw.
        unfold lock_invariant. cbn [lock tasks locked waiters].
        split; [reflexivity|]. split; [intros t; apply Happ; reflexivity|].
        rewrite filter_app, length_app. cbn. lia.
    + unfold lock_invariant. cbn [lock tasks].
      split; [exact Hw|]. split; [intros t; apply Happ; reflexivity|].
      rewrite filter_app, length_app. cbn. lia.
  - destruct (nth_error (tasks s) id) as [[op pc]|] eqn:N;
      [|repeat split; auto].
    destruct pc; try (repeat split; auto; fail).
    rewrite (set_pc_spec _ _ _ _ _ N).
    unfold lock_invariant. cbn [lock tasks].
    split; [exact Hw|]. split; [intros t; apply Hset; reflexivity|].
    pose proof (set_nth_count in_progress id
                  (op, Reporting (report json_loads op r)) _ _ N) as C.
    cbn in C. lia.
  - destruct (nth_error (tasks s) id) as [[op pc]|] eqn:N;
      [|repeat split; auto].
    destruct pc; try (repeat split; auto; fail).
    rewrite (set_pc_spec _ _ _ _ _ N).
    unfold lock_invariant. cbn [lock tasks release locked waiters].
    split; [exact Hw|]. split; [intros t; apply Hset; reflexivity|].
    pose proof (set_nth_count in_progress id (op, Done) _ _ N) as C.
    cbn in C. destruct (locked (lock s)); lia.
  - destruct (nth_error (tasks s) id) as [[op pc]|] eqn:N;
      [|repeat split; auto].
    destruct pc; try (repeat split; auto; fail).
    rewrite (set_pc_spec _ _ _ _ _ N).
    unfold lock_invariant. cbn [lock tasks release locked waiters].
    split; [exact Hw|]. split; [intros t; apply Hset; reflexivity|].
    pose proof (set_nth_count in_progress id (op, Done) _ _ N) as C.
    cbn in C. destruct (locked (lock s)); lia.
  - destruct (nth_error (tasks s) id) as [[op pc]|] eqn:N;
      [|repeat split; auto].
    destruct pc; try (repeat split; auto; fail).
    apply nth_error_In in N. apply Hnw in N. discriminate.
Qed.

Lemma invariant_run (labels : list Label) (s : System) :
  lock_invariant s -> lock_invariant (run labels s).
Proof.
  revert s. induction labels as [|lbl labels IH]; intros s H; [exact H|].
  cbn. apply IH, invariant_step, H.
Qed.

(** A step that concerns one of the first [n] handlers reads and writes
    only what those handlers observe. *)
Lemma step_observed (n : nat) (lbl : Label) (s s' : System) :
  concerns_below n lbl = true ->
  observed n s = observed n s' ->
  observed n (step lbl s) = observed n (step lbl s').
Proof.
  intros Hc Ho. unfold observed in Ho.
  injection Ho as Hl Hst Ht Hs.
  assert (Hnth : forall id, id < n ->
                 nth_error (tasks s) id = nth_error (tasks s') id).
  { intros id Hid. rewrite <- (nth_error_firstn_below n id (tasks s)) by exact Hid.
    rewrite <- (nth_error_firstn_below n id (tasks s')) by exact Hid.
    now rewrite Ht. }
  assert (Hset : forall id pc, id < n ->
                 firstn n (set_pc id pc (tasks s))
                 = firstn n (set_pc id pc (tasks s'))).
  { intros id pc Hid. unfold set_pc. rewrite <- (Hnth id Hid).
    destruct (nth_error (tasks s) id) as [[op old]|]; [|exact Ht].
    rewrite !set_nth_firstn by exact Hid. now rewrite Ht. }
  destruct lbl as [op adm|id r|id|id|id]; cbn in Hc; [discriminate| | | |];
    apply Nat.ltb_lt in Hc; cbn [Admin.step]; rewrite <- (Hnth id Hc);
    (destruct (nth_error (tasks s) id) as [[op pc]|];
       [|unfold observed; congruence]);
    (destruct pc; try (unfold observed; congruence)).
  - unfold observed. cbn [lock store tasks sent].
    rewrite (Hset id _ Hc). congruence.
  - unfold observed. cbn [lock store tasks sent].
    rewrite (Hset id _ Hc). congruence.
  - unfold observed. cbn [lock store tasks sent].
    rewrite (Hset id _ Hc), !filter_app, Hs, Hl, Hst. reflexivity.
  - rewrite <- Hl. destruct (locked (lock s)); [unfold observed; congruence|].
    unfold observed. cbn [lock store tasks sent].
    rewrite (Hset id _ Hc), !filter_app, Hs, Hl, Hst. reflexivity.
Qed.

Lemma run_observed (n : nat) (labels : list Label) (s s' : System) :
  forallb (concerns_below n) labels = true ->
  observed n s = observed n s' ->
  observed n (run labels s) = observed n (run labels s').
Proof.
  revert s s'. induction labels as [|lbl labels IH]; intros s s' Hc Ho;
    [exact Ho|].
  cbn in Hc. apply andb_true_iff in Hc as [Hc1 Hc2].
  cbn. apply IH; [exact Hc2|]. apply step_observed; assumption.
Qed.

(** C9: in every state the process reaches from its start, at most one
    admin handler is inside the lock, and the lock is held exactly when one
    is; no handler ever waits for the lock; a command that arrives while
    the lock is held ends at once with the in-progress notice, the lock,
    the table and the other handlers being left as they were; and whatever
    the handlers already started do next, they, the table and the reports
    they send are the same as if that command had never come. *)
Theorem admin_operations_exclude_each_other :
  forall (db : Store.Table) (history : list Label),
    let s := run history (initial db) in
    List.length (filter in_progress (tasks s)) <= 1 /\
    (locked (lock s) = true <-> exists t, In t (tasks s) /\ in_progress t = true) /\
    (waiters (lock s) = [] /\ forall t, In t (tasks s) -> is_waiting t = false) /\
    (forall op,
       locked (lock s) = true ->
       step (Invoke op true) s
       = mkSystem (lock s) (store s) (tasks s ++ [(op, Rejected)])
                  (sent s ++ [(List.length (tasks s), OperationInProgress)])) /\
    (forall op later,
       locked (lock s) = true ->
       forallb (concerns_below (List.length (tasks s))) later = true ->
       observed (List.length (tasks s)) (run later (step (Invoke op true) s))
       = observed (List.length (tasks s)) (run later s)).
Proof.
  intros db history s.
  assert (I : lock_invariant s)
    by (apply invariant_run, invariant_initial).
  destruct I as (Hw & Hnw & Hc).
  assert (Hrej : forall op, locked (lock s) = true ->
            step (Invoke op true) s
            = mkSystem (lock s) (store s) (tasks s ++ [(op, Rejected)])
                (sent s ++ [(List.length (tasks s), OperationInProgress)])).
  { intros op L. cbn. unfold invoke. cbn. rewrite L. reflexivity. }
  split; [rewrite Hc; destruct (locked (lock s)); lia|].
  split; [|split; [auto|split; [exact Hrej|]]].
  - split.
    + intros L. rewrite L in Hc.
      destruct (filter in_progress (tasks s)) as [|t l] eqn:F; [discriminate|].
      exists t. apply filter_In. rewrite F. left; reflexivity.
    + intros (t & Ht & Hp). destruct (locked (lock s)); [reflexivity|].
      assert (In t (filter in_progress (tasks s))) as Hin
        by (apply filter_In; auto).
      destruct (filter in_progress (tasks s)); [destruct Hin|discriminate].
  - intros op later L Hlater. apply run_observed; [exact Hlater|].
    rewrite (Hrej op L). unfold observed. cbn [lock store tasks sent].
    rewrite firstn_app, Nat.sub_diag, firstn_all. cbn [firstn].
    rewrite app_nil_r, filter_app. cbn [filter fst].
    rewrite Nat.ltb_irrefl, app_nil_r. reflexivity.
Qed.

End AdminLock.

(** C9, witness: an update is started, a rebuild arrives while it runs and
    is rejected, and the update ends with the report it would have sent
    anyway. *)
Lemma admin_operations_witness :
  let s := Admin.run PlainJson.loads [Admin.Invoke Admin.Update true]
             (Admin.initial []) in
  let later := [Admin.Announced 0 Samples.good_run; Admin.Reported 0] in
  Admin.tasks (Admin.step PlainJson.loads (Admin.Invoke Admin.Rebuild true) s)
  = [(Admin.Update, Admin.Announcing); (Admin.Rebuild, Admin.Rejected)] /\
  Admin.observed 1
    (Admin.run PlainJson.loads later
       (Admin.step PlainJson.loads (Admin.Invoke Admin.Rebuild true) s))
  = Admin.observed 1 (Admin.run PlainJson.loads later s).
Proof.
  intros s later.
  destruct (admin_operations_exclude_each_other PlainJson.loads []
              [Admin.Invoke Admin.Update true]) as (_ & _ & _ & R & O).
  split.
  - fold s in R. rewrite (R Admin.Rebuild eq_refl). reflexivity.
  - apply (O Admin.Rebuild later eq_refl eq_refl).
Defined.

(** * Further properties of the code *)

(** ** [store_data]: insert or replace *)

Section Upsert.
Import PyStr Store Scraper.

Lemma find_url_app (u : string) (t1 t2 : Table) :
  find_url u (t1 ++ t2)
  = match find_url u t1 with
    | Some r => Some r
    | None => find_url u t2
    end.
Proof.
  unfold find_url. induction t1 as [|r t1 IH]; cbn; [reflexivity|].
  destruct (url r =? u); [reflexivity|exact IH].
Qed.

Lemma find_url_filter_other (u v : string) (t : Table) :
  find_url u (filter (fun r => negb (url r =? v)) t)
  = if u =? v then None else find_url u t.
Proof.
  unfold find_url. induction t as [|r t IH]; cbn.
  - destruct (u =? v); reflexivity.
  - destruct (url r =? v) eqn:E; cbn.
    + rewrite IH. destruct (u =? v) eqn:E'; [reflexivity|].
      apply String.eqb_eq in E. rewrite E, String.eqb_sym, E'. reflexivity.
    + destruct (url r =? u) eqn:E'; [|exact IH].
      apply String.eqb_eq in E'. subst u. rewrite E. reflexivity.
Qed.

Lemma find_url_insert (u : string) (row : Row) (t : Table) :
  find_url u (insert_or_replace row t)
  = if u =? url row then Some row else find_url u t.
Proof.
  unfold insert_or_replace. rewrite find_url_app, find_url_filter_other.
  destruct (u =? url row) eqn:E.
  - unfold find_url. cbn. rewrite String.eqb_sym, E. reflexivity.
  - destruct (find_url u t); [reflexivity|].
    unfold find_url. cbn. rewrite String.eqb_sym, E. reflexivity.
Qed.

Lemma find_url_In (u : string) (t : Table) :
  (exists r, find_url u t = Some r) <-> In u (map url t).
Proof.
  unfold find_url. induction t as [|r t IH]; cbn.
  - split; [intros [r H]; discriminate|tauto].
  - destruct (url r =? u) eqn:E.
    + apply String.eqb_eq in E. split; eauto.
    + apply String.eqb_neq in E. rewrite IH. tauto.
Qed.

Lemma insert_or_replace_unique (row : Row) (t : Table) :
  unique_urls t -> unique_urls (insert_or_replace row t).
Proof.
  unfold unique_urls, insert_or_replace. intros H.
  rewrite map_app. cbn. apply NoDup_app.
  - induction t as [|r t IH]; cbn; [constructor|].
    cbn in H. apply NoDup_cons_iff in H as [H1 H2].
    destruct (url r =? url row); cbn; [auto|].
    constructor; [|auto]. intros Hin. apply H1.
    apply in_map_iff in Hin as (r' & <- & Hr').
    apply filter_In in Hr' as [Hr' _]. apply in_map. exact Hr'.
  - repeat constructor. intros [].
  - intros u Hu [<-|[]]. apply in_map_iff in Hu as (r & E & Hr).
    apply filter_In in Hr as [_ Hr]. apply negb_true_iff, String.eqb_neq in Hr.
    congruence.
Qed.

Lemma insert_or_replace_length (row : Row) (t : Table) :
  unique_urls t ->
  List.length (insert_or_replace row t)
  = match find_url (url row) t with
    | Some _ => List.length t
    | None => S (List.length t)
    end.
Proof.
  unfold unique_urls, insert_or_replace, find_url. intros H.
  rewrite length_app. cbn.
  induction t as [|r t IH]; cbn; [reflexivity|].
  cbn in H. apply NoDup_cons_iff in H as [H1 H2].
  destruct (url r =? url row) eqn:E; cbn.
  - apply String.eqb_eq in E.
    rewrite filter_all; [lia|].
    intros r' Hr'. apply negb_true_iff, String.eqb_neq.
    intros E'. apply H1. rewrite E, <- E'. apply in_map. exact Hr'.
  - specialize (IH H2). destruct (find _ t); lia.
Qed.

Variable clock : nat -> string.

(** X1: a lookup after [store_data] finds the row just written under its
    URL, and under any other URL what it found before. *)
Theorem store_data_then_lookup :
  forall (data : Data) (st : State) (u : string),
    find_url u (db (store_data clock data st))
    = if u =? d_url data
      then Some (row_of_data data (clock (List.length (trace st))))
      else find_url u (db st).
Proof.
  intros data st u. cbn [store_data db]. rewrite find_url_insert. reflexivity.
Qed.

(** X2: on a table with unique URLs [store_data] keeps the URLs unique; it
    replaces the row of a URL already stored, the number of rows staying
    the same, and it adds one row for a new URL. *)
Theorem store_data_replaces :
  forall (data : Data) (st : State),
    unique_urls (db st) ->
    let after := db (store_data clock data st) in
    unique_urls after /\
    List.length after
    = match find_url (d_url data) (db st) with
      | Some _ => List.length (db st)
      | None => S (List.length (db st))
      end /\
    (forall r, In r after -> url r = d_url data ->
               r = row_of_data data (clock (List.length (trace st)))).
Proof.
  intros data st U after. unfold after. cbn [store_data db].
  split; [apply insert_or_replace_unique; exact U|].
  split; [exact (insert_or_replace_length (row_of_data data _) _ U)|].
  intros r Hr E. unfold insert_or_replace in Hr.
  apply in_app_or in Hr as [Hr|[<-|[]]]; [|reflexivity].
  apply filter_In in Hr as [_ Hr]. apply negb_true_iff, String.eqb_neq in Hr.
  cbn in Hr. congruence.
Qed.

End Upsert.

(** X2, witness: the failed page stored twice in a row. *)
Lemma store_data_replaces_witness :
  let st := Scraper.store_data Samples.still_clock Samples.failed_data
              (Samples.fresh_state Samples.table_ghm) in
  List.length (Scraper.db (Scraper.store_data Samples.late_clock
                             Samples.failed_data st)) = 6.
Proof.
  intros st.
  destruct (store_data_replaces Samples.late_clock Samples.failed_data st)
    as (_ & L & _).
  - unfold Store.unique_urls. vm_compute.
    repeat (constructor; [cbn; intuition discriminate|]). constructor.
  - rewrite L. reflexivity.
Defined.

(** ** The scraping loop: what it counts and what it stores *)

Section LoopFacts.
Import PyStr Store Scraper.

Variable json_dumps : list string -> string.
Variable net : nat -> string -> option Soup.
Variable clock : nat -> string.

Local Abbreviation scrape_page := (scrape_page json_dumps net).
Local Abbreviation scrape_one := (scrape_one json_dumps net clock).
Local Abbreviation scrape_loop_from := (scrape_loop_from json_dumps net clock).
Local Abbreviation scrape_loop := (scrape_loop json_dumps net clock).
Local Abbreviation extract_metadata := (extract_metadata json_dumps).

(** The data [scrape_page] returns are read off the first answer that
    arrives, among at most three. *)
Lemma scrape_page_data (url_data : UrlData) (st : State) (data : Data) :
  fst (scrape_page url_data st) = Some data ->
  exists k soup,
    k < 3 /\
    net (requests st + k) (u_url url_data) = Some soup /\
    (forall j, j < k -> net (requests st + j) (u_url url_data) = None) /\
    data = extract_metadata (archive_dates_map st) soup url_data.
Proof.
  unfold Scraper.scrape_page. cbn -[Nat.add].
  destruct (net (requests st) (u_url url_data)) as [s0|] eqn:N0; cbn -[Nat.add].
  { intros [= <-]. exists 0, s0. rewrite Nat.add_0_r.
    split; [lia|]. split; [exact N0|]. split; [intros j Hj; lia|reflexivity]. }
  destruct (net (S (requests st)) (u_url url_data)) as [s1|] eqn:N1; cbn -[Nat.add].
  { intros [= <-]. exists 1, s1.
    replace (requests st + 1) with (S (requests st)) by lia.
    split; [lia|]. split; [exact N1|]. split; [|reflexivity].
    intros j Hj. assert (j = 0) as -> by lia. now rewrite Nat.add_0_r. }
  destruct (net (S (S (requests st))) (u_url url_data)) as [s2|] eqn:N2;
    cbn -[Nat.add]; [|discriminate].
  intros [= <-]. exists 2, s2.
  replace (requests st + 2) with (S (S (requests st))) by lia.
  split; [lia|]. split; [exact N2|]. split; [|reflexivity].
  intros j Hj. assert (j = 0 \/ j = 1) as [-> | ->] by lia.
  - now rewrite Nat.add_0_r.
  - now replace (requests st + 1) with (S (requests st)) by lia.
Qed.

Lemma extract_metadata_keys (adm : string -> option string) (soup : Soup)
    (url_data : UrlData) :
  d_url (extract_metadata adm soup url_data) = u_url url_data /\
  d_last_modified (extract_metadata adm soup url_data) = u_lastmod url_data.
Proof. split; reflexivity. Qed.

(** X3: [scrape_page] counts an error exactly when it returns no data; the
    data it returns are those of the first attempt that got an answer, and
    carry the URL and the [lastmod] of the sitemap entry. *)
Theorem scrape_page_outcome :
  forall (url_data : UrlData) (st : State),
    let r := scrape_page url_data st in
    (fst r = None <-> stats_errors (snd r) = S (stats_errors st)) /\
    (fst r <> None <-> stats_errors (snd r) = stats_errors st) /\
    (forall data,
       fst r = Some data ->
       d_url data = u_url url_data /\
       d_last_modified data = u_lastmod url_data /\
       exists k soup,
         k < 3 /\ net (requests st + k) (u_url url_data) = Some soup /\
         (forall j, j < k -> net (requests st + j) (u_url url_data) = None) /\
         data = extract_metadata (archive_dates_map st) soup url_data).
Proof.
  intros url_data st r.
  pose proof (scrape_page_cases json_dumps net url_data st) as H.
  cbn zeta in H. fold r in H. destruct H as (_ & _ & _ & H).
  split; [|split].
  - destruct H as [(Hne & He & _)|(_ & _ & _ & E)].
    + split; [tauto|]. rewrite He. intros C. lia.
    + rewrite E. cbn. tauto.
  - destruct H as [(Hne & He & _)|(_ & _ & _ & E)].
    + tauto.
    + rewrite E. cbn. split; [congruence|]. intros C. lia.
  - intros data Hd.
    destruct (scrape_page_data url_data st data Hd) as (k & soup & Hk & Hn & Hj & ->).
    split; [reflexivity|]. split; [reflexivity|].
    exists k, soup. auto.
Qed.

Lemma scrape_one_accounts (u : UrlData) (st : State) (ok : nat) :
  let r := scrape_one u (st, ok) in
  stats_pages_scraped (fst r) + stats_errors (fst r)
  = stats_pages_scraped st + stats_errors st + 1 /\
  stats_pages_scraped st <= stats_pages_scraped (fst r) /\
  ok <= snd r /\
  snd r - ok <= stats_pages_scraped (fst r) - stats_pages_scraped st /\
  requests st + 1 <= requests (fst r) <= requests st + 3 /\
  archive_dates_map (fst r) = archive_dates_map st.
Proof.
  unfold Scraper.scrape_one.
  pose proof (scrape_page_cases json_dumps net u st) as H. cbn zeta in H.
  destruct (scrape_page u st) as [data st1]. cbn [fst snd] in H.
  destruct H as (_ & Ha & Hp & H).
  destruct data as [data|].
  - destruct H as [(_ & He & Hr)|(_ & _ & _ & E)]; [|discriminate].
    assert (requests st + 1 <= requests st1 <= requests st + 3)
      by (destruct Hr as [[R _]|[[R _]|[R _]]]; lia).
    destruct (d_scrape_success data && _); cbn -[Nat.sub Nat.add];
      repeat split; auto; lia.
  - destruct H as [(Hne & _)|(_ & _ & _ & E)]; [congruence|].
    injection E as ->. cbn -[Nat.sub Nat.add]. repeat split; auto; lia.
Qed.

(** X4: the loop accounts for every URL of the batch: it is either counted
    as a page scraped or as an error; the pages counted as successful are
    among the pages scraped; and the loop makes between one and three
    requests per URL. *)
Theorem scrape_loop_accounts_for_every_url :
  forall (articles : list UrlData) (st : State),
    let r := scrape_loop articles st in
    stats_pages_scraped (fst r) + stats_errors (fst r)
    = stats_pages_scraped st + stats_errors st + List.length articles /\
    snd r <= stats_pages_scraped (fst r) - stats_pages_scraped st /\
    requests st + List.length articles <= requests (fst r)
    <= requests st + 3 * List.length articles.
Proof.
  intros articles st. unfold Scraper.scrape_loop.
  assert (G : forall l st ok,
            let r := scrape_loop_from l (st, ok) in
            stats_pages_scraped (fst r) + stats_errors (fst r)
            = stats_pages_scraped st + stats_errors st + List.length l /\
            stats_pages_scraped st <= stats_pages_scraped (fst r) /\
            ok <= snd r /\
            snd r - ok <= stats_pages_scraped (fst r) - stats_pages_scraped st /\
            requests st + List.length l <= requests (fst r)
            <= requests st + 3 * List.length l).
  { induction l as [|u l IH]; intros s ok.
    - cbn. repeat split; lia.
    - unfold Scraper.scrape_loop_from. cbn [fold_left List.length].
      pose proof (scrape_one_accounts u s ok) as H1. cbn zeta in H1.
      destruct (scrape_one u (s, ok)) as [s1 ok1] eqn:E1. cbn [fst snd] in H1.
      specialize (IH s1 ok1). cbn zeta in IH.
      unfold Scraper.scrape_loop_from in IH.
      destruct (fold_left _ l (s1, ok1)) as [s2 ok2]. cbn [fst snd] in *.
      repeat split; lia. }
  specialize (G articles st 0). cbn zeta in G.
  destruct (scrape_loop_from articles (st, 0)) as [s2 ok2]. cbn [fst snd] in *.
  repeat split; lia.
Qed.

End LoopFacts.

(** ** From a scraped page to the queries, and from one update to the next *)

Section AcrossRuns.
Import PyStr Store Scraper AfterRun.

Variable json_loads : string -> option (list string).
Variable json_dumps : list string -> string.
Variable net : nat -> string -> option Soup.
Variable clock : nat -> string.

Local Abbreviation scrape_page := (scrape_page json_dumps net).
Local Abbreviation scrape_one := (scrape_one json_dumps net clock).
Local Abbreviation scrape_loop_from := (scrape_loop_from json_dumps net clock).
Local Abbreviation scrape_loop := (scrape_loop json_dumps net clock).
Local Abbreviation extract_metadata := (extract_metadata json_dumps).

(** X5: a page without a title element is extracted as a failed record with
    the sentinel title; and once a failed record is stored for a URL, no
    search returns that URL any more, whatever the table held for it
    before. *)
Theorem failed_page_leaves_the_search :
  (forall adm soup url_data,
     entry_title soup = None ->
     d_scrape_success (extract_metadata adm soup url_data) = false /\
     d_title (extract_metadata adm soup url_data) = "No title found"%string) /\
  (forall data st c a t q limit art,
     d_scrape_success data = false ->
     In art (Queries.search_content json_loads
               (db (store_data clock data st)) c a t q limit) ->
     Queries.a_url art <> d_url data).
Proof.
  split.
  - intros adm soup url_data H. unfold Scraper.extract_metadata.
    rewrite H. split; reflexivity.
  - intros data st c a t q limit art Hfail Hart.
    cbn [store_data db] in Hart. unfold insert_or_replace in Hart.
    set (row := row_of_data data (clock (List.length (trace st)))) in *.
    set (others := filter (fun r => negb (url r =? url row)) (db st)) in *.
    destruct (failed_row_dropped json_loads others [] row Hfail) as (S & _).
    rewrite S, app_nil_r in Hart.
    apply search_content_rows in Hart as (r & Hin & _ & ->).
    apply filter_In in Hin as [_ Hr].
    apply negb_true_iff, String.eqb_neq in Hr. exact Hr.
Qed.

(** On a network that answers, one iteration of the loop stores a row for
    the entry's URL with the entry's [lastmod]. *)
Lemma scrape_one_stores (u : UrlData) (st : State) (ok : nat) :
  always_answers net ->
  exists row,
    url row = u_url u /\ last_modified row = u_lastmod u /\
    db (fst (scrape_one u (st, ok))) = insert_or_replace row (db st).
Proof.
  intros Hnet. unfold Scraper.scrape_one.
  pose proof (scrape_page_cases json_dumps net u st) as H. cbn zeta in H.
  pose proof (scrape_page_data json_dumps net u st) as D.
  destruct (scrape_page u st) as [data st1]. cbn [fst snd] in H, D.
  destruct H as (Hdb & _ & _ & H).
  destruct data as [data|].
  - destruct (D data eq_refl) as (k & soup & _ & _ & _ & ->).
    exists (row_of_data (extract_metadata (archive_dates_map st) soup u)
              (clock (List.length (trace st1)))).
    split; [reflexivity|]. split; [reflexivity|].
    destruct (d_scrape_success _ && _); cbn; rewrite Hdb; reflexivity.
  - destruct H as [(Hne & _)|(N0 & _)]; [congruence|].
    exfalso. exact (Hnet _ _ N0).
Qed.

Lemma loop_lookup (articles : list UrlData) (st : State) (ok : nat) (v : string) :
  always_answers net ->
  let db' := db (fst (scrape_loop_from articles (st, ok))) in
  match lastmod_for v articles with
  | Some m =>
      exists row, find_url v db' = Some row /\ last_modified row = m
  | None => find_url v db' = find_url v (db st)
  end.
Proof.
  intros Hnet. revert st ok. induction articles as [|e rest IH]; intros st ok.
  - reflexivity.
  - unfold Scraper.scrape_loop_from. cbn [fold_left lastmod_for].
    destruct (scrape_one_stores e st ok Hnet) as (row & Hu & Hm & Hdb).
    destruct (scrape_one e (st, ok)) as [st1 ok1] eqn:E1. cbn [fst] in Hdb.
    specialize (IH st1 ok1). cbn zeta in IH.
    unfold Scraper.scrape_loop_from in IH.
    destruct (lastmod_for v rest) as [m|]; [exact IH|].
    cbn zeta. rewrite IH, Hdb, find_url_insert, Hu.
    rewrite (String.eqb_sym v (u_url e)).
    destruct (u_url e =? v); [|reflexivity].
    exists row. split; [reflexivity|exact Hm].
Qed.

Lemma lastmod_for_Some (v : string) (m : option string) (articles : list UrlData) :
  lastmod_for v articles = Some m ->
  exists e, In e articles /\ u_url e = v /\ u_lastmod e = m.
Proof.
  induction articles as [|e rest IH]; cbn; [discriminate|].
  destruct (lastmod_for v rest) as [m'|].
  - intros [= <-]. destruct (IH eq_refl) as (e' & H1 & H2 & H3).
    exists e'. auto.
  - destruct (u_url e =? v) eqn:E; [|discriminate].
    intros [= <-]. apply String.eqb_eq in E. exists e. auto.
Qed.

Lemma lastmod_for_None (v : string) (articles : list UrlData) :
  lastmod_for v articles = None ->
  forall e, In e articles -> u_url e <> v.
Proof.
  induction articles as [|e rest IH]; cbn; [intros _ e []|].
  destruct (lastmod_for v rest) as [m'|]; [discriminate|].
  destruct (u_url e =? v) eqn:E; [discriminate|].
  intros _ e' [<-|H]; [apply String.eqb_neq; exact E|auto].
Qed.

Lemma NoDup_map_inj {A B : Type} (f : A -> B) (l : list A) (x y : A) :
  NoDup (map f l) -> In x l -> In y l -> f x = f y -> x = y.
Proof.
  induction l as [|z l IH]; intros H Hx Hy E; [destruct Hx|].
  cbn in H. apply NoDup_cons_iff in H as [H1 H2].
  destruct Hx as [->|Hx], Hy as [->|Hy]; auto.
  - exfalso. apply H1. rewrite E. apply in_map. exact Hy.
  - exfalso. apply H1. rewrite <- E. apply in_map. exact Hx.
Qed.

Lemma filter_none {A : Type} (p : A -> bool) (l : list A) :
  (forall x, In x l -> p x = false) -> filter p l = [].
Proof.
  induction l as [|y l IH]; intros H; cbn; [reflexivity|].
  rewrite (H y (or_introl eq_refl)). apply IH.
  intros x Hx. apply H. right; exact Hx.
Qed.

(** X6: on a network that answers, and for a sitemap that lists no URL
    twice, an update leaves nothing to update: after the loop has scraped
    what [check_for_updates] selected, [check_for_updates] on the same
    sitemap selects nothing, the pages extracted as failed included. *)
Theorem update_leaves_nothing_to_update :
  forall (all_urls : list UrlData) (st : State),
    always_answers net ->
    NoDup (map u_url all_urls) ->
    let articles_to_update := check_for_updates all_urls (db st) in
    let st' := fst (scrape_loop articles_to_update st) in
    check_for_updates all_urls (db st') = [].
Proof.
  intros all_urls st Hnet Hnd todo st'.
  assert (Htodo : forall e, In e todo <->
            In e (filter_article_urls all_urls) /\
            (is_new (db st) e = true \/ is_changed (db st) e = true)).
  { intros e. unfold todo. rewrite check_for_updates_filter, in_app_iff, !filter_In.
    tauto. }
  assert (Hboth : forall e, In e (filter_article_urls all_urls) ->
            is_new (db st') e = false /\ is_changed (db st') e = false).
  { intros e He.
    pose proof (loop_lookup todo st 0 (u_url e) Hnet) as L. cbn zeta in L.
    fold (scrape_loop todo st) in L. fold st' in L.
    destruct (lastmod_for (u_url e) todo) as [m|] eqn:Lm.
    - destruct L as (row & Hf & Hm).
      apply lastmod_for_Some in Lm as (e' & He' & Hu & Hl).
      assert (e' = e).
      { apply (NoDup_map_inj u_url all_urls); auto.
        - apply Htodo in He' as [He' _]. apply filter_In in He'. tauto.
        - apply filter_In in He. tauto. }
      subst e'. unfold is_new, is_changed. rewrite Hf. split; [reflexivity|].
      destruct (u_lastmod e) as [m0|]; [|reflexivity].
      rewrite Hm, <- Hl, String.eqb_refl. apply andb_false_r.
    - assert (Hnot : ~ In e todo).
      { intros Hin. exact (lastmod_for_None _ _ Lm e Hin eq_refl). }
      unfold is_new, is_changed in *. rewrite L.
      destruct (is_new (db st) e) eqn:N; unfold is_new in N.
      + exfalso. apply Hnot, Htodo. split; [exact He|left; exact N].
      + split; [exact N|].
        destruct (is_changed (db st) e) eqn:C; unfold is_changed in C;
          [|exact C].
        exfalso. apply Hnot, Htodo. split; [exact He|right; exact C]. }
  rewrite check_for_updates_filter.
  rewrite !filter_none; [reflexivity| |]; intros e He; apply Hboth; exact He.
Qed.

End AcrossRuns.

(** X5, witness: the page without a title, stored over the first row of the
    sample table. *)
Lemma failed_page_leaves_the_search_witness :
  let u := Scraper.mkUrlData (Scraper.content_url "t1") None in
  let data :=
    Scraper.extract_metadata PlainJson.dumps (fun _ => None)
      MoreSamples.untitled_page u in
  Scraper.d_title data = "No title found"%string /\
  forall art,
    In art (Queries.search_content PlainJson.loads
              (Scraper.db (Scraper.store_data Samples.late_clock data
                             (Samples.fresh_state Samples.table_ghm)))
              None None None None 20) ->
    Queries.a_url art <> Scraper.content_url "t1".
Proof.
  intros u data.
  destruct (failed_page_leaves_the_search PlainJson.loads PlainJson.dumps
              Samples.late_clock) as (H1 & H2).
  destruct (H1 (fun _ => None) MoreSamples.untitled_page u eq_refl) as (F & T).
  split; [exact T|].
  intros art Hart.
  exact (H2 data (Samples.fresh_state Samples.table_ghm)
            None None None None 20%Z art F Hart).
Defined.

(** X6, witness: the sitemap of A, B and C, scraped on a network that
    serves every page. *)
Lemma update_leaves_nothing_to_update_witness :
  let st := Samples.fresh_state Samples.table_bc in
  let todo := Scraper.check_for_updates Samples.manifest_abc (Scraper.db st) in
  List.length todo = 2 /\
  Scraper.check_for_updates Samples.manifest_abc
    (Scraper.db (fst (Scraper.scrape_loop PlainJson.dumps MoreSamples.serving_net
                        Samples.still_clock todo st))) = [].
Proof.
  intros st todo. split; [reflexivity|].
  apply (update_leaves_nothing_to_update PlainJson.dumps
           MoreSamples.serving_net Samples.still_clock
           Samples.manifest_abc st).
  - intros k u. discriminate.
  - vm_compute. repeat (constructor; [cbn; intuition discriminate|]). constructor.
Defined.

(** ** The enumeration queries *)

Section Enumerations.
Import PyStr Store Queries.

Lemma texts_In (col : Row -> option string) (rows : list Row) (v : string) :
  In v (texts col rows) <-> exists r, In r rows /\ col r = Some v.
Proof.
  unfold texts. rewrite in_flat_map. split.
  - intros (r & Hr & Hv). exists r. split; [exact Hr|].
    destruct (col r); [destruct Hv as [->|[]]; reflexivity|destruct Hv].
  - intros (r & Hr & E). exists r. split; [exact Hr|]. rewrite E. left; reflexivity.
Qed.

Lemma texts_length (col : Row -> option string) (rows : list Row) :
  List.length (texts col rows) <= List.length rows.
Proof.
  unfold texts. induction rows as [|r rows IH]; cbn; [lia|].
  rewrite length_app. destruct (col r); cbn; lia.
Qed.

Lemma sorted_In (x : string) (l : list string) : In x (sorted l) <-> In x l.
Proof. apply sort_by_In. Qed.

Lemma sorted_NoDup (l : list string) : NoDup l -> NoDup (sorted l).
Proof.
  apply Permutation_NoDup, Permutation_sym, sort_by_perm.
Qed.

Lemma sorted_length (l : list string) : List.length (sorted l) = List.length l.
Proof. apply sort_by_length. Qed.

Lemma set_of_length (l : list string) : List.length (set_of l) <= List.length l.
Proof.
  induction l as [|x l IH]; cbn; [lia|].
  pose proof (filter_length_le (fun y => negb (y =? x)) (set_of l)). lia.
Qed.

(** X7: [get_all_authors] lists, in ascending order and without
    repetition, exactly the authors of the successful rows other than
    "Unknown". *)
Theorem get_all_authors_lists_the_authors :
  forall db : Table,
    let res := get_all_authors db in
    StronglySorted (fun a b => String.leb a b = true) res /\
    NoDup res /\
    (forall a,
       In a res <->
       a <> "Unknown"%string /\
       exists r, In r db /\ scrape_success r = true /\ author r = Some a).
Proof.
  intros db res. unfold res, get_all_authors.
  split; [apply sorted_is_sorted|].
  split; [apply sorted_NoDup, set_of_NoDup|].
  intros a. rewrite sorted_In, set_of_In, texts_In. split.
  - intros (r & Hr & E). apply filter_In in Hr as [Hr Hp].
    apply andb_true_iff in Hp as [Hs Hn]. rewrite E in Hn. cbn in Hn.
    apply negb_true_iff, String.eqb_neq in Hn. eauto.
  - intros (Hn & r & Hr & Hs & E). exists r. split; [|exact E].
    apply filter_In. split; [exact Hr|]. rewrite Hs, E. cbn.
    apply negb_true_iff, String.eqb_neq. exact Hn.
Qed.

(** X8: [get_all_categories] lists, in ascending order and without
    repetition, exactly the stripped comma-separated parts of the
    [categories] of the successful rows whose [categories] is neither empty
    nor "Uncategorized". *)
Theorem get_all_categories_lists_the_parts :
  forall db : Table,
    let res := get_all_categories db in
    StronglySorted (fun a b => String.leb a b = true) res /\
    NoDup res /\
    (forall c,
       In c res <->
       exists r text,
         In r db /\ scrape_success r = true /\ categories r = Some text /\
         text <> "Uncategorized"%string /\ text <> ""%string /\
         In c (map strip (split "," text))).
Proof.
  intros db res. unfold res, get_all_categories.
  split; [apply sorted_is_sorted|].
  split; [apply sorted_NoDup, set_of_NoDup|].
  intros c. rewrite sorted_In, set_of_In, in_flat_map. split.
  - intros (text & Ht & Hc). apply sorted_In, set_of_In, texts_In in Ht.
    destruct Ht as (r & Hr & E). apply filter_In in Hr as [Hr Hp].
    apply andb_true_iff in Hp as [Hs Hn]. rewrite E in Hn. cbn in Hn.
    apply negb_true_iff, String.eqb_neq in Hn.
    destruct (truthy text) eqn:T; [|destruct Hc].
    apply negb_true_iff, String.eqb_neq in T.
    exists r, text. auto 10.
  - intros (r & text & Hr & Hs & E & Hn & Hne & Hc).
    exists text. split.
    + apply sorted_In, set_of_In, texts_In. exists r. split; [|exact E].
      apply filter_In. split; [exact Hr|]. rewrite Hs, E. cbn.
      apply negb_true_iff, String.eqb_neq. exact Hn.
    + assert (T : truthy text = true)
        by (apply negb_true_iff, String.eqb_neq; exact Hne).
      rewrite T. exact Hc.
Qed.

Variable json_loads : string -> option (list string).

Lemma successful_filter_empty (p : Row -> bool) (db : Table) :
  filter scrape_success db = [] ->
  filter (fun r => scrape_success r && p r) db = [].
Proof.
  induction db as [|r db IH]; cbn; [reflexivity|].
  destruct (scrape_success r); cbn; [discriminate|exact IH].
Qed.

(** X9: [validate_database] holds exactly when some row is successful; on a
    table where it fails, every search and every enumeration is empty and
    the four counts are zero. *)
Theorem validate_database_spec :
  forall db : Table,
    (validate_database db = true <->
     exists r, In r db /\ scrape_success r = true) /\
    (validate_database db = false ->
     (forall c a t q limit, search_content json_loads db c a t q limit = []) /\
     get_all_categories db = [] /\
     get_all_authors db = [] /\
     get_all_tags_with_counts json_loads db = [] /\
     counts (get_content_stats json_loads db) = (0, 0, 0, 0)).
Proof.
  intros db. unfold validate_database. split.
  - rewrite Nat.ltb_lt. split.
    + intros H. destruct (filter scrape_success db) as [|r l] eqn:F;
        [cbn in H; lia|].
      exists r. apply filter_In. rewrite F. left; reflexivity.
    + intros (r & Hr & Hs).
      assert (In r (filter scrape_success db)) as Hin by (apply filter_In; auto).
      destruct (filter scrape_success db); [destruct Hin|cbn; lia].
  - intros H. apply Nat.ltb_ge in H.
    assert (F : filter scrape_success db = [])
      by (destruct (filter scrape_success db); [reflexivity|cbn in H; lia]).
    assert (C : get_all_categories db = []).
    { unfold get_all_categories. now rewrite successful_filter_empty. }
    assert (A : get_all_authors db = []).
    { unfold get_all_authors. now rewrite successful_filter_empty. }
    assert (T : get_all_tags_with_counts json_loads db = []).
    { unfold get_all_tags_with_counts, count_tags.
      now rewrite successful_filter_empty. }
    split; [|repeat split; auto].
    + intros c a t q limit. unfold search_content.
      assert (E : filter (search_where c a t q) db = []).
      { clear - F. induction db as [|r db IH]; cbn in *; [reflexivity|].
        unfold search_where at 1.
        destruct (scrape_success r); cbn; [discriminate|auto]. }
      rewrite E. cbn. unfold sql_limit.
      destruct (limit <? 0)%Z; [reflexivity|]. now rewrite firstn_nil.
    + unfold counts, get_content_stats.
      cbn [total_articles total_categories total_authors total_tags].
      rewrite C, A, T, F. reflexivity.
Qed.

(** X10: the statistics never report more than 24 tags, more authors than
    articles, or more articles than rows. *)
Theorem get_content_stats_bounds :
  forall db : Table,
    let s := get_content_stats json_loads db in
    total_tags s <= 24 /\
    total_authors s <= total_articles s /\
    total_articles s <= List.length db.
Proof.
  intros db s. unfold s, get_content_stats.
  cbn [total_articles total_categories total_authors total_tags].
  split; [|split].
  - unfold get_all_tags_with_counts.
    rewrite sorted_length, length_map, length_firstn. lia.
  - unfold get_all_authors. rewrite sorted_length.
    eapply Nat.le_trans; [apply set_of_length|].
    eapply Nat.le_trans; [apply texts_length|].
    clear. induction db as [|r db IH]; cbn; [lia|].
    destruct (scrape_success r); cbn; [|exact IH].
    destruct (Sql.neq (author r) "Unknown"); cbn; lia.
  - apply filter_length_le.
Qed.

End Enumerations.

(** ** [search_content] *)

Section Search.
Import PyStr Store Queries SearchOrder.

Variable json_loads : string -> option (list string).

Lemma compare_val_antisym (a b : option string) :
  Sql.compare_val a b = CompOpp (Sql.compare_val b a).
Proof.
  destruct a, b; cbn; try reflexivity. apply String.compare_antisym.
Qed.

Lemma compare_not_gt (a b : string) :
  String.compare a b <> Gt <-> String.leb a b = true.
Proof.
  unfold String.leb. destruct (String.compare a b); split; congruence.
Qed.

Lemma compare_val_trans (a b c : option string) :
  Sql.compare_val a b <> Gt -> Sql.compare_val b c <> Gt ->
  Sql.compare_val a c <> Gt.
Proof.
  destruct a as [a|], b as [b|], c as [c|]; cbn; try congruence.
  rewrite !compare_not_gt. apply string_leb_trans.
Qed.

Lemma newest_first_sorted (rows : list Row) :
  StronglySorted
    (fun r1 r2 => Sql.compare_val (published_date r2) (published_date r1) <> Gt)
    (sort_by newest_first rows).
Proof.
  induction rows as [|x rows IH]; cbn; [constructor|].
  apply insert_by_sorted; [| | |exact IH].
  - intros y _ H. unfold newest_first in H.
    destruct (Sql.compare_val (published_date y) (published_date x));
      congruence.
  - intros y z _ _ H1 H2. eapply compare_val_trans; eauto.
  - intros y _ H. unfold newest_first in H.
    rewrite compare_val_antisym.
    destruct (Sql.compare_val (published_date y) (published_date x));
      cbn; congruence.
Qed.

Lemma StronglySorted_firstn {A : Type} (R : A -> A -> Prop) (n : nat) (l : list A) :
  StronglySorted R l -> StronglySorted R (firstn n l).
Proof.
  revert n. induction l as [|x l IH]; intros [|n] H; cbn; try constructor.
  - apply IH. now apply StronglySorted_inv in H.
  - apply StronglySorted_inv in H as [_ H]. rewrite Forall_forall in H |- *.
    intros y Hy. apply H. rewrite <- (firstn_skipn n l).
    apply in_or_app. left; exact Hy.
Qed.

Lemma StronglySorted_map {A B : Type} (R : A -> A -> Prop) (R' : B -> B -> Prop)
    (f : A -> B) (l : list A) :
  (forall a b, R a b -> R' (f a) (f b)) ->
  StronglySorted R l -> StronglySorted R' (map f l).
Proof.
  intros Hf H. induction H as [|x l H IH Hx]; cbn; constructor; [exact IH|].
  rewrite Forall_forall in Hx |- *. intros y Hy.
  apply in_map_iff in Hy as (z & <- & Hz). auto.
Qed.

Lemma unknown_after_digits (d : string) :
  String.compare "Unknown" d <> Gt -> starts_with_digit d = false.
Proof.
  destruct d as [|c d]; [reflexivity|].
  destruct c as [[] [] [] [] [] [] [] []];
    try reflexivity; intros H; exfalso; apply H; reflexivity.
Qed.

(** X11: the results of [search_content] come in descending order of
    [published_date] as the TEXT column orders it (byte order, NULL last),
    which is newest first among ISO dates only: a result dated ["Unknown"]
    is never preceded by a result whose date begins with a digit. There are
    no more results than the limit, when the limit is not negative, and no
    more than the successful rows. *)
Theorem search_content_ordered_and_bounded :
  forall (db : Table) (c a t q : option string) (limit : Z),
    let res := search_content json_loads db c a t q limit in
    StronglySorted dated_no_earlier res /\
    (forall before after x y d,
       res = before ++ x :: after -> In y after ->
       a_published_date y = Some "Unknown" ->
       a_published_date x = Some d ->
       starts_with_digit d = false) /\
    ((0 <= limit)%Z -> List.length res <= Z.to_nat limit) /\
    List.length res <= List.length (filter scrape_success db).
Proof.
  intros db c a t q limit res.
  assert (S : StronglySorted dated_no_earlier res).
  { unfold res, search_content.
    apply (StronglySorted_map
             (fun r1 r2 => Sql.compare_val (published_date r2)
                                           (published_date r1) <> Gt)).
    - intros r1 r2 H. exact H.
    - unfold sql_limit. destruct (limit <? 0)%Z.
      + apply newest_first_sorted.
      + apply StronglySorted_firstn, newest_first_sorted. }
  split; [exact S|]. split; [|split].
  - intros before after x y d E Hy Dy Dx. rewrite E in S.
    assert (R : dated_no_earlier x y).
    { apply StronglySorted_across with (l1 := before ++ [x]) (l2 := after);
        [rewrite <- app_assoc; exact S|apply in_or_app; right; now left|exact Hy]. }
    unfold dated_no_earlier in R. rewrite Dy, Dx in R. cbn [Sql.compare_val] in R.
    apply unknown_after_digits, R.
  - intros Hl. unfold res, search_content. rewrite length_map. unfold sql_limit.
    destruct (limit <? 0)%Z eqn:E; [apply Z.ltb_lt in E; lia|].
    rewrite length_firstn. lia.
  - unfold res, search_content. rewrite length_map.
    assert (L : List.length (sql_limit limit
                  (sort_by newest_first (filter (search_where c a t q) db)))
                <= List.length (filter (search_where c a t q) db)).
    { unfold sql_limit. destruct (limit <? 0)%Z.
      - rewrite sort_by_length. lia.
      - rewrite length_firstn, sort_by_length. lia. }
    eapply Nat.le_trans; [exact L|].
    clear. induction db as [|r db IH]; cbn; [lia|].
    unfold search_where at 1.
    destruct (scrape_success r); cbn; [|exact IH].
    destruct (_ && _); cbn; lia.
Qed.

(** The order on the table of the three dates: the undated row first, the
    unparsed date next, the ISO date last. *)
Example search_orders_dates_as_text :
  map a_published_date
      (search_content PlainJson.loads SearchOrder.table_of_dates
                      None None None None 20)
  = [Some "Unknown"; Some "7/19/25"; Some "2025-07-19"].
Proof. vm_compute. reflexivity. Qed.

(** X12: an empty string given for a filter filters nothing; with an author
    given, every result has exactly that author; and with no filter and a
    negative limit the search returns every successful row once. *)
Theorem search_content_filters :
  (forall db a t q limit,
     search_content json_loads db (Some ""%string) a t q limit
     = search_content json_loads db None a t q limit) /\
  (forall db c t q limit,
     search_content json_loads db c (Some ""%string) t q limit
     = search_content json_loads db c None t q limit) /\
  (forall db c a q limit,
     search_content json_loads db c a (Some ""%string) q limit
     = search_content json_loads db c a None q limit) /\
  (forall db c a t limit,
     search_content json_loads db c a t (Some ""%string) limit
     = search_content json_loads db c a t None limit) /\
  (forall db c a t q limit art,
     a <> ""%string ->
     In art (search_content json_loads db c (Some a) t q limit) ->
     a_author art = Some a) /\
  (forall db limit,
     (limit < 0)%Z ->
     Permutation (search_content json_loads db None None None None limit)
                 (map (article_of_row json_loads) (filter scrape_success db))).
Proof.
  split; [|split; [|split; [|split; [|split]]]].
  - intros db a t q limit. reflexivity.
  - intros db c t q limit. reflexivity.
  - intros db c a q limit. reflexivity.
  - intros db c a t limit. reflexivity.
  - intros db c a t q limit art Ha Hart. unfold search_content in Hart.
    apply in_map_iff in Hart as (r & <- & Hr).
    apply sql_limit_In, sort_by_In, filter_In in Hr as [_ Hw].
    unfold search_where in Hw. rewrite !andb_true_iff in Hw.
    destruct Hw as [[[[_ _] Hau] _] _].
    assert (T : truthy a = true)
      by (apply negb_true_iff, String.eqb_neq; exact Ha).
    rewrite T in Hau. unfold Sql.eq in Hau. cbn [article_of_row a_author].
    destruct (author r) as [x|]; [|discriminate].
    apply String.eqb_eq in Hau. now subst.
  - intros db limit Hl. unfold search_content, sql_limit.
    apply Z.ltb_lt in Hl. rewrite Hl. apply Permutation_map.
    rewrite sort_by_perm.
    replace (filter (search_where None None None None) db)
      with (filter scrape_success db); [reflexivity|].
    apply filter_ext. intros r. unfold search_where.
    now rewrite !andb_true_r.
Qed.

End Search.

(** X12, witness: the table with a failed row, searched by author and
    without any filter. *)
Lemma search_content_filters_witness :
  (forall art,
     In art (Queries.search_content PlainJson.loads Samples.table_with_failure
               None (Some "An author"%string) None None 20) ->
     Queries.a_author art = Some "An author"%string) /\
  List.length (Queries.search_content PlainJson.loads
                 Samples.table_with_failure None None None None (-1)) = 2.
Proof.
  destruct (search_content_filters PlainJson.loads)
    as (_ & _ & _ & _ & A & P).
  split.
  - intros art. apply A. discriminate.
  - rewrite (Permutation_length
               (P Samples.table_with_failure (-1)%Z eq_refl)).
    reflexivity.
Defined.

(** ** The session over its events *)

Section SessionRuns.
Import Bot SessionSpec.

Variable json_loads : string -> option (list string).

Lemma search_content_length (db : Store.Table) (c a t q : option string)
    (limit : Z) :
  (0 <= limit)%Z ->
  (Z.of_nat (List.length (Queries.search_content json_loads db c a t q limit))
   <= limit)%Z.
Proof.
  intros H. unfold Queries.search_content, Queries.sql_limit.
  rewrite length_map.
  destruct (limit <? 0)%Z eqn:E; [apply Z.ltb_lt in E; lia|].
  rewrite length_firstn. lia.
Qed.

Lemma total_pages_bounds (results : list Queries.Article) :
  let len := Z.of_nat (List.length results) in
  (5 * (total_pages results - 1) < len <= 5 * total_pages results)%Z.
Proof.
  cbn zeta. unfold total_pages, Config.RESULTS_PER_PAGE.
  set (len := Z.of_nat (List.length results)).
  pose proof (Z.div_mod (len + 5 - 1) 5 ltac:(lia)) as D.
  pose proof (Z.mod_pos_bound (len + 5 - 1) 5 ltac:(lia)) as M.
  lia.
Qed.

Lemma update_results_well_paged (database : option Store.Table)
    (view : LibraryView) :
  well_paged view ->
  well_paged (fst (update_results json_loads database view)) /\
  current_filters (fst (update_results json_loads database view))
  = current_filters view.
Proof.
  intros (H1 & H2 & H3). unfold update_results, search_library.
  destruct database as [db|]; cbn [fst].
  - split; [|reflexivity]. unfold well_paged.
    cbn [current_page current_results].
    split; [lia|]. split; [lia|].
    apply search_content_length. unfold Config.SEARCH_RESULTS_LIMIT. lia.
  - split; [|reflexivity]. unfold well_paged. auto.
Qed.

Lemma update_results_filters (database : option Store.Table)
    (view : LibraryView) :
  current_filters (fst (update_results json_loads database view))
  = current_filters view.
Proof.
  unfold update_results, search_library. destruct database; reflexivity.
Qed.

Lemma handle_well_paged (database : option Store.Table) (ev : UiEvent)
    (view : LibraryView) :
  well_paged view -> well_paged (fst (handle json_loads database ev view)).
Proof.
  intros W. pose proof W as (H1 & H2 & H3).
  destruct ev as [v|v|v|v| | |]; cbn [handle].
  - apply update_results_well_paged. exact W.
  - apply update_results_well_paged. exact W.
  - apply update_results_well_paged. exact W.
  - apply update_results_well_paged. exact W.
  - unfold previous_button. destruct (0 <? current_page view)%Z eqn:E;
      cbn [fst]; [|exact W].
    apply Z.ltb_lt in E. unfold well_paged. cbn [current_page current_results].
    split; [lia|]. split; [lia|exact H3].
  - unfold next_button.
    destruct (current_page view <? total_pages (current_results view) - 1)%Z
      eqn:E; cbn [fst]; [|exact W].
    apply Z.ltb_lt in E. unfold well_paged. cbn [current_page current_results].
    split; [lia|]. split; [lia|exact H3].
  - unfold reset_button, get_library_stats.
    destruct database; cbn [fst]; unfold well_paged; cbn; repeat split; lia.
Qed.

Lemma slice_nonneg {A : Type} (l : list A) (a b : Z) :
  (0 <= a <= b)%Z ->
  slice l a b = firstn (Z.to_nat (b - a)) (skipn (Z.to_nat a) l).
Proof.
  intros H. unfold slice.
  set (len := Z.of_nat (List.length l)).
  assert (Ea : (a <? 0)%Z = false) by (apply Z.ltb_ge; lia).
  assert (Eb : (b <? 0)%Z = false) by (apply Z.ltb_ge; lia).
  rewrite Ea, Eb.
  destruct (Z_le_gt_dec len a) as [Ha|Ha].
  - rewrite (Z.min_r a len) by lia. rewrite (Z.min_r b len) by lia.
    rewrite Z.sub_diag. cbn [Z.to_nat firstn].
    rewrite (skipn_all2 (n := Z.to_nat a)) by (unfold len in Ha; lia).
    now rewrite firstn_nil.
  - rewrite (Z.min_l a len) by lia.
    destruct (Z_le_gt_dec b len) as [Hb|Hb].
    + now rewrite (Z.min_l b len) by lia.
    + rewrite (Z.min_r b len) by lia.
      rewrite !firstn_all2; [reflexivity| |];
        rewrite length_skipn; unfold len in *; lia.
Qed.

(** X13: whatever events a session receives, and whether the database
    answers or not, its page stays among the pages of its results, and it
    holds at most 20 results; so the page it shows of a non-empty result
    list is never empty. *)
Theorem session_stays_well_paged :
  (forall database ev view,
     well_paged view -> well_paged (fst (handle json_loads database ev view))) /\
  (forall database events items,
     well_paged (run json_loads database events (new_view items))) /\
  (forall view,
     well_paged view -> current_results view <> [] ->
     slice (current_results view)
           (current_page view * Config.RESULTS_PER_PAGE)
           (current_page view * Config.RESULTS_PER_PAGE + Config.RESULTS_PER_PAGE)
     <> []).
Proof.
  split; [exact handle_well_paged|]. split.
  - intros database events items. unfold run.
    assert (G : forall evs v, well_paged v ->
              well_paged (fold_left
                            (fun v ev => fst (handle json_loads database ev v))
                            evs v)).
    { induction evs as [|ev evs IH]; intros v W; [exact W|].
      cbn. apply IH, handle_well_paged, W. }
    apply G. unfold well_paged, new_view, Config.SEARCH_RESULTS_LIMIT.
    cbn. repeat split; lia.
  - intros view (H1 & H2 & H3) Hne.
    pose proof (total_pages_bounds (current_results view)) as B. cbn zeta in B.
    unfold Config.RESULTS_PER_PAGE.
    rewrite slice_nonneg by lia.
    replace (current_page view * 5 + 5 - current_page view * 5)%Z with 5%Z by lia.
    assert (Hlen : (0 < Z.of_nat (List.length (current_results view)))%Z).
    { destruct (current_results view); [congruence|cbn; lia]. }
    assert (Hp : Z.to_nat (current_page view * 5)
                 < List.length (current_results view)) by lia.
    destruct (skipn (Z.to_nat (current_page view * 5)) (current_results view))
      as [|x rest] eqn:E; [|cbn; discriminate].
    apply (f_equal (@List.length _)) in E. rewrite length_skipn in E.
    cbn in E. lia.
Qed.

Lemma chunks_cover {A : Type} (n : nat) (l : list A) :
  List.length l <= 5 * n ->
  concat (map (fun p => firstn 5 (skipn (5 * p) l)) (seq 0 n)) = l.
Proof.
  revert l. induction n as [|n IH]; intros l H.
  - destruct l; [reflexivity|cbn in H; lia].
  - cbn [seq map concat]. rewrite <- seq_shift, map_map.
    transitivity (firstn 5 l ++ skipn 5 l); [|apply firstn_skipn].
    f_equal.
    etransitivity; [|apply (IH (skipn 5 l)); rewrite length_skipn; lia].
    f_equal. apply map_ext. intros p. rewrite skipn_skipn.
    f_equal. f_equal. lia.
Qed.

(** X14: the pages of a result list, taken in order, are the list itself:
    every result is on exactly one page, and no page has more than five. *)
Theorem pages_cover_the_results :
  forall results : list Queries.Article,
    concat (map (page_of results) (seq 0 (Z.to_nat (total_pages results))))
    = results /\
    forall p, List.length (page_of results p) <= 5.
Proof.
  intros results.
  assert (P : forall p, page_of results p = firstn 5 (skipn (5 * p) results)).
  { intros p. unfold page_of, Config.RESULTS_PER_PAGE.
    rewrite slice_nonneg by lia.
    replace (Z.of_nat p * 5 + 5 - Z.of_nat p * 5)%Z with 5%Z by lia.
    replace (Z.to_nat (Z.of_nat p * 5)) with (5 * p) by lia. reflexivity. }
  split.
  - rewrite (map_ext _ _ P). apply chunks_cover.
    pose proof (total_pages_bounds results) as B. cbn zeta in B. lia.
  - intros p. rewrite P, length_firstn. lia.
Qed.

Lemma handle_keeps_other_fields (database : option Store.Table) (f : Field)
    (ev : UiEvent) (view : LibraryView) :
  assigns f ev = false ->
  get f (current_filters (fst (handle json_loads database ev view)))
  = get f (current_filters view).
Proof.
  intros H.
  destruct ev as [v|v|v|v| | |]; cbn [handle].
  - unfold category_callback.
    rewrite (update_results_filters database _).
    destruct f; try discriminate; reflexivity.
  - unfold author_callback.
    rewrite (update_results_filters database _).
    destruct f; try discriminate; reflexivity.
  - unfold tag_callback.
    rewrite (update_results_filters database _).
    destruct f; try discriminate; reflexivity.
  - unfold on_submit.
    rewrite (update_results_filters database _).
    destruct f; try discriminate; reflexivity.
  - unfold previous_button. destruct (0 <? current_page view)%Z; reflexivity.
  - unfold next_button. destruct (_ <? _)%Z; reflexivity.
  - destruct f; discriminate.
Qed.

(** X15: the filters are independent over whole runs: a filter holds after
    a run what it held before, unless the run contains an event that
    assigns it (its own selection or submission, or a reset); paging and
    failed searches never change a filter. *)
Theorem filters_change_only_by_their_events :
  forall (database : option Store.Table) (f : Field)
         (events : list UiEvent) (view : LibraryView),
    forallb (fun ev => negb (assigns f ev)) events = true ->
    get f (current_filters (run json_loads database events view))
    = get f (current_filters view).
Proof.
  intros database f events. unfold run.
  induction events as [|ev events IH]; intros view H; [reflexivity|].
  cbn in H. apply andb_true_iff in H as [H1 H2].
  apply negb_true_iff in H1. cbn [fold_left].
  rewrite (IH _ H2). apply handle_keeps_other_fields. exact H1.
Qed.

End SessionRuns.

(** X13, witness: the session of twelve results on its second page. *)
Lemma session_stays_well_paged_witness :
  SessionSpec.well_paged
    (fst (Bot.handle PlainJson.loads None Bot.NextPage Samples.view_page_2)) /\
  Bot.slice (Bot.current_results Samples.view_page_2) 5 10 <> [].
Proof.
  destruct (session_stays_well_paged PlainJson.loads) as (H1 & _ & H3).
  assert (W : SessionSpec.well_paged Samples.view_page_2).
  { unfold SessionSpec.well_paged. cbn. repeat split; discriminate. }
  split; [apply H1; exact W|].
  apply (H3 Samples.view_page_2 W). discriminate.
Defined.

(** X15, witness: category, tag and paging events on a session whose author
    filter is set, while the database does not answer. *)
Lemma filters_change_only_by_their_events_witness :
  Bot.f_author
    (Bot.current_filters
       (Bot.run PlainJson.loads None
          [Bot.SelectCategory "Grief"; Bot.NextPage; Bot.SelectTag "clear";
           Bot.SubmitSearch "loss"; Bot.PrevPage]
          Samples.view_page_2))
  = Some "An author"%string.
Proof.
  apply (filters_change_only_by_their_events PlainJson.loads None
           SessionSpec.Author
           [Bot.SelectCategory "Grief"; Bot.NextPage; Bot.SelectTag "clear";
            Bot.SubmitSearch "loss"; Bot.PrevPage]
           Samples.view_page_2 eq_refl).
Defined.

(** ** The admin commands: release of the lock, and refused callers *)

Section AdminMore.
Import Admin.

Variable json_loads : string -> option (list string).

Local Abbreviation step := (Admin.step json_loads).
Local Abbreviation run := (Admin.run json_loads).

Lemma nth_error_set_nth {A : Type} (n : nat) (x old : A) (l : list A) :
  nth_error l n = Some old -> nth_error (set_nth n x l) n = Some x.
Proof.
  revert n. induction l as [|y l IH]; intros [|n] H; cbn in *;
    try discriminate; auto.
Qed.

Lemma in_progress_locked (s : System) (id : nat) (t : Op * Pc) :
  lock_invariant s -> nth_error (tasks s) id = Some t ->
  in_progress t = true -> locked (lock s) = true.
Proof.
  intros (_ & _ & Hc) N P. destruct (locked (lock s)); [reflexivity|].
  apply nth_error_In in N.
  assert (In t (filter in_progress (tasks s))) as Hin by (apply filter_In; auto).
  destruct (filter in_progress (tasks s)); [destruct Hin|discriminate].
Qed.

(** X16: a command that holds the lock gives it back whatever the scraper
    did: once it has run the scraper (return code zero or not, timeout,
    error) and edited its message, the lock is free, the table is the one
    the run left, the report sent is the one built from that run, and the
    next admin command is let in; the lock is also given back when the
    starting notice cannot be sent. *)
Theorem admin_command_releases_the_lock :
  forall (db : Store.Table) (history : list Label) (id : nat) (op : Op)
         (r : ScraperRun),
    let s := run history (initial db) in
    nth_error (tasks s) id = Some (op, Announcing) ->
    let s1 := step (Announced id r) s in
    let s2 := step (Reported id) s1 in
    locked (lock s) = true /\
    locked (lock s1) = true /\
    locked (lock s2) = false /\
    store s2 = store_after r /\
    nth_error (tasks s2) id = Some (op, Done) /\
    sent s2 = sent s ++ [(id, report json_loads op r)] /\
    locked (lock (step (AnnounceFailed id) s)) = false /\
    (forall op',
       tasks (step (Invoke op' true) s2) = tasks s2 ++ [(op', Announcing)] /\
       locked (lock (step (Invoke op' true) s2)) = true).
Proof.
  intros db history id op r s N s1 s2.
  assert (I : lock_invariant s) by (apply invariant_run, invariant_initial).
  assert (L : locked (lock s) = true)
    by (apply (in_progress_locked s id _ I N); reflexivity).
  assert (E1 : s1 = mkSystem (lock s) (store_after r)
                      (set_nth id (op, Reporting (report json_loads op r)) (tasks s))
                      (sent s)).
  { unfold s1. cbn [Admin.step]. rewrite N.
    now rewrite (set_pc_spec _ _ _ _ _ N). }
  assert (N1 : nth_error (tasks s1) id
               = Some (op, Reporting (report json_loads op r))).
  { rewrite E1. cbn [tasks]. apply (nth_error_set_nth _ _ _ _ N). }
  assert (E2 : s2 = mkSystem (release (lock s1)) (store s1)
                      (set_nth id (op, Done) (tasks s1))
                      (sent s1 ++ [(id, report json_loads op r)])).
  { unfold s2. cbn [Admin.step]. rewrite N1.
    now rewrite (set_pc_spec _ _ _ _ _ N1). }
  assert (I2 : lock_invariant s2).
  { unfold s2, s1. apply invariant_step, invariant_step, I. }
  split; [exact L|]. split; [rewrite E1; exact L|].
  split; [rewrite E2; reflexivity|].
  split; [rewrite E2, E1; reflexivity|].
  split; [rewrite E2; cbn [tasks]; apply (nth_error_set_nth _ _ _ _ N1)|].
  split; [rewrite E2, E1; reflexivity|].
  split.
  - cbn [Admin.step]. rewrite N. reflexivity.
  - intros op'. cbn [Admin.step]. unfold invoke. cbn [negb].
    destruct I2 as (Hw & _ & _).
    assert (L2 : locked (lock s2) = false) by (rewrite E2; reflexivity).
    rewrite L2. unfold acquire. rewrite L2, Hw. split; reflexivity.
Qed.

(** X17: a command from a caller without the admin role is refused
    whatever the state of the lock, touches neither the lock nor the table,
    and the handlers in flight go on as if it had never come. *)
Theorem refused_caller_changes_nothing :
  forall (s : System) (op : Op),
    step (Invoke op false) s
    = mkSystem (lock s) (store s) (tasks s ++ [(op, Denied)])
               (sent s ++ [(List.length (tasks s), PermissionDenied)]) /\
    (forall later,
       forallb (concerns_below (List.length (tasks s))) later = true ->
       observed (List.length (tasks s)) (run later (step (Invoke op false) s))
       = observed (List.length (tasks s)) (run later s)).
Proof.
  intros s op. split; [reflexivity|].
  intros later Hl. apply run_observed; [exact Hl|].
  cbn [Admin.step]. unfold invoke. cbn [negb]. unfold observed.
  cbn [lock store tasks sent].
  rewrite firstn_app, Nat.sub_diag, firstn_all. cbn [firstn].
  rewrite app_nil_r, filter_app. cbn [filter fst].
  rewrite Nat.ltb_irrefl, app_nil_r. reflexivity.
Qed.

End AdminMore.

(** X16, witness: an update whose scraper run times out. *)
Lemma admin_command_releases_the_lock_witness :
  let s := Admin.run PlainJson.loads [Admin.Invoke Admin.Update true]
             (Admin.initial Samples.table_bc) in
  let r := Admin.mkRun Admin.TimeoutExpired Samples.table_ghm in
  let s2 := Admin.step PlainJson.loads (Admin.Reported 0)
              (Admin.step PlainJson.loads (Admin.Announced 0 r) s) in
  Admin.locked (Admin.lock s2) = false /\
  Admin.sent s2
  = [(0, Admin.Starting Admin.Update); (0, Admin.Timeout Admin.Update)].
Proof.
  intros s r s2.
  destruct (admin_command_releases_the_lock PlainJson.loads Samples.table_bc
              [Admin.Invoke Admin.Update true] 0 Admin.Update r eq_refl)
    as (_ & _ & L & _ & _ & S & _).
  split; [exact L|]. unfold s2, s. rewrite S. reflexivity.
Defined.

(** ** The persistent view: its buttons and its failures *)

Section PersistentMore.
Import PersistentView.

Variable Result : Type.
Variable rss_search : string -> option string -> option string -> option (list Result).
Variable engine_search : list Result -> string -> option (list Result).

(** X18: the flags the persistent view sets on its paging buttons agree
    with what the buttons do: on a page that is not negative, a button is
    disabled exactly when its callback would leave the view as it is and
    render nothing. *)
Theorem disabled_buttons_do_nothing :
  forall view : LibraryView Result,
    (0 <= current_page _ view)%Z ->
    exists d,
      update_display _ view = [EditMessage _ d] /\
      (prev_disabled _ d = true <-> prev_page_callback _ view = (view, [])) /\
      (next_disabled _ d = true <-> next_page_callback _ view = (view, [])).
Proof.
  intros view Hp. eexists. split; [reflexivity|].
  cbn [prev_disabled next_disabled]. split.
  - unfold prev_page_callback. rewrite Z.eqb_eq.
    destruct (0 <? current_page _ view)%Z eqn:E.
    + apply Z.ltb_lt in E. split; [lia|]. intros H. discriminate H.
    + apply Z.ltb_ge in E. split; [reflexivity|]. lia.
  - unfold next_page_callback. rewrite Z.leb_le.
    set (m := ((Z.of_nat (List.length (current_results _ view)) - 1)
               / results_per_page)%Z).
    destruct (current_page _ view <? m)%Z eqn:E.
    + apply Z.ltb_lt in E. split; [lia|]. intros H. discriminate H.
    + apply Z.ltb_ge in E. split; [reflexivity|]. lia.
Qed.

Lemma load_results_raises (view : LibraryView Result) :
  search_raises _ rss_search engine_search (current_query _ view)
                (current_category _ view) (current_author _ view) ->
  load_results _ rss_search engine_search view
  = mkView _ (current_category _ view) (current_author _ view)
           (current_query _ view) [] (current_page _ view).
Proof.
  unfold search_raises, load_results.
  destruct (rss_search (current_query _ view) (current_category _ view)
                       (current_author _ view)); [|reflexivity].
  intros [-> ->]. reflexivity.
Qed.

Lemma empty_display (category author : option string) (query : string) :
  exists filters,
    update_display _ (mkView Result category author query [] 0)
    = [EditMessage _ (mkDisplay _ filters (NoResultsFound _) true true)].
Proof. eexists. unfold update_display. cbn [current_results current_page]. reflexivity. Qed.

(** X19: when the RSS search or the search engine raises, a change of
    filter or of query still goes through: after [update_search] the view
    holds the new query, after [update_filters] the category and the author
    given (a value not given keeping what it was), and so after the
    selection of a category or an author in its dropdown; in each case the
    view is on page 0 without results, and renders the empty page with both
    paging buttons disabled. *)
Theorem persistent_view_survives_a_failed_search :
  forall view : LibraryView Result,
    (forall query : string,
       search_raises _ rss_search engine_search query
                     (current_category _ view) (current_author _ view) ->
       let r := update_search _ rss_search engine_search query view in
       fst r = mkView _ (current_category _ view) (current_author _ view)
                      query [] 0 /\
       exists filters,
         snd r = [EditMessage _ (mkDisplay _ filters (NoResultsFound _) true true)]) /\
    (forall category author : option string,
       let category' :=
         match category with Some c => Some c | None => current_category _ view end in
       let author' :=
         match author with Some a => Some a | None => current_author _ view end in
       search_raises _ rss_search engine_search (current_query _ view)
                     category' author' ->
       let r := update_filters _ rss_search engine_search category author view in
       fst r = mkView _ category' author' (current_query _ view) [] 0 /\
       exists filters,
         snd r = [EditMessage _ (mkDisplay _ filters (NoResultsFound _) true true)]) /\
    (forall value : string,
       value <> "all" ->
       search_raises _ rss_search engine_search (current_query _ view)
                     (Some value) (current_author _ view) ->
       fst (category_select_callback _ rss_search engine_search value view)
       = mkView _ (Some value) (current_author _ view) (current_query _ view)
                [] 0) /\
    (forall value : string,
       value <> "all" ->
       search_raises _ rss_search engine_search (current_query _ view)
                     (current_category _ view) (Some value) ->
       fst (author_select_callback _ rss_search engine_search value view)
       = mkView _ (current_category _ view) (Some value) (current_query _ view)
                [] 0).
Proof.
  intros view.
  assert (F : forall category author : option string,
    let category' :=
      match category with Some c => Some c | None => current_category _ view end in
    let author' :=
      match author with Some a => Some a | None => current_author _ view end in
    search_raises _ rss_search engine_search (current_query _ view)
                  category' author' ->
    let r := update_filters _ rss_search engine_search category author view in
    fst r = mkView _ category' author' (current_query _ view) [] 0 /\
    snd r = update_display _ (fst r)).
  { intros category author category' author' H r.
    unfold r, update_filters. cbn [fst snd]. split; [|reflexivity].
    rewrite load_results_raises.
    - destruct category, author; reflexivity.
    - destruct category, author; exact H. }
  split; [|split; [|split]].
  - intros query H r. unfold r, update_search. cbn [fst snd].
    rewrite load_results_raises by exact H.
    cbn [current_category current_author current_query current_page].
    split; [reflexivity|apply empty_display].
  - intros category author category' author' H r.
    destruct (F category author H) as (E1 & E2). fold r in E1, E2.
    split; [exact E1|]. rewrite E2, E1. apply empty_display.
  - intros value Hv H. unfold category_select_callback.
    apply String.eqb_neq in Hv. rewrite Hv. cbn [negb].
    exact (proj1 (F (Some value) None H)).
  - intros value Hv H. unfold author_select_callback.
    apply String.eqb_neq in Hv. rewrite Hv. cbn [negb].
    exact (proj1 (F None (Some value) H)).
Qed.

End PersistentMore.

(** X18, witness: the persistent view of one result, on page 0. *)
Lemma disabled_buttons_do_nothing_witness :
  exists d,
    PersistentView.update_display _
      (PersistentView.mkView string None None "" ["r01"%string] 0)
    = [PersistentView.EditMessage _ d] /\
    PersistentView.next_disabled _ d = true.
Proof.
  destruct (disabled_buttons_do_nothing string
              (PersistentView.mkView string None None "" ["r01"%string] 0))
    as (d & E & _ & N).
  - cbn. discriminate.
  - exists d. split; [exact E|]. apply N. reflexivity.
Defined.

(** X19, witness: a query submitted, and a category selected, while the
    parser raises. *)
Lemma persistent_view_survives_a_failed_search_witness :
  PersistentView.current_results _
    (fst (PersistentView.update_search _ (fun _ _ _ => None)
            Samples.plain_engine "grief" Samples.persistent_filtered))
  = [] /\
  fst (PersistentView.category_select_callback _ (fun _ _ _ => None)
         Samples.plain_engine "Healing" Samples.persistent_filtered)
  = PersistentView.mkView _ (Some "Healing")
      (PersistentView.current_author _ Samples.persistent_filtered)
      (PersistentView.current_query _ Samples.persistent_filtered) [] 0.
Proof.
  destruct (persistent_view_survives_a_failed_search string
              (fun _ _ _ => None) Samples.plain_engine
              Samples.persistent_filtered) as (Q & _ & C & _).
  split.
  - destruct (Q "grief" I) as (E & _). rewrite E. reflexivity.
  - apply C; [discriminate|exact I].
Defined.

(** ** The description of a page *)

Section Description.
Import PyStr Scraper.

Lemma length_append (a b : string) :
  String.length (a ++ b) = String.length a + String.length b.
Proof. induction a as [|c a IH]; cbn; [reflexivity|]. now rewrite IH. Qed.

Lemma length_take (n : nat) (s : string) : String.length (take n s) <= n.
Proof.
  unfold take. revert s. induction n as [|n IH]; intros [|c s]; cbn; try lia.
  specialize (IH s). lia.
Qed.

Lemma excerpt_length (text : string) : String.length (excerpt text) <= 303.
Proof.
  unfold excerpt. destruct (300 <? String.length text)%nat eqn:E.
  - rewrite length_append. pose proof (length_take 300 text). cbn. lia.
  - apply Nat.ltb_ge in E. lia.
Qed.

(** X20: the description is never longer than 303 characters; it is empty,
    or the text of a paragraph of the content area longer than 50
    characters, or of the block quote, cut after 300 characters with an
    ellipsis when longer and verbatim otherwise; and the block quote is
    used only when no paragraph qualifies. *)
Theorem extract_description_is_a_bounded_excerpt :
  forall soup : Soup,
    let d := extract_description soup in
    String.length d <= 303 /\
    (d = ""%string \/
     exists text,
       d = excerpt text /\
       ((exists paragraphs,
           content_paragraphs soup = Some paragraphs /\ In text paragraphs /\
           50 < String.length text) \/
        (blockquote soup = Some text /\
         forall paragraphs text',
           content_paragraphs soup = Some paragraphs -> In text' paragraphs ->
           50 < String.length text' ->
           exists word,
             In word ["order"; "buy"; "purchase"; "copy today"]%string /\
             str_in word (lower text') = true))) /\
    (forall text, String.length text <= 300 -> excerpt text = text).
Proof.
  intros soup d. unfold d, extract_description.
  set (good := fun text : string =>
         (50 <? String.length text)%nat
         && negb (existsb (fun word => str_in word (lower text))
                          ["order"; "buy"; "purchase"; "copy today"]%string)).
  split; [|split].
  - destruct (match content_paragraphs soup with
              | Some paragraphs => find good paragraphs
              | None => None
              end); [apply excerpt_length|].
    destruct (blockquote soup); [apply excerpt_length|cbn; lia].
  - destruct (content_paragraphs soup) as [paragraphs|] eqn:C.
    + destruct (find good paragraphs) as [text|] eqn:F.
      * right. exists text. split; [reflexivity|]. left.
        apply find_some in F as [Hin Hg]. unfold good in Hg.
        apply andb_true_iff in Hg as [Hl _]. apply Nat.ltb_lt in Hl.
        exists paragraphs. auto.
      * destruct (blockquote soup) as [text|]; [|left; reflexivity].
        right. exists text. split; [reflexivity|]. right.
        split; [reflexivity|].
        intros paragraphs' text' [= <-] Hin Hl.
        pose proof (find_none _ _ F text' Hin) as Hg. unfold good in Hg.
        apply Nat.ltb_lt in Hl. rewrite Hl in Hg. cbn [andb] in Hg.
        apply negb_false_iff, existsb_exists in Hg. exact Hg.
    + destruct (blockquote soup) as [text|]; [|left; reflexivity].
      right. exists text. split; [reflexivity|]. right.
      split; [reflexivity|]. intros paragraphs text' H. discriminate H.
  - intros text H. unfold excerpt.
    assert (E : (300 <? String.length text)%nat = false)
      by (apply Nat.ltb_ge; exact H).
    now rewrite E.
Qed.

End Description.

(** ** The pace of the scraping loop *)

Section Pacing.
Import PyStr Scraper Pace.

Variable json_dumps : list string -> string.
Variable net : nat -> string -> option Soup.
Variable clock : nat -> string.

Local Abbreviation scrape_page := (scrape_page json_dumps net).
Local Abbreviation scrape_one := (scrape_one json_dumps net clock).
Local Abbreviation scrape_loop_from := (scrape_loop_from json_dumps net clock).
Local Abbreviation scrape_loop := (scrape_loop json_dumps net clock).

Lemma pace_app (b : bool) (s1 s2 : list Event) :
  pace b (s1 ++ s2)
  = match pace b s1 with
    | Some b' => pace b' s2
    | None => None
    end.
Proof.
  revert b. induction s1 as [|e s1 IH]; intros b; cbn; [reflexivity|].
  destruct e; [destruct b; [reflexivity|]| |]; apply IH.
Qed.

Lemma scrape_one_block (u : UrlData) (st : State) (ok : nat) :
  exists shape,
    possible shape /\
    trace (fst (scrape_one u (st, ok))) = trace st ++ block (u_url u) shape.
Proof.
  unfold Scraper.scrape_one.
  pose proof (scrape_page_cases json_dumps net u st) as H. cbn zeta in H.
  pose proof (scrape_page_data json_dumps net u st) as D.
  destruct (scrape_page u st) as [data st1]. cbn [fst snd] in H, D.
  destruct H as (_ & _ & _ & H).
  destruct data as [data|].
  - destruct (D data eq_refl) as (_ & soup & _ & _ & _ & ->).
    assert (T : exists k, k < 3 /\
              trace st1 = trace st ++ EGet (u_url u) :: retries (u_url u) k).
    { destruct H as [(_ & _ & [[_ T]|[[_ T]|[_ T]]])|(_ & _ & _ & E)].
      - exists 0. split; [lia|exact T].
      - exists 1. split; [lia|exact T].
      - exists 2. split; [lia|exact T].
      - discriminate E. }
    destruct T as (k & Hk & T). exists (k, true).
    split; [split; [exact Hk|discriminate]|].
    unfold block. cbn [fst snd].
    destruct (d_scrape_success _ && _); cbn [fst trace sleep store_data];
      rewrite T; cbn [d_url extract_metadata];
      rewrite <- !app_assoc; reflexivity.
  - exists (2, false). split; [split; [cbn; lia|reflexivity]|].
    destruct H as [(N & _)|(_ & _ & _ & E)]; [congruence|].
    inversion E. unfold block, gave_up. cbn [fst snd trace sleep retries].
    rewrite <- !app_assoc. reflexivity.
Qed.

Lemma pace_block (url : string) (shape : nat * bool) :
  possible shape -> pace false (block url shape) = Some false.
Proof.
  destruct shape as [k stored]. intros [Hk _]. cbn [fst] in Hk.
  assert (k = 0 \/ k = 1 \/ k = 2) as [->|[->| ->]] by lia;
    destruct stored; reflexivity.
Qed.

(** X21: what the loop adds to the trace is, URL after URL in the order of
    the batch, the request of the URL, at most two further requests of it
    each after a sleep of 2000 ms, the store when a page came back (which it
    did unless all three requests were made), and a sleep of the request
    delay, 1500 ms; so no two requests are back to back, and the last
    request is followed by a sleep. *)
Theorem scrape_loop_is_paced :
  forall (articles : list UrlData) (st : State),
    exists shapes,
      List.length shapes = List.length articles /\
      Forall possible shapes /\
      trace (fst (scrape_loop articles st))
      = trace st ++ blocks (map u_url articles) shapes /\
      pace false (blocks (map u_url articles) shapes) = Some false /\
      request_delay = 1500%Z.
Proof.
  intros articles st. unfold Scraper.scrape_loop.
  generalize 0 as ok. revert st.
  induction articles as [|u rest IH]; intros st ok.
  - exists []. cbn. rewrite app_nil_r. repeat split; constructor.
  - unfold Scraper.scrape_loop_from. cbn [fold_left].
    destruct (scrape_one_block u st ok) as (shape & P1 & T1).
    destruct (scrape_one u (st, ok)) as [st1 ok1]. cbn [fst] in T1.
    destruct (IH st1 ok1) as (shapes & L & P2 & T2 & C2 & _).
    exists (shape :: shapes).
    split; [cbn; now rewrite L|]. split; [constructor; assumption|].
    split; [|split; [|reflexivity]].
    + unfold Scraper.scrape_loop_from in T2. rewrite T2, T1.
      cbn [map blocks]. now rewrite app_assoc.
    + cbn [map blocks]. rewrite pace_app, (pace_block _ _ P1). exact C2.
Qed.

End Pacing.

(** ** Opening a session *)

Section OpeningFacts.
Import PyStr Queries Bot Opening.

Variable json_loads : string -> option (list string).

Lemma build_spec (all_label placeholder cid : string) (items : list string) :
  match build all_label placeholder cid items with
  | None => items = []
  | Some d =>
      items <> [] /\
      select d = mkSelect cid placeholder /\
      hd_error (options d) = Some (mkOption all_label "clear") /\
      map value (tl (options d)) = firstn 24 items /\
      2 <= List.length (options d) <= 25 /\
      Forall (fun o => String.length (label o) <= 100) (tl (options d))
  end.
Proof.
  unfold build. destruct items as [|x items]; [reflexivity|].
  cbn [select options hd_error tl].
  split; [discriminate|]. split; [reflexivity|]. split; [reflexivity|].
  split; [|split].
  - rewrite map_map. cbn [value]. apply map_id.
  - cbn [List.length]. rewrite length_map, length_firstn. cbn [List.length]. lia.
  - apply Forall_forall. intros o Ho. apply in_map_iff in Ho as (y & <- & _).
    cbn [label]. apply length_take.
Qed.

Lemma top_tags_length (db : Store.Table) :
  List.length (get_all_tags_with_counts json_loads db) <= 24.
Proof.
  unfold get_all_tags_with_counts.
  rewrite sorted_length, length_map, length_firstn. lia.
Qed.

(** X22: every dropdown of a new session has between 2 and 25 options, the
    first of which clears the filter, and labels of at most 100
    characters; a dropdown is left out when its list is empty, and all of
    them when the database cannot be read. The tag dropdown offers every
    tag of [get_all_tags_with_counts]; the category and author dropdowns
    offer the first 24 of their lists. *)
Theorem dropdowns_fit_the_limit :
  forall database : option Store.Table,
    (forall d,
       In d (dropdowns json_loads database) ->
       2 <= List.length (options d) <= 25 /\
       (exists all_label, hd_error (options d) = Some (mkOption all_label "clear")) /\
       Forall (fun o => String.length (label o) <= 100) (tl (options d))) /\
    (database = None -> dropdowns json_loads database = []) /\
    (forall db,
       database = Some db ->
       (match add_category_dropdown json_loads database with
        | Some d => map value (tl (options d)) = firstn 24 (get_all_categories db)
        | None => get_all_categories db = []
        end) /\
       (match add_author_dropdown json_loads database with
        | Some d => map value (tl (options d)) = firstn 24 (get_all_authors db)
        | None => get_all_authors db = []
        end) /\
       (match add_tag_dropdown json_loads database with
        | Some d => map value (tl (options d)) = get_all_tags_with_counts json_loads db
        | None => get_all_tags_with_counts json_loads db = []
        end)).
Proof.
  intros database. split; [|split].
  - intros d Hd. unfold dropdowns in Hd.
    assert (G : forall a p c items,
              build a p c items = Some d ->
              2 <= List.length (options d) <= 25 /\
              (exists all_label,
                 hd_error (options d) = Some (mkOption all_label "clear")) /\
              Forall (fun o => String.length (label o) <= 100) (tl (options d))).
    { intros a p c items E. pose proof (build_spec a p c items) as B.
      rewrite E in B. destruct B as (_ & _ & H1 & _ & H2 & H3). eauto. }
    unfold add_category_dropdown, add_author_dropdown, add_tag_dropdown in Hd.
    destruct (get_dropdown_options json_loads database) as [o|]; [|destruct Hd].
    rewrite !in_app_iff in Hd. unfold added in Hd.
    destruct Hd as [Hd|[Hd|Hd]];
      match type of Hd with
      | In _ match ?b with _ => _ end =>
          destruct b as [d'|] eqn:E; [destruct Hd as [<-|[]]|destruct Hd]
      end; eapply G; exact E.
  - intros ->. reflexivity.
  - intros db ->.
    unfold add_category_dropdown, add_author_dropdown, add_tag_dropdown,
      get_dropdown_options. cbn [o_categories o_authors o_tags].
    assert (F : forall l : list string,
              firstn 24 (firstn 25 l) = firstn 24 l).
    { intros l. rewrite firstn_firstn. reflexivity. }
    assert (N : forall l : list string, firstn 25 l = [] -> l = []).
    { intros [|x l] H; [reflexivity|discriminate]. }
    split; [|split].
    + pose proof (build_spec "All Categories" "Choose a category..."
                    "category_select" (firstn 25 (get_all_categories db))) as B.
      destruct (build _ _ _ _) as [d|].
      * destruct B as (_ & _ & _ & V & _). now rewrite V, F.
      * apply N, B.
    + pose proof (build_spec "All Authors" "Choose an author..."
                    "author_select" (firstn 25 (get_all_authors db))) as B.
      destruct (build _ _ _ _) as [d|].
      * destruct B as (_ & _ & _ & V & _). now rewrite V, F.
      * apply N, B.
    + pose proof (build_spec "All Tags" "Choose a tag..." "tag_select"
                    (firstn 25 (get_all_tags_with_counts json_loads db))) as B.
      destruct (build _ _ _ _) as [d|].
      * destruct B as (_ & _ & _ & V & _). rewrite V, F.
        apply firstn_all2, top_tags_length.
      * apply N, B.
Qed.

(** X23: [library_command] opens a session exactly when the database can
    be read and holds a successful row; the session then starts without
    filter, result or page offset, the welcome shows the statistics of that
    table with at least one article, and it stays well paged under any
    events; otherwise only the database error is sent. *)
Theorem library_command_needs_a_healthy_store :
  forall database : option Store.Table,
    match library_command json_loads database with
    | (Some view, embed) =>
        exists db,
          database = Some db /\
          (exists r, In r db /\ Store.scrape_success r = true) /\
          embed = Welcome (get_content_stats json_loads db) /\
          0 < total_articles (get_content_stats json_loads db) /\
          view = SessionSpec.new_view (map select (dropdowns json_loads database)) /\
          forall events,
            SessionSpec.well_paged (run json_loads database events view)
    | (None, embed) =>
        embed = DatabaseError /\
        (database = None \/
         exists db, database = Some db /\
                    forall r, In r db -> Store.scrape_success r = false)
    end.
Proof.
  intros database. unfold library_command.
  destruct database as [db|]; [|split; [reflexivity|left; reflexivity]].
  destruct (validate_database db) eqn:V.
  - exists db. split; [reflexivity|].
    unfold validate_database in V. apply Nat.ltb_lt in V.
    split.
    + destruct (filter Store.scrape_success db) as [|r l] eqn:F;
        [cbn in V; lia|].
      exists r. apply filter_In. rewrite F. left; reflexivity.
    + split; [reflexivity|]. split; [exact V|]. split; [reflexivity|].
      intros events. unfold init_view.
      assert (G : forall evs v, SessionSpec.well_paged v ->
                SessionSpec.well_paged (run json_loads (Some db) evs v)).
      { unfold run. induction evs as [|ev evs IH]; intros v W; [exact W|].
        cbn. apply IH, handle_well_paged, W. }
      apply G. unfold SessionSpec.well_paged, Config.SEARCH_RESULTS_LIMIT.
      cbn. repeat split; lia.
  - split; [reflexivity|]. right. exists db. split; [reflexivity|].
    intros r Hr. unfold validate_database in V. apply Nat.ltb_ge in V.
    destruct (Store.scrape_success r) eqn:S; [|reflexivity].
    assert (In r (filter Store.scrape_success db)) as Hin
      by (apply filter_In; auto).
    destruct (filter Store.scrape_success db); [destruct Hin|cbn in V; lia].
Qed.

End OpeningFacts.

(** ** The dates of the archive listing *)

Section ArchiveFacts.
Import PyStr Archive.

Variable reformat : string -> option string.
Variable archive_net : nat -> string -> option Page.

Local Abbreviation note := (Archive.note reformat).
Local Abbreviation archive_loop := (Archive.archive_loop reformat archive_net).

Lemma prefix_append (a b : string) : String.prefix a (a ++ b)%string = true.
Proof.
  induction a as [|c a IH]; cbn; [destruct b; reflexivity|].
  destruct (ascii_dec c c); [exact IH|congruence].
Qed.

Lemma dict_set_keys (k v : string) (d : Dates) :
  map fst (dict_set k v d)
  = if existsb (String.eqb k) (map fst d) then map fst d else map fst d ++ [k].
Proof.
  induction d as [|[k' v'] d IH]; cbn; [reflexivity|].
  rewrite (String.eqb_sym k k'). destruct (k' =? k) eqn:E; cbn.
  - apply String.eqb_eq in E. now subst.
  - rewrite IH. destruct (existsb _ _); reflexivity.
Qed.

Lemma dict_set_In (k v : string) (d : Dates) (kv : string * string) :
  In kv (dict_set k v d) -> kv = (k, v) \/ In kv d.
Proof.
  induction d as [|[k' v'] d IH]; cbn; [intros [H|[]]; auto|].
  destruct (k' =? k); cbn; intros [H|H]; auto. destruct (IH H); auto.
Qed.

Lemma dict_get_set (k v : string) (d : Dates) (k0 : string) :
  dict_get (dict_set k v d) k0 = if k =? k0 then Some v else dict_get d k0.
Proof.
  induction d as [|[k' v'] d IH]; cbn; [reflexivity|].
  destruct (k' =? k) eqn:E; cbn.
  - apply String.eqb_eq in E. subst k'. destruct (k =? k0); reflexivity.
  - rewrite IH. destruct (k' =? k0) eqn:E0; [|reflexivity].
    apply String.eqb_eq in E0. subst k'.
    rewrite String.eqb_sym, E. reflexivity.
Qed.

Lemma dict_set_tidy (k v : string) (d : Dates) :
  String.prefix Config.LIBRARY_BASE_URL k = true ->
  tidy d -> tidy (dict_set k v d).
Proof.
  intros Hk [Hn Hp]. split.
  - rewrite dict_set_keys. destruct (existsb _ _) eqn:E; [exact Hn|].
    assert (Hk' : ~ In k (map fst d)).
    { intros Hx.
      assert (existsb (String.eqb k) (map fst d) = true); [|congruence].
      apply existsb_exists. exists k. split; [exact Hx|apply String.eqb_refl]. }
    clear E. induction (map fst d) as [|a l IHl]; cbn.
    + repeat constructor. intros [].
    + inversion Hn; subst. constructor.
      * rewrite in_app_iff. cbn. intros [H|[H|[]]]; [auto|].
        subst. apply Hk'. now left.
      * apply IHl; [assumption|]. intros H. apply Hk'. now right.
  - apply Forall_forall. intros kv Hkv.
    apply dict_set_In in Hkv as [->|Hkv]; [exact Hk|].
    rewrite Forall_forall in Hp. auto.
Qed.

Lemma note_tidy (acc : Dates * nat) (article : Listed) :
  tidy (fst acc) -> tidy (fst (note acc article)).
Proof.
  destruct acc as [d n]. unfold Archive.note. intros H.
  destruct (title_href article) as [href|]; [|exact H].
  destruct (date_text article) as [text|]; [|exact H].
  destruct (reformat text); cbn [fst]; apply dict_set_tidy; auto;
    apply prefix_append.
Qed.

Lemma notes_tidy (articles : list Listed) (acc : Dates * nat) :
  tidy (fst acc) -> tidy (fst (fold_left note articles acc)).
Proof.
  revert acc. induction articles as [|a articles IH]; intros acc H; [exact H|].
  cbn. apply IH, note_tidy, H.
Qed.

Lemma archive_loop_spec (fuel : nat) (url : string) (o : Outcome) :
  tidy (dates o) ->
  let r := archive_loop fuel url o in
  tidy (dates r) /\ gets o <= gets r <= gets o + fuel /\
  sleeps o <= sleeps r /\ sleeps r - sleeps o <= gets r - gets o.
Proof.
  revert url o. induction fuel as [|fuel IH]; intros url o H; cbn -[Nat.sub].
  - repeat split; try apply H; lia.
  - destruct (truthy url); [|repeat split; try apply H; lia].
    destruct (archive_net (gets o) url) as [page|];
      [|cbn -[Nat.sub]; repeat split; try apply H; lia].
    pose proof (notes_tidy (listed page) (dates o, dates_extracted o) H) as T.
    destruct (fold_left note (listed page) (dates o, dates_extracted o))
      as [d' n']. cbn [fst] in T.
    destruct (older page) as [next|].
    + specialize (IH (Config.LIBRARY_BASE_URL ++ shown next)%string
                     (mkOutcome d' n' (S (gets o)) (S (sleeps o))) T).
      cbn -[Nat.sub] in IH. destruct IH as (I1 & I2 & I3 & I4).
      repeat split; try apply I1; lia.
    + cbn -[Nat.sub]. repeat split; try apply T; lia.
Qed.

Lemma archive_loop_first_failure (fuel : nat) (url : string) (o : Outcome) :
  truthy url = true -> archive_net (gets o) url = None ->
  archive_loop (S fuel) url o
  = mkOutcome (dates o) (dates_extracted o) (S (gets o)) (sleeps o).
Proof. intros T N. cbn [Archive.archive_loop]. now rewrite T, N. Qed.

Lemma archive_loop_from_nothing (fuel : nat) (url : string) :
  let r := archive_loop fuel url (mkOutcome [] 0 0 0) in
  tidy (dates r) /\ gets r <= fuel /\ sleeps r <= gets r.
Proof.
  assert (T0 : tidy (dates (mkOutcome [] 0 0 0))) by (split; constructor).
  destruct (archive_loop_spec fuel url (mkOutcome [] 0 0 0) T0)
    as (T & Hg & Hs & Hsg).
  revert T Hg Hs Hsg.
  generalize (archive_loop fuel url (mkOutcome [] 0 0 0)). intros r.
  cbn [gets sleeps]. intros. repeat split; try apply T; lia.
Qed.

(** X24: [scrape_dates_from_archives] requests at most 50 pages and sleeps
    at most once per request; a first page that fails leaves it with no
    date after that one request; the URLs it dates are distinct and all
    under the base URL; and a date it gathered for a URL replaces, in
    [extract_metadata], whatever date the page of that URL shows. *)
Theorem archive_dates_are_bounded_and_win :
  let r := scrape_dates_from_archives reformat archive_net in
  gets r <= 50 /\
  sleeps r <= gets r /\
  NoDup (map fst (dates r)) /\
  (forall k v, In (k, v) (dates r) ->
               String.prefix Config.LIBRARY_BASE_URL k = true) /\
  (archive_net 0 (Config.LIBRARY_BASE_URL ++ "/digital-library")%string = None ->
   dates r = [] /\ gets r = 1) /\
  (forall json_dumps soup url_data d,
     dict_get (dates r) (Scraper.u_url url_data) = Some d ->
     Scraper.d_published_date
       (Scraper.extract_metadata json_dumps (dict_get (dates r)) soup url_data)
     = d).
Proof.
  unfold scrape_dates_from_archives. cbv zeta. generalize 49. intros fuel.
  set (r := archive_loop (S fuel) _ _).
  pose proof (archive_loop_from_nothing (S fuel)
                (Config.LIBRARY_BASE_URL ++ "/digital-library")%string) as H.
  cbv zeta in H. fold r in H. destruct H as ((Hn & Hp) & Hg & Hs).
  split; [exact Hg|]. split; [exact Hs|]. split; [exact Hn|]. split; [|split].
  - intros k v Hin. rewrite Forall_forall in Hp. exact (Hp (k, v) Hin).
  - intros N. unfold r.
    rewrite archive_loop_first_failure; [split; reflexivity|reflexivity|exact N].
  - intros json_dumps soup url_data d Hd.
    unfold Scraper.extract_metadata. cbn [Scraper.d_published_date].
    now rewrite Hd.
Qed.

Example archive_of_two_pages :
  let r := Archive.scrape_dates_from_archives ArchiveSamples.reformat
             ArchiveSamples.two_pages in
  Archive.dates r
  = [("https://sacredcommunityproject.org/digital-library/alpha", "2025-07-02");
     ("https://sacredcommunityproject.org/digital-library/beta", "last week")]
  /\ Archive.dates_extracted r = 2 /\ Archive.gets r = 2 /\ Archive.sleeps r = 1.
Proof. vm_compute. repeat split. Qed.

Example endless_archive_stops :
  let r := Archive.scrape_dates_from_archives ArchiveSamples.reformat
             ArchiveSamples.endless in
  Archive.gets r = 50 /\ Archive.sleeps r = 50.
Proof. vm_compute. split; reflexivity. Qed.

End ArchiveFacts.

(** ** One article of a results page *)

Section FormattingFacts.
Import PyStr Formatting.





End FormattingFacts.

(** ** Rendering a page of results *)

Section Rendering.
Import PyStr Queries Bot Formatting.

Variable json_loads : string -> option (list string).
Variable database : option Store.Table.





End Rendering.

Example orphan_row_gives_search_error :
  let r := Bot.update_results PlainJson.loads (Some [RenderSamples.orphan_row])
             (SessionSpec.new_view Samples.dropdowns) in
  snd r = [Bot.Defer; Bot.EditOriginalResponse Bot.SearchError] /\
  List.length (Bot.current_results (fst r)) = 1.
Proof. vm_compute. split; reflexivity. Qed.

(** ** The sitemaps *)

Example one_regular_sitemap :
  Sitemap.get_all_urls_from_sitemap ArchiveSamples.one_sitemap
  = ([Sitemap.mkEntry (Some Samples.url_a) (Some "2025-07-01");
      Sitemap.mkEntry None None], 3).
Proof. vm_compute. reflexivity. Qed.

Section SitemapFacts.
Import Sitemap.

Variable sitemap_net : nat -> string -> option Doc.

Local Abbreviation served := (Sitemap.served sitemap_net).
Local Abbreviation all_served := (Sitemap.all_served sitemap_net).
Local Abbreviation parse_individual_sitemap :=
  (Sitemap.parse_individual_sitemap sitemap_net).
Local Abbreviation follow := (Sitemap.follow sitemap_net).
Local Abbreviation visit := (Sitemap.visit sitemap_net).

Lemma served_later (n m : nat) (entry : Entry) :
  n <= m -> served n entry -> served m entry.
Proof.
  intros L (k & u & doc & e & H & R). exists k, u, doc, e. split; [lia|exact R].
Qed.

Lemma parse_individual_sitemap_served (k : nat) (u : option string) :
  let r := parse_individual_sitemap k u in
  k <= snd r <= S k /\ forall entry, In entry (fst r) -> served (snd r) entry.
Proof.
  unfold Sitemap.parse_individual_sitemap.
  destruct u as [u|]; cbn; [|split; [lia|intros ? []]].
  destruct (sitemap_net k u) as [doc|] eqn:N; cbn; (split; [lia|]);
    [|intros ? []].
  intros entry H. apply in_flat_map in H as (e & He & H).
  unfold entry_of in H. destruct (loc e) as [text|] eqn:L; [|destruct H].
  destruct H as [<-|[]]. exists k, u, doc, e. cbn. repeat split; auto.
Qed.

Lemma follow_served (st : list Entry * nat) (l : option (option string)) :
  all_served st ->
  all_served (follow st l) /\ snd st <= snd (follow st l).
Proof.
  intros H. unfold Sitemap.follow. destruct l as [text|]; [|split; [exact H|lia]].
  pose proof (parse_individual_sitemap_served (snd st) text) as P.
  cbv zeta in P.
  destruct (parse_individual_sitemap (snd st) text) as [sub k'].
  cbn [fst snd] in *. destruct P as (L & P). split; [|lia].
  intros entry Hin. cbn [fst snd] in *. apply in_app_iff in Hin as [Hin|Hin].
  - apply (served_later (snd st)); [lia|auto].
  - auto.
Qed.

Lemma follow_all_served (ls : list (option (option string)))
    (st : list Entry * nat) :
  all_served st ->
  all_served (fold_left follow ls st) /\ snd st <= snd (fold_left follow ls st).
Proof.
  revert st. induction ls as [|l ls IH]; intros st H; cbn; [split; [exact H|lia]|].
  destruct (follow_served st l H) as (H1 & L1).
  destruct (IH _ H1) as (H2 & L2). split; [exact H2|lia].
Qed.

Lemma visit_served (st : list Entry * nat) (u : string) :
  all_served st ->
  all_served (visit st u) /\ snd st < snd (visit st u).
Proof.
  intros H. unfold Sitemap.visit.
  assert (H' : all_served (fst st, S (snd st))).
  { intros entry Hin. apply (served_later (snd st)); [cbn; lia|auto]. }
  destruct (sitemap_net (snd st) u) as [doc|]; [|split; [exact H'|cbn; lia]].
  destruct (is_index doc).
  - destruct (follow_all_served (sitemap_locs doc) _ H') as (H2 & L2).
    cbn [snd] in L2. split; [exact H2|lia].
  - pose proof (parse_individual_sitemap_served (S (snd st)) (Some u)) as P.
    cbv zeta in P.
    destruct (parse_individual_sitemap (S (snd st)) (Some u)) as [urls k'].
    cbn [fst snd] in *. destruct P as (L & P). split; [|lia].
    intros entry Hin. cbn [fst snd] in *. apply in_app_iff in Hin as [Hin|Hin].
    + apply (served_later (snd st)); [lia|auto].
    + auto.
Qed.

(** X26: [get_all_urls_from_sitemap] never raises and makes at least one
    request for each of its two sitemap URLs; every entry it returns is a
    [url] element, with a [loc] child, of a document the network served
    during the call, with that element's [loc] and [lastmod] texts; and with
    every request failing it returns no URL after two requests. *)
Theorem sitemap_entries_were_served :
  let r := get_all_urls_from_sitemap sitemap_net in
  2 <= snd r /\
  (forall entry, In entry (fst r) -> served (snd r) entry) /\
  ((forall k u, sitemap_net k u = None) -> r = ([], 2)).
Proof.
  unfold get_all_urls_from_sitemap, sitemap_urls. cbn [fold_left].
  assert (H0 : all_served ([], 0)) by (intros ? []).
  destruct (visit_served _ (Config.LIBRARY_BASE_URL ++ "/sitemap.xml")%string H0)
    as (H1 & L1).
  destruct (visit_served _ (Config.LIBRARY_BASE_URL ++ "/sitemap.index.xml")%string H1)
    as (H2 & L2).
  cbn [snd] in L1. cbv zeta. split; [lia|]. split; [exact H2|].
  intros N. unfold Sitemap.visit. cbn [fst snd]. rewrite N. cbn [fst snd].
  rewrite N. reflexivity.
Qed.

End SitemapFacts.
